(** * Ready Trader Go auto-traders: a shallow embedding

    Two strategies are embedded, each from its own source file:

    - [FAK]: [autotrader.py], which quotes fill-and-kill orders of a fixed
      size and follows a volume trend;
    - [GFD]: [autotrader5.py], which quotes good-for-day orders sized from
      the depth of the book.

    Both mix Python integers with Python floats ([/] is true division), so
    module [Py] first gives the part of Python's numeric tower the traders
    use: unbounded integers as [Z], floats as IEEE 754 binary64 values of
    [spec_float], with the conversions, comparisons and exceptions of
    CPython.  A handler is a function in a monad that threads the trader's
    attributes, collects the commands sent to the exchange and stops at the
    first exception, keeping what was done before it. *)

From Stdlib Require Import ZArith Bool List Lia.
From Stdlib Require Import Floats.SpecFloat.
From Stdlib Require Import Sorted.
From stdpp Require Import base option gmap.

#[local] Set Warnings "-clear-no-such-hyp".

Local Open Scope Z_scope.

(** ** Python numbers *)

Module Py.

(** The exceptions the embedded code can raise. *)
Inductive exn : Set :=
| OverflowError
| ZeroDivisionError
| ValueError
| IndexError
| UnicodeDecodeError.

(** The result of evaluating an expression: a value or a raised exception. *)
Inductive res (A : Type) : Type :=
| Val (a : A)
| Exc (e : exn).
Arguments Val {A} a.
Arguments Exc {A} e.

#[global] Instance res_ret : MRet res := fun _ a => Val a.
#[global] Instance res_bind : MBind res := fun _ _ f r =>
  match r with
  | Val a => f a
  | Exc e => Exc e
  end.
#[global] Instance res_fmap : FMap res := fun _ _ f r =>
  match r with
  | Val a => Val (f a)
  | Exc e => Exc e
  end.

(** binary64 *)
Definition prec : Z := 53.
Definition emax : Z := 1024.

Definition fadd : spec_float -> spec_float -> spec_float := SFadd prec emax.
Definition fsub : spec_float -> spec_float -> spec_float := SFsub prec emax.
Definition fmul : spec_float -> spec_float -> spec_float := SFmul prec emax.
Definition fdiv : spec_float -> spec_float -> spec_float := SFdiv prec emax.

(** The float nearest to [m * 2^e], ties to even. *)
Definition nearest (m e : Z) : spec_float := binary_normalize prec emax m e false.

Definition fzero : spec_float := S754_zero false.
Definition fone : spec_float := nearest 1 0.
Definition fhalf : spec_float := nearest 1 (-1).

Definition sign_bit (x : spec_float) : bool :=
  match x with
  | S754_zero s | S754_infinity s | S754_finite s _ _ => s
  | S754_nan => false
  end.

(** C's [copysign(0.0, x)]. *)
Definition zero_with_sign_of (x : spec_float) : spec_float :=
  S754_zero (sign_bit x).

(** C's [floor]: a float with a negative exponent loses its fraction
    downwards; every other float is integral already (or not finite). *)
Definition ffloor (x : spec_float) : spec_float :=
  match x with
  | S754_finite s m (Zneg p) =>
      binary_normalize prec emax (cond_Zopp s (Zpos m) / 2 ^ Zpos p) 0 s
  | _ => x
  end.

(** C's [fmod]: the exact remainder of the truncated quotient, with the
    sign of the dividend. *)
Definition ffmod (x y : spec_float) : spec_float :=
  match x, y with
  | S754_nan, _ | _, S754_nan => S754_nan
  | S754_infinity _, _ => S754_nan
  | _, S754_zero _ => S754_nan
  | _, S754_infinity _ => x
  | S754_zero _, _ => x
  | S754_finite sx mx ex, S754_finite _ my ey =>
      let ez := Z.min ex ey in
      let a := Zpos (fst (shl_align mx ex ez)) in
      let b := Zpos (fst (shl_align my ey ez)) in
      binary_normalize prec emax (cond_Zopp sx (a mod b)) ez sx
  end.

(** [PyLong_AsDouble]: correctly rounded, [OverflowError] when the integer
    is too large for a float. *)
Definition float_of_int (z : Z) : res spec_float :=
  match nearest z 0 with
  | S754_infinity _ => Exc OverflowError
  | f => Val f
  end.

(** [int / int]: the correctly rounded quotient.  The quotient is taken
    with enough extra bits and a sticky bit for the remainder, so that one
    rounding gives the float nearest to the exact quotient. *)
Definition int_true_divide (a b : Z) : res spec_float :=
  if b =? 0 then Exc ZeroDivisionError
  else if a =? 0 then Val (S754_zero (b <? 0))
  else
    let neg := xorb (a <? 0) (b <? 0) in
    let n := Z.abs a in
    let d := Z.abs b in
    let sh := Z.max 0 (Z.log2 d - Z.log2 n + 64) in
    let q := Z.shiftl n sh / d in
    let sticky := if Z.shiftl n sh mod d =? 0 then 0 else 1 in
    match binary_normalize prec emax (cond_Zopp neg (2 * q + sticky)) (- sh - 1) neg with
    | S754_infinity _ => Exc OverflowError
    | f => Val f
    end.

(** [float.__floordiv__] for a nonzero divisor: CPython's [_float_div_mod]. *)
Definition float_floor_div (vx wx : spec_float) : spec_float :=
  let mod_ := ffmod vx wx in
  let div := fdiv (fsub vx mod_) wx in
  let div :=
    if negb (SFeqb mod_ fzero) && xorb (SFltb wx fzero) (SFltb mod_ fzero)
    then fsub div fone else div in
  if negb (SFeqb div fzero) then
    let floordiv := ffloor div in
    if SFltb fhalf (fsub div floordiv) then fadd floordiv fone else floordiv
  else zero_with_sign_of (fdiv vx wx).

(** [int(x)] of a float: truncation, with the errors of [PyLong_FromDouble]. *)
Definition int_of_float (x : spec_float) : res Z :=
  match x with
  | S754_nan => Exc ValueError
  | S754_infinity _ => Exc OverflowError
  | S754_zero _ => Val 0
  | S754_finite s m (Zneg p) => Val (cond_Zopp s (Zpos m / 2 ^ Zpos p))
  | S754_finite s m e => Val (cond_Zopp s (Zpos m * 2 ^ e))
  end.

(** Python compares an integer with a float by their exact values. *)
Definition compare_int_float (z : Z) (x : spec_float) : option comparison :=
  match x with
  | S754_nan => None
  | S754_infinity s => Some (if s then Gt else Lt)
  | S754_zero _ => Some (z ?= 0)
  | S754_finite s m (Zneg p) => Some (z * 2 ^ Zpos p ?= cond_Zopp s (Zpos m))
  | S754_finite s m e => Some (z ?= cond_Zopp s (Zpos m) * 2 ^ e)
  end.

(** A number: an [int] or a [float]. *)
Inductive num : Set :=
| Int (z : Z)
| Float (x : spec_float).

Definition compare (a b : num) : option comparison :=
  match a, b with
  | Int x, Int y => Some (x ?= y)
  | Int x, Float y => compare_int_float x y
  | Float x, Int y => CompOpp <$> compare_int_float y x
  | Float x, Float y => SFcompare x y
  end.

Definition lt (a b : num) : bool :=
  match compare a b with Some Lt => true | _ => false end.
Definition gt (a b : num) : bool :=
  match compare a b with Some Gt => true | _ => false end.
Definition eq (a b : num) : bool :=
  match compare a b with Some Eq => true | _ => false end.
Definition ne (a b : num) : bool := negb (eq a b).

(** [max(a, b)] and [min(a, b)] keep the first argument unless the second
    is strictly better, and return the object they choose unconverted. *)
Definition max (a b : num) : num := if gt b a then b else a.
Definition min (a b : num) : num := if lt b a then b else a.

Definition to_float (a : num) : res spec_float :=
  match a with
  | Int z => float_of_int z
  | Float x => Val x
  end.

Definition float_op (op : spec_float -> spec_float -> spec_float) (a b : num) : res num :=
  x ← to_float a; y ← to_float b; mret (Float (op x y)).

Definition add (a b : num) : res num :=
  match a, b with
  | Int x, Int y => Val (Int (x + y))
  | _, _ => float_op fadd a b
  end.

Definition sub (a b : num) : res num :=
  match a, b with
  | Int x, Int y => Val (Int (x - y))
  | _, _ => float_op fsub a b
  end.

Definition mul (a b : num) : res num :=
  match a, b with
  | Int x, Int y => Val (Int (x * y))
  | _, _ => float_op fmul a b
  end.

(** [a / b] *)
Definition truediv (a b : num) : res num :=
  match a, b with
  | Int x, Int y => Float <$> int_true_divide x y
  | _, _ =>
      x ← to_float a; y ← to_float b;
      if SFeqb y fzero then Exc ZeroDivisionError else mret (Float (fdiv x y))
  end.

(** [a // b] *)
Definition floordiv (a b : num) : res num :=
  match a, b with
  | Int x, Int y => if y =? 0 then Exc ZeroDivisionError else Val (Int (x / y))
  | _, _ =>
      x ← to_float a; y ← to_float b;
      if SFeqb y fzero then Exc ZeroDivisionError else mret (Float (float_floor_div x y))
  end.

(** [int(a)] *)
Definition int (a : num) : res Z :=
  match a with
  | Int z => Val z
  | Float x => int_of_float x
  end.

(** [l[i]] for a non-negative index. *)
Definition index {A} (l : list A) (i : nat) : res A :=
  match l !! i with
  | Some a => Val a
  | None => Exc IndexError
  end.

End Py.

(** ** The interface to the exchange *)

(** [ready_trader_go] itself is not among the embedded sources.  Its
    enumerations are given by the member names the traders use, its
    constants are the fields of [Exchange], and a call of one of the
    [send_*] methods of [BaseAutoTrader] is recorded as a [Command]. *)
Module Rtg.

Inductive Side : Set := ASK | BID | BUY | SELL.
Inductive Lifespan : Set := FILL_AND_KILL | GFD.

Inductive Command : Set :=
| send_insert_order (client_order_id : Z) (side : Side) (price volume : Z) (lifespan : Lifespan)
| send_cancel_order (client_order_id : Z)
| send_hedge_order (client_order_id : Z) (side : Side) (price volume : Z).

(** [MINIMUM_BID], [MAXIMUM_ASK] and [Instrument.FUTURE] are imported from
    [ready_trader_go]; [decodable] tells whether [bytes.decode] accepts a
    message (it raises [UnicodeDecodeError] otherwise). *)
Class Exchange : Type := {
  MINIMUM_BID : Z;
  MAXIMUM_ASK : Z;
  FUTURE : Z;
  decodable : list Byte.byte -> bool
}.

(** The constants of one exchange, for running the traders on examples. *)
Definition sample : Exchange := {|
  MINIMUM_BID := 1;
  MAXIMUM_ASK := 2147483647;
  FUTURE := 0;
  decodable := fun _ => true
|}.

(** A handler: from the attributes of the trader to the result, the
    attributes afterwards and the commands sent, in order. *)
Definition M (S A : Type) : Type := S -> Py.res A * S * list Command.

Definition result {S A} (o : Py.res A * S * list Command) : Py.res A := o.1.1.
Definition after {S A} (o : Py.res A * S * list Command) : S := o.1.2.
Definition sent {S A} (o : Py.res A * S * list Command) : list Command := o.2.

#[global] Instance M_ret {S} : MRet (M S) := fun _ a s => (Py.Val a, s, []).
#[global] Instance M_bind {S} : MBind (M S) := fun _ _ f m s =>
  let o1 := m s in
  match result o1 with
  | Py.Val a =>
      let o2 := f a (after o1) in
      (result o2, after o2, sent o1 ++ sent o2)
  | Py.Exc e => (Py.Exc e, after o1, sent o1)
  end.

(** Reading an attribute, assigning attributes, sending a command, and
    evaluating an expression that may raise. *)
Definition attr {S A} (f : S -> A) : M S A := fun s => (Py.Val (f s), s, []).
Definition assign {S} (f : S -> S) : M S unit := fun s => (Py.Val tt, f s, []).
Definition send {S} (c : Command) : M S unit := fun s => (Py.Val tt, s, [c]).
Definition eval {S A} (r : Py.res A) : M S A := fun s => (r, s, []).

(** An outcome with one more command sent at the front. *)
Definition emit {S A} (c : Command) (o : Py.res A * S * list Command)
    : Py.res A * S * list Command :=
  (result o, after o, c :: sent o).

(** A handler keeps a property of the attributes when the property holds
    after the handler whenever it held before, whether the handler returns
    or raises. *)
Definition keeps {S A} (I : S -> Prop) (m : M S A) : Prop :=
  forall s, I s -> I (after (m s)).

End Rtg.

(** ** autotrader.py: fill-and-kill quotes *)

Module FAK.
Import Rtg.

Section Trader.
Context {X : Exchange}.

Definition LOT_SIZE : Z := 10.
Definition POSITION_LIMIT : Z := 100.
Definition TICK_SIZE_IN_CENTS : Z := 100.
Definition MIN_BID_NEAREST_TICK : Z :=
  (MINIMUM_BID + TICK_SIZE_IN_CENTS) / TICK_SIZE_IN_CENTS * TICK_SIZE_IN_CENTS.
Definition MAX_ASK_NEAREST_TICK : Z :=
  MAXIMUM_ASK / TICK_SIZE_IN_CENTS * TICK_SIZE_IN_CENTS.

(** The attributes of [AutoTrader].  [order_ids] is the next value of
    [itertools.count(1)]. *)
Record State : Type := {
  order_ids : Z;
  bids : gset Z;
  asks : gset Z;
  ask_id : Z;
  ask_price : Py.num;
  bid_id : Z;
  bid_price : Py.num;
  position : Z;
  order_timestamps : gmap Z spec_float;
  trading_volume : Py.num;
  price_trend : Z
}.

(** [__init__] *)
Definition init : State := {|
  order_ids := 1;
  bids := ∅;
  asks := ∅;
  ask_id := 0;
  ask_price := Py.Int 0;
  bid_id := 0;
  bid_price := Py.Int 0;
  position := 0;
  order_timestamps := ∅;
  trading_volume := Py.Int 0;
  price_trend := 0
|}.

Definition set_order_ids (v : Z) (s : State) : State :=
  {| order_ids := v; bids := bids s; asks := asks s; ask_id := ask_id s;
     ask_price := ask_price s; bid_id := bid_id s; bid_price := bid_price s;
     position := position s; order_timestamps := order_timestamps s;
     trading_volume := trading_volume s; price_trend := price_trend s |}.
Definition set_bids (v : gset Z) (s : State) : State :=
  {| order_ids := order_ids s; bids := v; asks := asks s; ask_id := ask_id s;
     ask_price := ask_price s; bid_id := bid_id s; bid_price := bid_price s;
     position := position s; order_timestamps := order_timestamps s;
     trading_volume := trading_volume s; price_trend := price_trend s |}.
Definition set_asks (v : gset Z) (s : State) : State :=
  {| order_ids := order_ids s; bids := bids s; asks := v; ask_id := ask_id s;
     ask_price := ask_price s; bid_id := bid_id s; bid_price := bid_price s;
     position := position s; order_timestamps := order_timestamps s;
     trading_volume := trading_volume s; price_trend := price_trend s |}.
Definition set_ask_id (v : Z) (s : State) : State :=
  {| order_ids := order_ids s; bids := bids s; asks := asks s; ask_id := v;
     ask_price := ask_price s; bid_id := bid_id s; bid_price := bid_price s;
     position := position s; order_timestamps := order_timestamps s;
     trading_volume := trading_volume s; price_trend := price_trend s |}.
Definition set_ask_price (v : Py.num) (s : State) : State :=
  {| order_ids := order_ids s; bids := bids s; asks := asks s; ask_id := ask_id s;
     ask_price := v; bid_id := bid_id s; bid_price := bid_price s;
     position := position s; order_timestamps := order_timestamps s;
     trading_volume := trading_volume s; price_trend := price_trend s |}.
Definition set_bid_id (v : Z) (s : State) : State :=
  {| order_ids := order_ids s; bids := bids s; asks := asks s; ask_id := ask_id s;
     ask_price := ask_price s; bid_id := v; bid_price := bid_price s;
     position := position s; order_timestamps := order_timestamps s;
     trading_volume := trading_volume s; price_trend := price_trend s |}.
Definition set_bid_price (v : Py.num) (s : State) : State :=
  {| order_ids := order_ids s; bids := bids s; asks := asks s; ask_id := ask_id s;
     ask_price := ask_price s; bid_id := bid_id s; bid_price := v;
     position := position s; order_timestamps := order_timestamps s;
     trading_volume := trading_volume s; price_trend := price_trend s |}.
Definition set_position (v : Z) (s : State) : State :=
  {| order_ids := order_ids s; bids := bids s; asks := asks s; ask_id := ask_id s;
     ask_price := ask_price s; bid_id := bid_id s; bid_price := bid_price s;
     position := v; order_timestamps := order_timestamps s;
     trading_volume := trading_volume s; price_trend := price_trend s |}.
Definition set_order_timestamps (v : gmap Z spec_float) (s : State) : State :=
  {| order_ids := order_ids s; bids := bids s; asks := asks s; ask_id := ask_id s;
     ask_price := ask_price s; bid_id := bid_id s; bid_price := bid_price s;
     position := position s; order_timestamps := v;
     trading_volume := trading_volume s; price_trend := price_trend s |}.
Definition set_trading_volume (v : Py.num) (s : State) : State :=
  {| order_ids := order_ids s; bids := bids s; asks := asks s; ask_id := ask_id s;
     ask_price := ask_price s; bid_id := bid_id s; bid_price := bid_price s;
     position := position s; order_timestamps := order_timestamps s;
     trading_volume := v; price_trend := price_trend s |}.
Definition set_price_trend (v : Z) (s : State) : State :=
  {| order_ids := order_ids s; bids := bids s; asks := asks s; ask_id := ask_id s;
     ask_price := ask_price s; bid_id := bid_id s; bid_price := bid_price s;
     position := position s; order_timestamps := order_timestamps s;
     trading_volume := trading_volume s; price_trend := v |}.

(** [next(self.order_ids)] *)
Definition next_order_id : M State Z :=
  n ← attr order_ids; assign (set_order_ids (n + 1));; mret n.

(** [on_hedge_filled_message]: the handler only logs. *)
Definition on_hedge_filled_message (client_order_id price volume : Z) : M State unit :=
  mret tt.

(** [on_order_filled_message]; [now] is what [self.event_loop.time()]
    returns during the call. *)
Definition on_order_filled_message (client_order_id price volume : Z)
    (now : spec_float) : M State unit :=
  stamps ← attr order_timestamps;
  assign (set_order_timestamps (<[client_order_id := now]> stamps));;
  open_bids ← attr bids;
  if bool_decide (client_order_id ∈ open_bids) then
    p ← attr position; assign (set_position (p + volume));;
    p ← attr position;
    if p >? POSITION_LIMIT then
      send (send_cancel_order client_order_id);;
      p ← attr position; assign (set_position (p - volume))
    else
      n ← next_order_id;
      send (send_hedge_order n ASK MIN_BID_NEAREST_TICK volume)
  else
    open_asks ← attr asks;
    if bool_decide (client_order_id ∈ open_asks) then
      p ← attr position; assign (set_position (p - volume));;
      p ← attr position;
      if p <? - POSITION_LIMIT then
        send (send_cancel_order client_order_id);;
        p ← attr position; assign (set_position (p + volume))
      else
        n ← next_order_id;
        send (send_hedge_order n BID MAX_ASK_NEAREST_TICK volume)
    else mret tt.

(** [on_order_status_message] *)
Definition on_order_status_message (client_order_id fill_volume remaining_volume fees : Z)
    : M State unit :=
  if remaining_volume =? 0 then
    b ← attr bid_id;
    a ← attr ask_id;
    (if client_order_id =? b then assign (set_bid_id 0)
     else if client_order_id =? a then assign (set_ask_id 0)
     else mret tt);;
    open_bids ← attr bids; assign (set_bids (open_bids ∖ {[client_order_id]}));;
    open_asks ← attr asks; assign (set_asks (open_asks ∖ {[client_order_id]}))
  else mret tt.

(** [on_error_message]; the message is decoded for the log before the
    order is looked up. *)
Definition on_error_message (client_order_id : Z) (error_message : list Byte.byte)
    : M State unit :=
  (if decodable error_message then mret tt else eval (Py.Exc Py.UnicodeDecodeError));;
  open_bids ← attr bids;
  open_asks ← attr asks;
  if negb (client_order_id =? 0)
     && (bool_decide (client_order_id ∈ open_bids) || bool_decide (client_order_id ∈ open_asks))
  then on_order_status_message client_order_id 0 0 0
  else mret tt.

(** The pricing part of [on_order_book_update_message] (the lines up to
    the clamping of the fair price): the spread at the top of the book and
    the fair price, skewed by the position in lots. *)
Definition fair_price (s : State) (ask_prices bid_prices : list Z) : Py.res (Z * Py.num) :=
  let position := position s / LOT_SIZE in
  bid0 ← Py.index bid_prices 0;
  ask0 ← Py.index ask_prices 0;
  let mid_price := (bid0 + ask0) / 2 in
  let spread := ask0 - bid0 in
  lots ← Py.truediv (Py.Int position) (Py.Int 100);
  skew ← Py.mul lots (Py.Int spread);
  skew ← Py.truediv skew (Py.Int 2);
  fair_price ← Py.add (Py.Int mid_price) skew;
  mret (spread,
        Py.min (Py.Int MAX_ASK_NEAREST_TICK) (Py.max (Py.Int MIN_BID_NEAREST_TICK) fair_price)).

(** "Incorporate trading volume and price trends": what the fair price
    becomes. *)
Definition trend_adjusted (s : State) (spread : Z) (fair_price : Py.num) : Py.res Py.num :=
  if Py.ne (trading_volume s) (Py.Int 0) then
    if price_trend s >? 0 then
      adj ← Py.truediv (trading_volume s) (Py.Int 100);
      adj ← Py.mul adj (Py.Int spread);
      adj ← Py.truediv adj (Py.Int 2);
      Py.add fair_price adj
    else
      adj ← Py.truediv (trading_volume s) (Py.Int 100);
      adj ← Py.mul adj (Py.Int spread);
      adj ← Py.truediv adj (Py.Int 2);
      Py.sub fair_price adj
  else mret fair_price.

(** The bid and the ask price around a fair price, clamped and rounded
    down to a tick. *)
Definition quotes_around (spread : Z) (fair_price : Py.num) : Py.res (Py.num * Py.num) :=
  half ← Py.truediv (Py.Int spread) (Py.Int 2);
  bid_price ← Py.sub fair_price half;
  half ← Py.truediv (Py.Int spread) (Py.Int 2);
  ask_price ← Py.add fair_price half;
  bid_price ← Py.floordiv
    (Py.min (Py.Int (MAX_ASK_NEAREST_TICK - spread))
            (Py.max (Py.Int MIN_BID_NEAREST_TICK) bid_price))
    (Py.Int TICK_SIZE_IN_CENTS);
  bid_price ← Py.mul bid_price (Py.Int TICK_SIZE_IN_CENTS);
  ask_price ← Py.floordiv
    (Py.min (Py.Int MAX_ASK_NEAREST_TICK)
            (Py.max (Py.Int (MIN_BID_NEAREST_TICK + spread)) ask_price))
    (Py.Int TICK_SIZE_IN_CENTS);
  ask_price ← Py.mul ask_price (Py.Int TICK_SIZE_IN_CENTS);
  mret (bid_price, ask_price).

(** The bid and ask price the handler computes from a book. *)
Definition quote_prices (s : State) (ask_prices bid_prices : list Z) : Py.res (Py.num * Py.num) :=
  '(spread, fair) ← fair_price s ask_prices bid_prices;
  fair ← trend_adjusted s spread fair;
  quotes_around spread fair.

(** "Update trading volume and price trend" *)
Definition update_trend (ask_volumes bid_volumes : list Z) : M State unit :=
  tv ← attr trading_volume;
  if Py.eq tv (Py.Int 0) then
    ask0 ← eval (Py.index ask_volumes 0);
    bid0 ← eval (Py.index bid_volumes 0);
    v ← eval (Py.truediv (Py.Int (ask0 + bid0)) (Py.Int 2));
    assign (set_trading_volume v)
  else
    ask0 ← eval (Py.index ask_volumes 0);
    bid0 ← eval (Py.index bid_volumes 0);
    current_volume ← eval (Py.truediv (Py.Int (ask0 + bid0)) (Py.Int 2));
    tv ← attr trading_volume;
    volume_difference ← eval (Py.sub current_volume tv);
    assign (set_trading_volume current_volume);;
    if Py.gt volume_difference (Py.Int 0) then assign (set_price_trend 1)
    else if Py.lt volume_difference (Py.Int 0) then assign (set_price_trend (-1))
    else assign (set_price_trend 0).

(** [x not in (y, 0)]: membership in a tuple compares with [==].  (It
    tries identity first, which differs only for a NaN.) *)
Definition not_in_pair (x y : Py.num) : bool :=
  negb (Py.eq x y || Py.eq x (Py.Int 0)).

(** "Cancel existing orders if necessary" *)
Definition cancel_stale (new_bid new_ask : Py.num) : M State unit :=
  b ← attr bid_id;
  old ← attr bid_price;
  (if negb (b =? 0) && not_in_pair new_bid old then
     send (send_cancel_order b);; assign (set_bid_id 0)
   else mret tt);;
  a ← attr ask_id;
  old ← attr ask_price;
  if negb (a =? 0) && not_in_pair new_ask old then
    send (send_cancel_order a);; assign (set_ask_id 0)
  else mret tt.

(** "Place new orders if necessary" *)
Definition place_orders (new_bid new_ask : Py.num) : M State unit :=
  b ← attr bid_id;
  p ← attr position;
  (if (b =? 0) && (p <? POSITION_LIMIT) then
     let max_order_size := Z.min (POSITION_LIMIT - p) LOT_SIZE in
     n ← next_order_id;
     assign (set_bid_id n);;
     assign (set_bid_price new_bid);;
     b ← attr bid_id;
     price ← eval (Py.int new_bid);
     send (send_insert_order b BUY price max_order_size FILL_AND_KILL);;
     open_bids ← attr bids; b ← attr bid_id;
     assign (set_bids (open_bids ∪ {[b]}))
   else mret tt);;
  a ← attr ask_id;
  p ← attr position;
  if (a =? 0) && (p >? - POSITION_LIMIT) then
    let max_order_size := Z.min (POSITION_LIMIT + p) LOT_SIZE in
    n ← next_order_id;
    assign (set_ask_id n);;
    assign (set_ask_price new_ask);;
    a ← attr ask_id;
    price ← eval (Py.int new_ask);
    send (send_insert_order a SELL price max_order_size FILL_AND_KILL);;
    open_asks ← attr asks; a ← attr ask_id;
    assign (set_asks (open_asks ∪ {[a]}))
  else mret tt.

(** [on_order_book_update_message] *)
Definition on_order_book_update_message (instrument sequence_number : Z)
    (ask_prices ask_volumes bid_prices bid_volumes : list Z) : M State unit :=
  if instrument =? FUTURE then
    s ← attr id;
    '(bid_price, ask_price) ← eval (quote_prices s ask_prices bid_prices);
    update_trend ask_volumes bid_volumes;;
    cancel_stale bid_price ask_price;;
    place_orders bid_price ask_price
  else mret tt.

(** The messages the trader has a handler for.  An order fill comes with
    the reading of the event loop's clock. *)
Inductive Event : Type :=
| error_message (client_order_id : Z) (message : list Byte.byte)
| hedge_filled_message (client_order_id price volume : Z)
| order_filled_message (client_order_id price volume : Z) (now : spec_float)
| order_status_message (client_order_id fill_volume remaining_volume fees : Z)
| order_book_update_message (instrument sequence_number : Z)
    (ask_prices ask_volumes bid_prices bid_volumes : list Z).

Definition handle (e : Event) : M State unit :=
  match e with
  | error_message i m => on_error_message i m
  | hedge_filled_message i p v => on_hedge_filled_message i p v
  | order_filled_message i p v now => on_order_filled_message i p v now
  | order_status_message i f r fees => on_order_status_message i f r fees
  | order_book_update_message i n ap av bp bv =>
      on_order_book_update_message i n ap av bp bv
  end.

(** The attributes after a sequence of messages; a handler that raises
    leaves the attributes as they were when it raised. *)
Definition run (s : State) (es : list Event) : State :=
  fold_left (fun s e => after (handle e s)) es s.

(** The exchange reports fills of a non-negative volume. *)
Definition well_formed (e : Event) : bool :=
  match e with
  | order_filled_message _ _ volume _ => 0 <=? volume
  | _ => true
  end.

(** The attributes once the time of a fill is stamped on the order. *)
Definition stamped (i : Z) (now : spec_float) (s : State) : State :=
  set_order_timestamps (<[i := now]> (order_timestamps s)) s.

(** The position is within the limit. *)
Definition within_limit (s : State) : Prop :=
  - POSITION_LIMIT <= position s <= POSITION_LIMIT.

(** The order ids in use were all issued by the counter, the bid and the
    ask slot hold different orders, and no order is on both sides. *)
Definition ledger_ok (s : State) : Prop :=
  0 < order_ids s /\ bid_id s < order_ids s /\ ask_id s < order_ids s /\
  (bid_id s = ask_id s -> bid_id s = 0) /\
  (forall i, i ∈ bids s -> i < order_ids s) /\
  (forall i, i ∈ asks s -> i < order_ids s) /\
  (bids s ## asks s).

(** Order [i] was issued and is no longer tracked anywhere. *)
Definition retired (i : Z) (s : State) : Prop :=
  i < order_ids s /\ (i ∉ bids s) /\ (i ∉ asks s) /\
  (bid_id s = i -> i = 0) /\ (ask_id s = i -> i = 0).

Definition ledger (P : Prop) (i : Z) (s : State) : Prop :=
  ledger_ok s /\ (P -> retired i s).

(** The attributes once order [i] has left the slot it was quoted in. *)
Definition unslotted (i : Z) (s : State) : State :=
  if i =? bid_id s then set_bid_id 0 s
  else if i =? ask_id s then set_ask_id 0 s
  else s.

End Trader.
End FAK.

(** ** autotrader5.py: good-for-day quotes *)

Module GFD.
Import Rtg.

Section Trader.
Context {X : Exchange}.

Definition LOT_SIZE : Z := 20.
Definition POSITION_LIMIT : Z := 100.
Definition TICK_SIZE_IN_CENTS : Z := 100.
Definition MIN_BID_NEAREST_TICK : Z :=
  (MINIMUM_BID + TICK_SIZE_IN_CENTS) / TICK_SIZE_IN_CENTS * TICK_SIZE_IN_CENTS.
Definition MAX_ASK_NEAREST_TICK : Z :=
  MAXIMUM_ASK / TICK_SIZE_IN_CENTS * TICK_SIZE_IN_CENTS.

(** An entry of [self.bids] or [self.asks]: [{'price': ..., 'size': ...}]. *)
Record Order : Type := { price : Py.num; size : Z }.

(** The attributes of [AutoTrader]; [bids] and [asks] are dictionaries
    keyed by order id. *)
Record State : Type := {
  order_ids : Z;
  bids : gmap Z Order;
  asks : gmap Z Order;
  ask_id : Z;
  ask_price : Py.num;
  bid_id : Z;
  bid_price : Py.num;
  position : Z
}.

(** [__init__] *)
Definition init : State := {|
  order_ids := 1;
  bids := ∅;
  asks := ∅;
  ask_id := 0;
  ask_price := Py.Int 0;
  bid_id := 0;
  bid_price := Py.Int 0;
  position := 0
|}.

Definition set_order_ids (v : Z) (s : State) : State :=
  {| order_ids := v; bids := bids s; asks := asks s; ask_id := ask_id s;
     ask_price := ask_price s; bid_id := bid_id s; bid_price := bid_price s;
     position := position s |}.
Definition set_bids (v : gmap Z Order) (s : State) : State :=
  {| order_ids := order_ids s; bids := v; asks := asks s; ask_id := ask_id s;
     ask_price := ask_price s; bid_id := bid_id s; bid_price := bid_price s;
     position := position s |}.
Definition set_asks (v : gmap Z Order) (s : State) : State :=
  {| order_ids := order_ids s; bids := bids s; asks := v; ask_id := ask_id s;
     ask_price := ask_price s; bid_id := bid_id s; bid_price := bid_price s;
     position := position s |}.
Definition set_ask_id (v : Z) (s : State) : State :=
  {| order_ids := order_ids s; bids := bids s; asks := asks s; ask_id := v;
     ask_price := ask_price s; bid_id := bid_id s; bid_price := bid_price s;
     position := position s |}.
Definition set_ask_price (v : Py.num) (s : State) : State :=
  {| order_ids := order_ids s; bids := bids s; asks := asks s; ask_id := ask_id s;
     ask_price := v; bid_id := bid_id s; bid_price := bid_price s;
     position := position s |}.
Definition set_bid_id (v : Z) (s : State) : State :=
  {| order_ids := order_ids s; bids := bids s; asks := asks s; ask_id := ask_id s;
     ask_price := ask_price s; bid_id := v; bid_price := bid_price s;
     position := position s |}.
Definition set_bid_price (v : Py.num) (s : State) : State :=
  {| order_ids := order_ids s; bids := bids s; asks := asks s; ask_id := ask_id s;
     ask_price := ask_price s; bid_id := bid_id s; bid_price := v;
     position := position s |}.
Definition set_position (v : Z) (s : State) : State :=
  {| order_ids := order_ids s; bids := bids s; asks := asks s; ask_id := ask_id s;
     ask_price := ask_price s; bid_id := bid_id s; bid_price := bid_price s;
     position := v |}.

(** [next(self.order_ids)] *)
Definition next_order_id : M State Z :=
  n ← attr order_ids; assign (set_order_ids (n + 1));; mret n.

(** [client_order_id in d] for a dictionary *)
Definition has_key (d : gmap Z Order) (client_order_id : Z) : bool :=
  bool_decide (is_Some (d !! client_order_id)).

(** [sum(order['size'] for order in d.values())] *)
Definition outstanding_volume (d : gmap Z Order) : Z :=
  map_fold (fun _ order total => total + size order) 0 d.

(** [on_hedge_filled_message] and [on_trade_ticks_message]: the handlers
    only log. *)
Definition on_hedge_filled_message (client_order_id price volume : Z) : M State unit :=
  mret tt.

Definition on_trade_ticks_message (instrument sequence_number : Z)
    (ask_prices ask_volumes bid_prices bid_volumes : list Z) : M State unit :=
  mret tt.

(** [on_order_filled_message] *)
Definition on_order_filled_message (client_order_id price volume : Z) : M State unit :=
  open_bids ← attr bids;
  if has_key open_bids client_order_id then
    p ← attr position; assign (set_position (p + volume));;
    p ← attr position;
    if p >? POSITION_LIMIT then
      assign (set_position POSITION_LIMIT)
    else
      n ← next_order_id;
      send (send_hedge_order n ASK MIN_BID_NEAREST_TICK volume)
  else
    open_asks ← attr asks;
    if has_key open_asks client_order_id then
      p ← attr position; assign (set_position (p - volume));;
      p ← attr position;
      if p <? - POSITION_LIMIT then
        assign (set_position (- POSITION_LIMIT))
      else
        n ← next_order_id;
        send (send_hedge_order n BID MAX_ASK_NEAREST_TICK volume)
    else mret tt.

(** [on_order_status_message] *)
Definition on_order_status_message (client_order_id fill_volume remaining_volume fees : Z)
    : M State unit :=
  if remaining_volume =? 0 then
    b ← attr bid_id;
    a ← attr ask_id;
    (if client_order_id =? b then assign (set_bid_id 0)
     else if client_order_id =? a then assign (set_ask_id 0)
     else mret tt);;
    open_bids ← attr bids; assign (set_bids (delete client_order_id open_bids));;
    open_asks ← attr asks; assign (set_asks (delete client_order_id open_asks))
  else mret tt.

(** [on_error_message]; the message is decoded for the log before the
    order is looked up. *)
Definition on_error_message (client_order_id : Z) (error_message : list Byte.byte)
    : M State unit :=
  (if decodable error_message then mret tt else eval (Py.Exc Py.UnicodeDecodeError));;
  open_bids ← attr bids;
  open_asks ← attr asks;
  if negb (client_order_id =? 0)
     && (has_key open_bids client_order_id || has_key open_asks client_order_id)
  then on_order_status_message client_order_id 0 0 0
  else mret tt.

(** The pricing part of [on_order_book_update_message]: the bid and ask
    price for a book, with the spread taken at the third level. *)
Definition quote_prices (s : State) (ask_prices bid_prices : list Z) : Py.res (Py.num * Py.num) :=
  let position := position s / LOT_SIZE in
  bid0 ← Py.index bid_prices 0;
  ask0 ← Py.index ask_prices 0;
  let mid_price := (bid0 + ask0) / 2 in
  ask2 ← Py.index ask_prices 2;
  bid2 ← Py.index bid_prices 2;
  let spread := ask2 - bid2 in
  lots ← Py.truediv (Py.Int position) (Py.Int 100);
  skew ← Py.mul lots (Py.Int spread);
  skew ← Py.truediv skew (Py.Int 2);
  fair_price ← Py.add (Py.Int mid_price) skew;
  let fair_price :=
    Py.min (Py.Int MAX_ASK_NEAREST_TICK) (Py.max (Py.Int MIN_BID_NEAREST_TICK) fair_price) in
  half ← Py.truediv (Py.Int spread) (Py.Int 2);
  bid_price ← Py.sub fair_price half;
  half ← Py.truediv (Py.Int spread) (Py.Int 2);
  ask_price ← Py.add fair_price half;
  bid_price ← Py.floordiv
    (Py.min (Py.Int (MAX_ASK_NEAREST_TICK - spread))
            (Py.max (Py.Int MIN_BID_NEAREST_TICK) bid_price))
    (Py.Int TICK_SIZE_IN_CENTS);
  bid_price ← Py.mul bid_price (Py.Int TICK_SIZE_IN_CENTS);
  ask_price ← Py.floordiv
    (Py.min (Py.Int MAX_ASK_NEAREST_TICK)
            (Py.max (Py.Int (MIN_BID_NEAREST_TICK + spread)) ask_price))
    (Py.Int TICK_SIZE_IN_CENTS);
  ask_price ← Py.mul ask_price (Py.Int TICK_SIZE_IN_CENTS);
  mret (bid_price, ask_price).

(** [x not in (y, 0)]: membership in a tuple compares with [==].  (It
    tries identity first, which differs only for a NaN.) *)
Definition not_in_pair (x y : Py.num) : bool :=
  negb (Py.eq x y || Py.eq x (Py.Int 0)).

(** The cancellation of quotes whose price has changed. *)
Definition cancel_stale (new_bid new_ask : Py.num) : M State unit :=
  b ← attr bid_id;
  old ← attr bid_price;
  (if negb (b =? 0) && not_in_pair new_bid old then
     send (send_cancel_order b);; assign (set_bid_id 0)
   else mret tt);;
  a ← attr ask_id;
  old ← attr ask_price;
  if negb (a =? 0) && not_in_pair new_ask old then
    send (send_cancel_order a);; assign (set_ask_id 0)
  else mret tt.

(** The size of a new bid and of a new ask. *)
Definition bid_order_size (s : State) (bid_volume : Z) : Z :=
  Z.min 14 (Z.max 0 (Z.min (POSITION_LIMIT - position s - outstanding_volume (bids s)) bid_volume)).

Definition ask_order_size (s : State) (ask_volume : Z) : Z :=
  Z.min 14 (Z.max 0 (Z.min (POSITION_LIMIT + position s - outstanding_volume (asks s)) ask_volume)).

(** The placement of a bid. *)
Definition place_bid (new_bid : Py.num) (bid_volume : Z) : M State unit :=
  b ← attr bid_id;
  p ← attr position;
  if (b =? 0) && (p <? POSITION_LIMIT) then
    max_order_size ← attr (fun s => bid_order_size s bid_volume);
    n ← next_order_id;
    assign (set_bid_id n);;
    assign (set_bid_price new_bid);;
    b ← attr bid_id;
    limit ← eval (Py.int new_bid);
    send (send_insert_order b BUY limit max_order_size GFD);;
    open_bids ← attr bids; b ← attr bid_id;
    assign (set_bids (<[b := {| price := new_bid; size := max_order_size |}]> open_bids))
  else mret tt.

(** The placement of an ask. *)
Definition place_ask (new_ask : Py.num) (ask_volume : Z) : M State unit :=
  a ← attr ask_id;
  p ← attr position;
  if (a =? 0) && (p >? - POSITION_LIMIT) then
    max_order_size ← attr (fun s => ask_order_size s ask_volume);
    n ← next_order_id;
    assign (set_ask_id n);;
    assign (set_ask_price new_ask);;
    a ← attr ask_id;
    limit ← eval (Py.int new_ask);
    send (send_insert_order a SELL limit max_order_size GFD);;
    open_asks ← attr asks; a ← attr ask_id;
    assign (set_asks (<[a := {| price := new_ask; size := max_order_size |}]> open_asks))
  else mret tt.

(** [on_order_book_update_message] *)
Definition on_order_book_update_message (instrument sequence_number : Z)
    (ask_prices ask_volumes bid_prices bid_volumes : list Z) : M State unit :=
  if instrument =? FUTURE then
    bid_volume ← eval (Py.index bid_volumes 0);
    ask_volume ← eval (Py.index ask_volumes 0);
    s ← attr id;
    '(bid_price, ask_price) ← eval (quote_prices s ask_prices bid_prices);
    cancel_stale bid_price ask_price;;
    place_bid bid_price bid_volume;;
    place_ask ask_price ask_volume
  else mret tt.

(** The messages the trader has a handler for. *)
Inductive Event : Type :=
| error_message (client_order_id : Z) (message : list Byte.byte)
| hedge_filled_message (client_order_id price volume : Z)
| order_filled_message (client_order_id price volume : Z)
| order_status_message (client_order_id fill_volume remaining_volume fees : Z)
| trade_ticks_message (instrument sequence_number : Z)
    (ask_prices ask_volumes bid_prices bid_volumes : list Z)
| order_book_update_message (instrument sequence_number : Z)
    (ask_prices ask_volumes bid_prices bid_volumes : list Z).

Definition handle (e : Event) : M State unit :=
  match e with
  | error_message i m => on_error_message i m
  | hedge_filled_message i p v => on_hedge_filled_message i p v
  | order_filled_message i p v => on_order_filled_message i p v
  | order_status_message i f r fees => on_order_status_message i f r fees
  | trade_ticks_message i n ap av bp bv => on_trade_ticks_message i n ap av bp bv
  | order_book_update_message i n ap av bp bv =>
      on_order_book_update_message i n ap av bp bv
  end.

(** The attributes after a sequence of messages; a handler that raises
    leaves the attributes as they were when it raised. *)
Definition run (s : State) (es : list Event) : State :=
  fold_left (fun s e => after (handle e s)) es s.

(** The exchange reports fills of a non-negative volume. *)
Definition well_formed (e : Event) : bool :=
  match e with
  | order_filled_message _ _ volume => 0 <=? volume
  | _ => true
  end.

(** The position is within the limit. *)
Definition within_limit (s : State) : Prop :=
  - POSITION_LIMIT <= position s <= POSITION_LIMIT.

(** The order ids in use were all issued by the counter, the bid and the
    ask slot hold different orders, and no order is on both sides. *)
Definition ledger_ok (s : State) : Prop :=
  0 < order_ids s /\ bid_id s < order_ids s /\ ask_id s < order_ids s /\
  (bid_id s = ask_id s -> bid_id s = 0) /\
  (forall i, i ∈ dom (bids s) -> i < order_ids s) /\
  (forall i, i ∈ dom (asks s) -> i < order_ids s) /\
  (dom (bids s) ## dom (asks s)).

(** Order [i] was issued and is no longer tracked anywhere. *)
Definition retired (i : Z) (s : State) : Prop :=
  i < order_ids s /\ (i ∉ dom (bids s)) /\ (i ∉ dom (asks s)) /\
  (bid_id s = i -> i = 0) /\ (ask_id s = i -> i = 0).

Definition ledger (P : Prop) (i : Z) (s : State) : Prop :=
  ledger_ok s /\ (P -> retired i s).

(** The attributes once order [i] has left the slot it was quoted in. *)
Definition unslotted (i : Z) (s : State) : State :=
  if i =? bid_id s then set_bid_id 0 s
  else if i =? ask_id s then set_ask_id 0 s
  else s.

(** The size of a quote in the words of the specification: the least of
    the fixed cap, the room left under the position limit net of the
    outstanding volume, and the depth at the top of the book, and at least
    zero. *)
Definition quoted_size (cap room depth : Z) : Z :=
  Z.max 0 (Z.min cap (Z.min room depth)).

End Trader.
End GFD.

(** ** Sample sessions *)

(** Books, sessions and states on which the traders are run below, with
    the constants of [Rtg.sample]. *)
Module Examples.
Import Rtg.

(** The book of the first scenario: best bid 100.00, best ask 100.02. *)
Definition tight_asks : list Z := [10002; 10003; 10004].
Definition tight_bids : list Z := [10000; 9999; 9998].

(** A book update, a fill of the bid, its final status, a fill of the ask. *)
Definition fak_session : list FAK.Event :=
  [ FAK.order_book_update_message 0 1 [10200; 10300; 10400] [50; 60; 70]
      [10000; 9900; 9800] [40; 30; 20];
    FAK.order_filled_message 1 10000 10 (Py.nearest 3 0);
    FAK.order_status_message 1 10 0 0;
    FAK.order_filled_message 2 10200 10 (Py.nearest 4 0) ].

Definition gfd_session : list GFD.Event :=
  [ GFD.order_book_update_message 0 1 [10200; 10300; 10400] [50; 60; 70]
      [10000; 9900; 9800] [40; 30; 20];
    GFD.order_filled_message 1 10000 10;
    GFD.order_status_message 1 10 0 0;
    GFD.order_filled_message 2 10200 14 ].

(** Bid order 7 is open with the position at [p]. *)
Definition fak_long (p : Z) : FAK.State :=
  FAK.set_position p
    (FAK.set_bids {[7]} (FAK.set_bid_id 7 (FAK.set_order_ids 8 FAK.init))).

(** Ask order 7 is open with the position at [p]. *)
Definition fak_short (p : Z) : FAK.State :=
  FAK.set_position p
    (FAK.set_asks {[7]} (FAK.set_ask_id 7 (FAK.set_order_ids 8 FAK.init))).

Definition gfd_long (p : Z) : GFD.State :=
  GFD.set_position p
    (GFD.set_bids {[7 := {| GFD.price := Py.Int 10000; GFD.size := 10 |}]}
       (GFD.set_bid_id 7 (GFD.set_order_ids 8 GFD.init))).

Definition gfd_short (p : Z) : GFD.State :=
  GFD.set_position p
    (GFD.set_asks {[7 := {| GFD.price := Py.Int 10200; GFD.size := 10 |}]}
       (GFD.set_ask_id 7 (GFD.set_order_ids 8 GFD.init))).

(** A book with no asks: the exchange reports absent levels as zeros. *)
Definition no_asks : FAK.Event :=
  FAK.order_book_update_message 0 1 [0; 0; 0; 0; 0] [0; 0; 0; 0; 0]
    [10000; 9900; 9800; 9700; 9600] [40; 30; 20; 10; 10].

(** Books with the widest spread the price range allows. *)
Definition widest_fak : FAK.Event :=
  FAK.order_book_update_message 0 1 [2147483647; 0; 0; 0; 0] [50; 0; 0; 0; 0]
    [100; 0; 0; 0; 0] [40; 0; 0; 0; 0].

Definition widest_gfd : GFD.Event :=
  GFD.order_book_update_message 0 1
    [2147483400; 2147483500; 2147483600; 0; 0] [50; 60; 70; 0; 0]
    [200; 100; 0; 0; 0] [40; 30; 0; 0; 0].

(** Two books in a row with the same volumes at the top: after the first
    the stored volume is 100.0 and the trend is still 0. *)
Definition steady_book (sequence_number : Z) : FAK.Event :=
  FAK.order_book_update_message 0 sequence_number [10200; 10300; 10400] [100; 60; 70]
    [10000; 9900; 9800] [100; 30; 20].

Definition after_first_book : FAK.State :=
  FAK.run (X := sample) FAK.init [steady_book 1].

(** A book with nothing to buy against at the best bid. *)
Definition thin_asks : list Z := [10200; 10300; 10400].
Definition thin_bids : list Z := [10000; 9900; 9800].
Definition thin_book : GFD.Event :=
  GFD.order_book_update_message 0 1 thin_asks [50; 60; 70] thin_bids [0; 30; 20].

(** A book with no bids: the exchange reports absent levels as zeros. *)
Definition no_bids : GFD.Event :=
  GFD.order_book_update_message 0 1
    [10200; 10300; 10400; 10500; 10600] [50; 60; 70; 80; 90]
    [0; 0; 0; 0; 0] [0; 0; 0; 0; 0].

(** Two books that differ by one tick, and eight of them in turn: each
    moves both quotes, and with no status message in between every quote
    sent stays recorded, so that the outstanding volume of each side
    grows to 7 * 14 + 2 = 100. *)
Definition low_book (sequence_number : Z) : GFD.Event :=
  GFD.order_book_update_message 0 sequence_number [10200; 10300; 10400] [50; 60; 70]
    [10000; 9900; 9800] [40; 30; 20].

Definition high_book (sequence_number : Z) : GFD.Event :=
  GFD.order_book_update_message 0 sequence_number [10300; 10400; 10500] [50; 60; 70]
    [10100; 10000; 9900] [40; 30; 20].

Definition eight_books : list GFD.Event :=
  [low_book 1; high_book 2; low_book 3; high_book 4;
   low_book 5; high_book 6; low_book 7; high_book 8].

Definition after_eight_books : GFD.State :=
  GFD.run (X := sample) GFD.init eight_books.

End Examples.

(** ** Transcripts *)

(** What a run of messages sends, and the parts of it the properties below
    speak about. *)
Module Transcript.
Import Rtg.

(** The id a command gives to a new order: inserts and hedges carry one,
    a cancel names an order that exists already. *)
Definition new_order_id (c : Command) : option Z :=
  match c with
  | send_insert_order i _ _ _ _ => Some i
  | send_hedge_order i _ _ _ => Some i
  | send_cancel_order _ => None
  end.

Definition new_order_ids (l : list Command) : list Z := omap new_order_id l.

(** [l] increases strictly, starts at [lo] or above and ends below [hi]. *)
Fixpoint ascending (lo : Z) (l : list Z) (hi : Z) : Prop :=
  match l with
  | [] => lo <= hi
  | x :: l' => lo <= x /\ ascending (x + 1) l' hi
  end.

Definition is_cancel (c : Command) : bool :=
  match c with send_cancel_order _ => true | _ => false end.

Definition is_insert (c : Command) : bool :=
  match c with send_insert_order _ _ _ _ _ => true | _ => false end.

Definition is_hedge (c : Command) : bool :=
  match c with send_hedge_order _ _ _ _ => true | _ => false end.

(** A handler issues ids properly when the new order ids it sends ascend
    from the counter before it to the counter after it. *)
Definition issues {S A} (counter : S -> Z) (m : M S A) : Prop :=
  forall s, ascending (counter s) (new_order_ids (sent (m s))) (counter (after (m s))).

(** The commands the fill-and-kill trader sends over a run of messages. *)
Fixpoint fak_transcript `{Exchange} (s : FAK.State) (es : list FAK.Event) : list Command :=
  match es with
  | [] => []
  | e :: es' => sent (FAK.handle e s) ++ fak_transcript (after (FAK.handle e s)) es'
  end.

(** The commands the good-for-day trader sends over a run of messages. *)
Fixpoint gfd_transcript `{Exchange} (s : GFD.State) (es : list GFD.Event) : list Command :=
  match es with
  | [] => []
  | e :: es' => sent (GFD.handle e s) ++ gfd_transcript (after (GFD.handle e s)) es'
  end.

(** A decoder that accepts the messages made of ASCII bytes only, with the
    constants of [sample]. *)
Definition ascii_only : Exchange := {|
  MINIMUM_BID := 1;
  MAXIMUM_ASK := 2147483647;
  FUTURE := 0;
  decodable := forallb (fun b => (Byte.to_N b <? 128)%N)
|}.

(** Order ids are positive; 0 in a slot stands for no order. *)
Definition fak_positive (s : FAK.State) : Prop :=
  0 < FAK.order_ids s /\ 0 <= FAK.bid_id s /\ 0 <= FAK.ask_id s /\
  (forall i, i ∈ FAK.bids s -> 0 < i) /\ (forall i, i ∈ FAK.asks s -> 0 < i).

Definition gfd_positive (s : GFD.State) : Prop :=
  0 < GFD.order_ids s /\ 0 <= GFD.bid_id s /\ 0 <= GFD.ask_id s /\
  (forall i, i ∈ dom (GFD.bids s) -> 0 < i) /\
  (forall i, i ∈ dom (GFD.asks s) -> 0 < i).

(** The inserts an update may send: at most a buy, then at most a sell. *)
Definition quotes_shape (lifespan : Lifespan) (l : list Command) : Prop :=
  exists i1 p1 v1 i2 p2 v2,
    l `sublist_of` [send_insert_order i1 BUY p1 v1 lifespan;
                    send_insert_order i2 SELL p2 v2 lifespan].

(** The size of a fill-and-kill quote: between one and a lot, and within
    the room the position leaves under the limit. *)
Definition fak_size_ok (s : FAK.State) (c : Command) : Prop :=
  match c with
  | send_insert_order _ side _ v _ =>
      1 <= v <= FAK.LOT_SIZE /\
      match side with
      | BUY => v = Z.min (FAK.POSITION_LIMIT - FAK.position s) FAK.LOT_SIZE /\
               FAK.position s + v <= FAK.POSITION_LIMIT
      | SELL => v = Z.min (FAK.POSITION_LIMIT + FAK.position s) FAK.LOT_SIZE /\
                - FAK.POSITION_LIMIT <= FAK.position s - v
      | _ => False
      end
  | _ => True
  end.

(** The size of a good-for-day quote: between zero and the cap of 14, and,
    when it is not zero, within the depth at the top of the book and within
    the room that the position and the outstanding volume leave under the
    limit. *)
Definition gfd_size_ok (s : GFD.State) (bid_volume ask_volume : Z) (c : Command) : Prop :=
  match c with
  | send_insert_order _ side _ v _ =>
      0 <= v <= 14 /\
      match side with
      | BUY =>
          v = GFD.quoted_size 14
                (GFD.POSITION_LIMIT - GFD.position s - GFD.outstanding_volume (GFD.bids s))
                bid_volume /\
          (0 < v -> v <= bid_volume /\
             GFD.position s + GFD.outstanding_volume (GFD.bids s) + v <= GFD.POSITION_LIMIT)
      | SELL =>
          v = GFD.quoted_size 14
                (GFD.POSITION_LIMIT + GFD.position s - GFD.outstanding_volume (GFD.asks s))
                ask_volume /\
          (0 < v -> v <= ask_volume /\
             - GFD.POSITION_LIMIT <= GFD.position s - GFD.outstanding_volume (GFD.asks s) - v)
      | _ => False
      end
  | _ => True
  end.

(** The trend is one of the three signals, and the stored volume is the
    initial 0 or a float. *)
Definition trend_ok (s : FAK.State) : Prop :=
  (FAK.price_trend s = -1 \/ FAK.price_trend s = 0 \/ FAK.price_trend s = 1) /\
  (FAK.trading_volume s = Py.Int 0 \/ exists x, FAK.trading_volume s = Py.Float x).

(** Every tracked order was sent: the fill-and-kill trader tracks ids
    only, the good-for-day trader also what it recorded of the order. *)
Definition fak_tracked_sent (s : FAK.State) (l : list Command) : Prop :=
  (forall i, i ∈ FAK.bids s ->
     exists p v, send_insert_order i BUY p v FILL_AND_KILL ∈ l) /\
  (forall i, i ∈ FAK.asks s ->
     exists p v, send_insert_order i SELL p v FILL_AND_KILL ∈ l).

Definition gfd_tracked_sent (s : GFD.State) (l : list Command) : Prop :=
  (forall i o, GFD.bids s !! i = Some o ->
     exists p, Py.int (GFD.price o) = Py.Val p /\
               send_insert_order i BUY p (GFD.size o) GFD ∈ l) /\
  (forall i o, GFD.asks s !! i = Some o ->
     exists p, Py.int (GFD.price o) = Py.Val p /\
               send_insert_order i SELL p (GFD.size o) GFD ∈ l).

(** Neither side needs a cancel or a new quote at prices [b] and [a]: a
    slot in use holds the price (or the price is 0), and an empty slot
    cannot be filled at this position. *)
Definition gfd_settled (b a : Py.num) (s : GFD.State) : Prop :=
  negb (GFD.bid_id s =? 0) && GFD.not_in_pair b (GFD.bid_price s) = false /\
  negb (GFD.ask_id s =? 0) && GFD.not_in_pair a (GFD.ask_price s) = false /\
  (GFD.bid_id s =? 0) && (GFD.position s <? GFD.POSITION_LIMIT) = false /\
  (GFD.ask_id s =? 0) && (GFD.position s >? - GFD.POSITION_LIMIT) = false.

(** The volume of the buy orders and of the sell orders among commands. *)
Definition bought (c : Command) : Z :=
  match c with send_insert_order _ BUY _ v _ => v | _ => 0 end.

Definition sold (c : Command) : Z :=
  match c with send_insert_order _ SELL _ v _ => v | _ => 0 end.

Definition volume_of (f : Command -> Z) (l : list Command) : Z :=
  foldr (fun c total => f c + total) 0 l.

(** Every recorded order has a size from 0 to the cap of 14. *)
Definition gfd_sizes_ok (s : GFD.State) : Prop :=
  map_Forall (fun _ o => 0 <= GFD.size o <= 14) (GFD.bids s) /\
  map_Forall (fun _ o => 0 <= GFD.size o <= 14) (GFD.asks s).

(** The volume of the hedge orders that sell and that buy. *)
Definition hedge_sold (c : Command) : Z :=
  match c with send_hedge_order _ ASK _ v => v | _ => 0 end.

Definition hedge_bought (c : Command) : Z :=
  match c with send_hedge_order _ BID _ v => v | _ => 0 end.

(** The exceptions an expression and a handler can raise are among [P]. *)
Definition only {A} (P : Py.exn -> Prop) (r : Py.res A) : Prop :=
  forall x, r = Py.Exc x -> P x.

Definition raises {S A} (P : Py.exn -> Prop) (m : M S A) : Prop :=
  forall s, only P (result (m s)).

(** What a book can make the arithmetic raise: a level that is missing,
    an integer too large for a float, an infinite or undefined price. *)
Definition from_book (x : Py.exn) : Prop :=
  x = Py.IndexError \/ x = Py.OverflowError \/ x = Py.ValueError.

End Transcript.

(** * Proofs *)

(** ** Numbers *)

Module PyFacts.

Ltac calc t :=
  let v := eval vm_compute in t in
  replace t with v by (vm_compute; reflexivity).

Ltac bind := cbn [mbind Py.res_bind mret Py.res_ret].

Lemma max_int_float_lt (z : Z) (s : bool) (m : positive) (p : positive) :
  z * 2 ^ Zpos p < cond_Zopp s (Zpos m) ->
  Py.max (Py.Int z) (Py.Float (S754_finite s m (Zneg p))) = Py.Float (S754_finite s m (Zneg p)).
Proof.
  intros Hlt. unfold Py.max, Py.gt, Py.compare, Py.compare_int_float.
  cbn [fmap option_fmap option_map].
  destruct (Z.compare_spec (z * 2 ^ Z.pos p) (cond_Zopp s (Z.pos m))); simpl; try lia; reflexivity.
Qed.

Lemma max_int_float_ge (z : Z) (s : bool) (m : positive) (p : positive) :
  cond_Zopp s (Zpos m) <= z * 2 ^ Zpos p ->
  Py.max (Py.Int z) (Py.Float (S754_finite s m (Zneg p))) = Py.Int z.
Proof.
  intros Hlt. unfold Py.max, Py.gt, Py.compare, Py.compare_int_float.
  cbn [fmap option_fmap option_map].
  destruct (Z.compare_spec (z * 2 ^ Z.pos p) (cond_Zopp s (Z.pos m))); simpl; try lia; reflexivity.
Qed.

Lemma min_int_float_gt (z : Z) (s : bool) (m : positive) (p : positive) :
  cond_Zopp s (Zpos m) < z * 2 ^ Zpos p ->
  Py.min (Py.Int z) (Py.Float (S754_finite s m (Zneg p))) = Py.Float (S754_finite s m (Zneg p)).
Proof.
  intros Hlt. unfold Py.min, Py.lt, Py.compare, Py.compare_int_float.
  cbn [fmap option_fmap option_map].
  destruct (Z.compare_spec (z * 2 ^ Z.pos p) (cond_Zopp s (Z.pos m))); simpl; try lia; reflexivity.
Qed.

Lemma min_int_float_le (z : Z) (s : bool) (m : positive) (p : positive) :
  z * 2 ^ Zpos p <= cond_Zopp s (Zpos m) ->
  Py.min (Py.Int z) (Py.Float (S754_finite s m (Zneg p))) = Py.Int z.
Proof.
  intros Hlt. unfold Py.min, Py.lt, Py.compare, Py.compare_int_float.
  cbn [fmap option_fmap option_map].
  destruct (Z.compare_spec (z * 2 ^ Z.pos p) (cond_Zopp s (Z.pos m))); simpl; try lia; reflexivity.
Qed.


Lemma max_int_int (a b : Z) : Py.max (Py.Int a) (Py.Int b) = Py.Int (Z.max a b).
Proof.
  unfold Py.max, Py.gt, Py.compare.
  destruct (Z.compare_spec b a); f_equal; lia.
Qed.

Lemma min_int_int (a b : Z) : Py.min (Py.Int a) (Py.Int b) = Py.Int (Z.min a b).
Proof.
  unfold Py.min, Py.lt, Py.compare.
  destruct (Z.compare_spec b a); f_equal; lia.
Qed.

Lemma clamp_int_valued (m p : positive) (n lo hi : Z) :
  Zpos m = n * 2 ^ Zpos p -> lo <= n <= hi ->
  let x := Py.Float (S754_finite false m (Zneg p)) in
  let v := Py.min (Py.Int hi) (Py.max (Py.Int lo) x) in
  v = x \/ v = Py.Int n.
Proof.
  intros Hm Hn x v. subst x v.
  assert (0 < 2 ^ Zpos p) by (apply Z.pow_pos_nonneg; lia).
  destruct (decide (lo = n)) as [->|Hlo].
  - rewrite max_int_float_ge by (cbn [cond_Zopp]; lia).
    rewrite min_int_int. right. f_equal. lia.
  - rewrite max_int_float_lt by (cbn [cond_Zopp]; nia).
    destruct (decide (hi = n)) as [->|Hhi].
    + rewrite min_int_float_le by (cbn [cond_Zopp]; lia). by right.
    + rewrite min_int_float_gt by (cbn [cond_Zopp]; nia). by left.
Qed.

End PyFacts.

(** ** The handler monad *)

Module RtgFacts.
Import Rtg.

Section Laws.
Context {S : Type}.
Implicit Types s : S.

Lemma bind_ret {A B} (a : A) (k : A -> M S B) s : (mret a ≫= k) s = k a s.
Proof. unfold mbind, M_bind, mret, M_ret, result, after, sent. simpl. by destruct (k a s) as [[??]?]. Qed.

Lemma bind_attr {A B} (f : S -> A) (k : A -> M S B) s : (attr f ≫= k) s = k (f s) s.
Proof. unfold mbind, M_bind, attr, result, after, sent. simpl. by destruct (k _ s) as [[??]?]. Qed.

Lemma bind_assign {B} (f : S -> S) (k : unit -> M S B) s :
  (assign f ≫= k) s = k tt (f s).
Proof. unfold mbind, M_bind, assign, result, after, sent. simpl. by destruct (k _ _) as [[??]?]. Qed.

Lemma bind_send {B} (c : Command) (k : unit -> M S B) s :
  (send c ≫= k) s = emit c (k tt s).
Proof. reflexivity. Qed.

Lemma bind_eval_val {A B} (a : A) (k : A -> M S B) s :
  (eval (Py.Val a) ≫= k) s = k a s.
Proof. unfold mbind, M_bind, eval, result, after, sent. simpl. by destruct (k _ _) as [[??]?]. Qed.

Lemma bind_eval_exc {A B} (e : Py.exn) (k : A -> M S B) s :
  (eval (Py.Exc e) ≫= k) s = (Py.Exc e, s, []).
Proof. reflexivity. Qed.

Lemma bind_assoc {A B C} (m : M S A) (f : A -> M S B) (g : B -> M S C) s :
  ((m ≫= f) ≫= g) s = (m ≫= (fun a => f a ≫= g)) s.
Proof.
  unfold mbind, M_bind, result, after, sent. cbv zeta.
  destruct (m s) as [[[a|e] s1] o1]; simpl; [|done].
  destruct (f a s1) as [[[b|e] s2] o2]; simpl; [|done].
  by rewrite app_assoc.
Qed.


Lemma run_ret {A} (a : A) s : mret (M := M S) a s = (Py.Val a, s, []).
Proof. reflexivity. Qed.
Lemma run_assign (f : S -> S) s : assign f s = (Py.Val tt, f s, []).
Proof. reflexivity. Qed.
Lemma run_send (c : Command) s : send c s = (Py.Val tt, s, [c]).
Proof. reflexivity. Qed.

Lemma keeps_bind (I : S -> Prop) {A B} (m : M S A) (f : A -> M S B) :
  keeps I m -> (forall a, keeps I (f a)) -> keeps I (m ≫= f).
Proof.
  intros Hm Hf s Hs. specialize (Hm s Hs).
  unfold mbind, M_bind. cbv zeta.
  destruct (result (m s)) as [a|e]; simpl; [|done].
  by apply Hf.
Qed.

Lemma keeps_eval (I : S -> Prop) {A} (r : Py.res A) : keeps I (eval r).
Proof. by intros s Hs. Qed.
Lemma keeps_attr (I : S -> Prop) {A} (f : S -> A) : keeps I (attr f).
Proof. by intros s Hs. Qed.
Lemma keeps_ret (I : S -> Prop) {A} (a : A) : keeps I (mret a).
Proof. by intros s Hs. Qed.
Lemma keeps_send (I : S -> Prop) c : keeps I (send c).
Proof. by intros s Hs. Qed.
Lemma keeps_assign (I : S -> Prop) (f : S -> S) :
  (forall s, I s -> I (f s)) -> keeps I (assign f).
Proof. intros Hf s Hs. by apply Hf. Qed.
Lemma keeps_if (I : S -> Prop) {A} (c : bool) (m1 m2 : M S A) :
  keeps I m1 -> keeps I m2 -> keeps I (if c then m1 else m2).
Proof. by destruct c. Qed.

End Laws.

Ltac exec :=
  repeat first
    [ rewrite bind_assoc | rewrite bind_ret | rewrite bind_attr
    | rewrite bind_assign | rewrite bind_send | rewrite bind_eval_val
    | rewrite bind_eval_exc
    | rewrite run_ret | rewrite run_assign | rewrite run_send ];
  cbv beta.

(** Handlers built from steps that each keep [I] keep [I]. *)
Ltac keeps_steps :=
  repeat match goal with
    | |- keeps _ (_ ≫= _) => apply keeps_bind; [|intros ?]
    | |- keeps _ (if _ then _ else _) => apply keeps_if
    | |- keeps _ (attr _) => apply keeps_attr
    | |- keeps _ (eval _) => apply keeps_eval
    | |- keeps _ (mret _) => apply keeps_ret
    | |- keeps _ (send _) => apply keeps_send
    | |- keeps _ (assign _) => apply keeps_assign; intros ? ?; assumption
    | |- keeps _ (let '(_, _) := ?x in _) => is_var x; destruct x
    end.

(** Case analysis on the next test or the next expression that may raise. *)
Ltac branch :=
  match goal with
  | |- context [if ?c then _ else _] => destruct c eqn:?
  | |- context [(eval ?r ≫= _) ?s] =>
      lazymatch r with
      | Py.Val _ => fail
      | Py.Exc _ => fail
      | _ => destruct r eqn:?
      end
  end.

(** Running a handler through all its paths; [fields] simplifies the
    attributes read along the way. *)
Ltac branches_with fields :=
  repeat (repeat progress (exec; fields); branch);
  repeat progress (exec; fields).

End RtgFacts.


(** ** autotrader.py *)

Module FAKFacts.
Import Rtg RtgFacts FAK.

Ltac fields :=
  cbn [order_ids bids asks ask_id ask_price bid_id bid_price position
       order_timestamps trading_volume price_trend
       set_order_ids set_bids set_asks set_ask_id set_ask_price set_bid_id
       set_bid_price set_position set_order_timestamps set_trading_volume
       set_price_trend result after sent emit fst snd] in *.

Section Facts.
Context {X : Exchange}.
Implicit Types s : State.

(** *** Fills *)

Lemma fak_filled_bid s i p v now :
  i ∈ bids s ->
  on_order_filled_message i p v now s =
    if position s + v >? POSITION_LIMIT then
      (Py.Val tt,
       set_position (position s + v - v) (set_position (position s + v) (stamped i now s)),
       [send_cancel_order i])
    else
      (Py.Val tt,
       set_order_ids (order_ids s + 1) (set_position (position s + v) (stamped i now s)),
       [send_hedge_order (order_ids s) ASK MIN_BID_NEAREST_TICK v]).
Proof.
  intros Hi. unfold on_order_filled_message, next_order_id. exec. fields.
  rewrite bool_decide_true by done. exec. fields.
  destruct (position s + v >? POSITION_LIMIT); exec; reflexivity.
Qed.

Lemma fak_filled_ask s i p v now :
  i ∉ bids s -> i ∈ asks s ->
  on_order_filled_message i p v now s =
    if position s - v <? - POSITION_LIMIT then
      (Py.Val tt,
       set_position (position s - v + v) (set_position (position s - v) (stamped i now s)),
       [send_cancel_order i])
    else
      (Py.Val tt,
       set_order_ids (order_ids s + 1) (set_position (position s - v) (stamped i now s)),
       [send_hedge_order (order_ids s) BID MAX_ASK_NEAREST_TICK v]).
Proof.
  intros Hb Hi. unfold on_order_filled_message, next_order_id. exec. fields.
  rewrite bool_decide_false by done. exec. fields.
  rewrite bool_decide_true by done. exec. fields.
  destruct (position s - v <? - POSITION_LIMIT); exec; reflexivity.
Qed.

Lemma fak_filled_unknown s i p v now :
  i ∉ bids s -> i ∉ asks s ->
  on_order_filled_message i p v now s = (Py.Val tt, stamped i now s, []).
Proof.
  intros Hb Hi. unfold on_order_filled_message. exec. fields.
  rewrite bool_decide_false by done. exec. fields.
  rewrite bool_decide_false by done. reflexivity.
Qed.

Lemma fak_fill_within_limit i p v now :
  0 <= v -> keeps within_limit (on_order_filled_message i p v now).
Proof.
  intros Hv s Hs. unfold within_limit, stamped in *.
  destruct (decide (i ∈ bids s)) as [Hb|Hb].
  - rewrite fak_filled_bid by done.
    destruct (Z.gtb_spec (position s + v) POSITION_LIMIT); fields;
      unfold POSITION_LIMIT in *; lia.
  - destruct (decide (i ∈ asks s)) as [Ha|Ha].
    + rewrite fak_filled_ask by done.
      destruct (Z.ltb_spec (position s - v) (- POSITION_LIMIT)); fields;
        unfold POSITION_LIMIT in *; lia.
    + rewrite fak_filled_unknown by done. fields. done.
Qed.

(** *** Status and error messages *)

Lemma fak_status_terminal s i f fees :
  on_order_status_message i f 0 fees s =
    (Py.Val tt,
     set_asks (asks s ∖ {[i]}) (set_bids (bids s ∖ {[i]}) (unslotted i s)),
     []).
Proof.
  unfold on_order_status_message, unslotted. cbn [Z.eqb]. exec.
  destruct (i =? bid_id s); [|destruct (i =? ask_id s)]; exec; reflexivity.
Qed.

Lemma fak_status_open s i f r fees :
  r <> 0 -> on_order_status_message i f r fees s = (Py.Val tt, s, []).
Proof.
  intros Hr. unfold on_order_status_message.
  destruct (Z.eqb_spec r 0); [done|reflexivity].
Qed.

Lemma fak_status_retired s i f fees :
  retired i s -> on_order_status_message i f 0 fees s = (Py.Val tt, s, []).
Proof.
  intros (_ & Hb & Ha & Hbi & Hai). rewrite fak_status_terminal.
  do 2 f_equal. unfold unslotted.
  assert (bids s ∖ {[i]} = bids s) as Eb by set_solver.
  assert (asks s ∖ {[i]} = asks s) as Ea by set_solver.
  destruct s as [n bs as_ a ap b bp p ts tv tr]. cbn in *.
  destruct (Z.eqb_spec i b) as [E|E]; [|destruct (Z.eqb_spec i a) as [E'|E']];
    cbv [set_asks set_bids set_bid_id set_ask_id]; cbn;
    rewrite Ea, Eb; f_equal; lia.
Qed.

Lemma fak_status_retires s i f fees :
  ledger_ok s -> i < order_ids s ->
  retired i (after (on_order_status_message i f 0 fees s)).
Proof.
  intros (_ & _ & _ & Hba & _) Hi. rewrite fak_status_terminal.
  unfold retired, unslotted.
  destruct (Z.eqb_spec i (bid_id s)) as [E|E];
    [|destruct (Z.eqb_spec i (ask_id s)) as [E'|E']]; fields;
    repeat split; try set_solver; try lia.
Qed.

Lemma fak_status_ledger P j i f r fees :
  keeps (ledger P j) (on_order_status_message i f r fees).
Proof.
  intros s [Hok Hret]. destruct (Z.eq_dec r 0) as [->|Hr].
  2: { rewrite fak_status_open by done. done. }
  rewrite fak_status_terminal. unfold ledger, ledger_ok, retired, unslotted in *.
  destruct Hok as (H0 & Hb & Ha & Hba & Hbs & Has & Hd).
  destruct (Z.eqb_spec i (bid_id s)) as [E|E];
    [|destruct (Z.eqb_spec i (ask_id s)) as [E'|E']]; fields;
    (split; [repeat split; try set_solver; try lia
            |intros HP; destruct (Hret HP) as (?&?&?&?&?);
             repeat split; try set_solver; try lia]).
Qed.

Lemma fak_error_ledger P j i m : keeps (ledger P j) (on_error_message i m).
Proof.
  unfold on_error_message. keeps_steps. apply fak_status_ledger.
Qed.

(** *** Order book updates *)

Lemma fak_book_position (p : Z) i n ap av bp bv :
  keeps (fun s => position s = p) (on_order_book_update_message i n ap av bp bv).
Proof.
  unfold on_order_book_update_message, update_trend, cancel_stale, place_orders,
    next_order_id.
  keeps_steps.
Qed.

Lemma update_trend_ledger P j av bv : keeps (ledger P j) (update_trend av bv).
Proof. unfold update_trend. keeps_steps. Qed.

Lemma fak_cancel_stale_ledger P j b a : keeps (ledger P j) (cancel_stale b a).
Proof.
  unfold cancel_stale. keeps_steps.
  all: apply keeps_assign; intros s [Hok Hret]; split;
    [|intros HP; specialize (Hret HP)];
    unfold ledger_ok, retired in *; fields; intuition lia.
Qed.

Ltac branches := branches_with ltac:(fields).

Lemma fak_fresh_ids s (k : Z) :
  ledger_ok s -> 0 <= k -> (order_ids s + k ∉ bids s) /\ (order_ids s + k ∉ asks s).
Proof.
  intros (_ & _ & _ & _ & Hbs & Has & _) Hk.
  split; intros Hn; [apply Hbs in Hn|apply Has in Hn]; lia.
Qed.

Ltac ledger_close :=
  match goal with
  | Hok : ledger_ok ?s, Hret : _ -> retired _ ?s |- _ =>
      destruct (fak_fresh_ids s 0 Hok) as [? ?]; [lia|];
      destruct (fak_fresh_ids s 1 Hok) as [? ?]; [lia|];
      rewrite ?Z.add_0_r in *;
      unfold ledger, ledger_ok, retired in *; fields;
      destruct Hok as (? & ? & ? & ? & ? & ? & ?);
      split; [|intros HP; destruct (Hret HP) as (?&?&?&?&?)];
      repeat split; try lia; set_unfold; naive_solver lia
  end.

Lemma place_orders_ledger P j b a : keeps (ledger P j) (place_orders b a).
Proof.
  intros s [Hok Hret]. unfold place_orders, next_order_id.
  branches; ledger_close.
Qed.

Lemma fak_book_ledger P j i n ap av bp bv :
  keeps (ledger P j) (on_order_book_update_message i n ap av bp bv).
Proof.
  unfold on_order_book_update_message. keeps_steps.
  - apply update_trend_ledger.
  - apply fak_cancel_stale_ledger.
  - apply place_orders_ledger.
Qed.

Lemma fak_fill_ledger P j i p v now :
  keeps (ledger P j) (on_order_filled_message i p v now).
Proof.
  intros s [Hok Hret]. unfold on_order_filled_message, next_order_id.
  branches; ledger_close.
Qed.

Lemma fak_handle_ledger P j e : keeps (ledger P j) (handle e).
Proof.
  destruct e; simpl.
  - apply fak_error_ledger.
  - apply keeps_ret.
  - apply fak_fill_ledger.
  - apply fak_status_ledger.
  - apply fak_book_ledger.
Qed.

Lemma fak_run_keeps (I : State -> Prop) es :
  (forall e, e ∈ es -> keeps I (handle e)) -> forall s, I s -> I (run s es).
Proof.
  induction es as [|e es IH]; intros He s Hs; [done|].
  simpl. apply IH.
  - intros e' ?. apply He. by right.
  - apply He; [by left|done].
Qed.

Lemma fak_init_ledger_ok : ledger_ok init.
Proof. repeat split; simpl; try lia; set_solver. Qed.

End Facts.
End FAKFacts.

(** ** autotrader5.py *)

Module GFDFacts.
Import Rtg RtgFacts GFD.

Ltac fields :=
  cbn [order_ids bids asks ask_id ask_price bid_id bid_price position
       set_order_ids set_bids set_asks set_ask_id set_ask_price set_bid_id
       set_bid_price set_position result after sent emit fst snd] in *.

Ltac branches := branches_with ltac:(fields).

Section Facts.
Context {X : Exchange}.
Implicit Types s : State.

Lemma has_key_true (d : gmap Z Order) i : i ∈ dom d -> has_key d i = true.
Proof. intros Hi. apply bool_decide_eq_true. by apply elem_of_dom. Qed.

Lemma has_key_false (d : gmap Z Order) i : i ∉ dom d -> has_key d i = false.
Proof. intros Hi. apply bool_decide_eq_false. by rewrite <- elem_of_dom. Qed.

Lemma gfd_filled_bid s i p v :
  i ∈ dom (bids s) ->
  on_order_filled_message i p v s =
    if position s + v >? POSITION_LIMIT then
      (Py.Val tt, set_position POSITION_LIMIT (set_position (position s + v) s), [])
    else
      (Py.Val tt,
       set_order_ids (order_ids s + 1) (set_position (position s + v) s),
       [send_hedge_order (order_ids s) ASK MIN_BID_NEAREST_TICK v]).
Proof.
  intros Hi. unfold on_order_filled_message, next_order_id. exec. fields.
  rewrite has_key_true by done. exec. fields.
  destruct (position s + v >? POSITION_LIMIT); exec; reflexivity.
Qed.

Lemma gfd_filled_ask s i p v :
  i ∉ dom (bids s) -> i ∈ dom (asks s) ->
  on_order_filled_message i p v s =
    if position s - v <? - POSITION_LIMIT then
      (Py.Val tt, set_position (- POSITION_LIMIT) (set_position (position s - v) s), [])
    else
      (Py.Val tt,
       set_order_ids (order_ids s + 1) (set_position (position s - v) s),
       [send_hedge_order (order_ids s) BID MAX_ASK_NEAREST_TICK v]).
Proof.
  intros Hb Hi. unfold on_order_filled_message, next_order_id. exec. fields.
  rewrite has_key_false by done. exec. fields.
  rewrite has_key_true by done. exec. fields.
  destruct (position s - v <? - POSITION_LIMIT); exec; reflexivity.
Qed.

Lemma gfd_filled_unknown s i p v :
  i ∉ dom (bids s) -> i ∉ dom (asks s) ->
  on_order_filled_message i p v s = (Py.Val tt, s, []).
Proof.
  intros Hb Hi. unfold on_order_filled_message. exec. fields.
  rewrite has_key_false by done. exec. fields.
  rewrite has_key_false by done. reflexivity.
Qed.

Lemma gfd_fill_within_limit i p v :
  0 <= v -> keeps within_limit (on_order_filled_message i p v).
Proof.
  intros Hv s Hs. unfold within_limit in *.
  destruct (decide (i ∈ dom (bids s))) as [Hb|Hb].
  - rewrite gfd_filled_bid by done.
    destruct (Z.gtb_spec (position s + v) POSITION_LIMIT); fields;
      unfold POSITION_LIMIT in *; lia.
  - destruct (decide (i ∈ dom (asks s))) as [Ha|Ha].
    + rewrite gfd_filled_ask by done.
      destruct (Z.ltb_spec (position s - v) (- POSITION_LIMIT)); fields;
        unfold POSITION_LIMIT in *; lia.
    + rewrite gfd_filled_unknown by done. fields. done.
Qed.

Lemma gfd_status_terminal s i f fees :
  on_order_status_message i f 0 fees s =
    (Py.Val tt,
     set_asks (delete i (asks s)) (set_bids (delete i (bids s)) (unslotted i s)),
     []).
Proof.
  unfold on_order_status_message, unslotted. cbn [Z.eqb]. exec.
  destruct (i =? bid_id s); [|destruct (i =? ask_id s)]; exec; reflexivity.
Qed.

Lemma gfd_status_open s i f r fees :
  r <> 0 -> on_order_status_message i f r fees s = (Py.Val tt, s, []).
Proof.
  intros Hr. unfold on_order_status_message.
  destruct (Z.eqb_spec r 0); [done|reflexivity].
Qed.

Lemma gfd_status_retired s i f fees :
  retired i s -> on_order_status_message i f 0 fees s = (Py.Val tt, s, []).
Proof.
  intros (_ & Hb & Ha & Hbi & Hai). rewrite gfd_status_terminal.
  do 2 f_equal. unfold unslotted.
  assert (delete i (bids s) = bids s) as Eb
    by (apply delete_id; by apply not_elem_of_dom).
  assert (delete i (asks s) = asks s) as Ea
    by (apply delete_id; by apply not_elem_of_dom).
  destruct s as [n bs as_ a ap b bp p]. cbn in *.
  destruct (Z.eqb_spec i b) as [E|E]; [|destruct (Z.eqb_spec i a) as [E'|E']];
    cbv [set_asks set_bids set_bid_id set_ask_id]; cbn;
    rewrite Ea, Eb; f_equal; lia.
Qed.

Lemma gfd_status_retires s i f fees :
  ledger_ok s -> i < order_ids s ->
  retired i (after (on_order_status_message i f 0 fees s)).
Proof.
  intros (_ & _ & _ & Hba & _) Hi. rewrite gfd_status_terminal.
  unfold retired, unslotted.
  destruct (Z.eqb_spec i (bid_id s)) as [E|E];
    [|destruct (Z.eqb_spec i (ask_id s)) as [E'|E']]; fields;
    repeat split; try lia; set_unfold; naive_solver lia.
Qed.

Lemma gfd_status_ledger P j i f r fees :
  keeps (ledger P j) (on_order_status_message i f r fees).
Proof.
  intros s [Hok Hret]. destruct (Z.eq_dec r 0) as [->|Hr].
  2: { rewrite gfd_status_open by done. done. }
  rewrite gfd_status_terminal. unfold ledger, ledger_ok, retired, unslotted in *.
  destruct Hok as (H0 & Hb & Ha & Hba & Hbs & Has & Hd).
  destruct (Z.eqb_spec i (bid_id s)) as [E|E];
    [|destruct (Z.eqb_spec i (ask_id s)) as [E'|E']]; fields;
    (split; [|intros HP; destruct (Hret HP) as (?&?&?&?&?)];
     repeat split; try lia; set_unfold; naive_solver lia).
Qed.

Lemma gfd_error_ledger P j i m : keeps (ledger P j) (on_error_message i m).
Proof.
  unfold on_error_message. keeps_steps. apply gfd_status_ledger.
Qed.

Lemma gfd_cancel_stale_ledger P j b a : keeps (ledger P j) (cancel_stale b a).
Proof.
  unfold cancel_stale. keeps_steps.
  all: apply keeps_assign; intros s [Hok Hret]; split;
    [|intros HP; specialize (Hret HP)];
    unfold ledger_ok, retired in *; fields; intuition lia.
Qed.

Lemma gfd_fresh_ids s (k : Z) :
  ledger_ok s -> 0 <= k ->
  (order_ids s + k ∉ dom (bids s)) /\ (order_ids s + k ∉ dom (asks s)).
Proof.
  intros (_ & _ & _ & _ & Hbs & Has & _) Hk.
  split; intros Hn; [apply Hbs in Hn|apply Has in Hn]; lia.
Qed.

Ltac ledger_close :=
  match goal with
  | Hok : ledger_ok ?s, Hret : _ -> retired _ ?s |- _ =>
      destruct (gfd_fresh_ids s 0 Hok) as [? ?]; [lia|];
      rewrite ?Z.add_0_r in *;
      unfold ledger, ledger_ok, retired in *; fields;
      destruct Hok as (? & ? & ? & ? & ? & ? & ?);
      split; [|intros HP; destruct (Hret HP) as (?&?&?&?&?)];
      repeat split; try lia; set_unfold; naive_solver lia
  end.

Lemma place_bid_ledger P j b v : keeps (ledger P j) (place_bid b v).
Proof.
  intros s [Hok Hret]. unfold place_bid, next_order_id.
  branches; ledger_close.
Qed.

Lemma place_ask_ledger P j a v : keeps (ledger P j) (place_ask a v).
Proof.
  intros s [Hok Hret]. unfold place_ask, next_order_id.
  branches; ledger_close.
Qed.

Lemma gfd_book_ledger P j i n ap av bp bv :
  keeps (ledger P j) (on_order_book_update_message i n ap av bp bv).
Proof.
  unfold on_order_book_update_message. keeps_steps.
  - apply gfd_cancel_stale_ledger.
  - apply place_bid_ledger.
  - apply place_ask_ledger.
Qed.

Lemma gfd_book_position (p : Z) i n ap av bp bv :
  keeps (fun s => position s = p) (on_order_book_update_message i n ap av bp bv).
Proof.
  unfold on_order_book_update_message, cancel_stale, place_bid, place_ask,
    next_order_id.
  keeps_steps.
Qed.

Lemma gfd_fill_ledger P j i p v :
  keeps (ledger P j) (on_order_filled_message i p v).
Proof.
  intros s [Hok Hret]. unfold on_order_filled_message, next_order_id.
  branches; ledger_close.
Qed.

Lemma gfd_handle_ledger P j e : keeps (ledger P j) (handle e).
Proof.
  destruct e; simpl.
  - apply gfd_error_ledger.
  - apply keeps_ret.
  - apply gfd_fill_ledger.
  - apply gfd_status_ledger.
  - apply keeps_ret.
  - apply gfd_book_ledger.
Qed.

Lemma gfd_run_keeps (I : State -> Prop) es :
  (forall e, e ∈ es -> keeps I (handle e)) -> forall s, I s -> I (run s es).
Proof.
  induction es as [|e es IH]; intros He s Hs; [done|].
  simpl. apply IH.
  - intros e' ?. apply He. by right.
  - apply He; [by left|done].
Qed.

Lemma gfd_init_ledger_ok : ledger_ok init.
Proof. repeat split; simpl; try lia; set_solver. Qed.

End Facts.
End GFDFacts.

(** * The specification, claim by claim *)

Import Rtg RtgFacts Examples.

(** ** Reachable states *)

Lemma fak_handle_within_limit `{Exchange} e :
  FAK.well_formed e = true -> keeps FAK.within_limit (FAK.handle e).
Proof.
  destruct e as [i m|i p v|i p v now|i f r fees|i n ap av bp bv]; simpl; intros Hwf.
  - unfold FAK.on_error_message, FAK.on_order_status_message. keeps_steps.
  - apply keeps_ret.
  - apply FAKFacts.fak_fill_within_limit. lia.
  - unfold FAK.on_order_status_message. keeps_steps.
  - intros s Hs. unfold FAK.within_limit in *.
    by rewrite (FAKFacts.fak_book_position (FAK.position s) i n ap av bp bv s eq_refl).
Qed.

Lemma gfd_handle_within_limit `{Exchange} e :
  GFD.well_formed e = true -> keeps GFD.within_limit (GFD.handle e).
Proof.
  destruct e as [i m|i p v|i p v|i f r fees|i n ap av bp bv|i n ap av bp bv];
    simpl; intros Hwf.
  - unfold GFD.on_error_message, GFD.on_order_status_message. keeps_steps.
  - apply keeps_ret.
  - apply GFDFacts.gfd_fill_within_limit. lia.
  - unfold GFD.on_order_status_message. keeps_steps.
  - apply keeps_ret.
  - intros s Hs. unfold GFD.within_limit in *.
    by rewrite (GFDFacts.gfd_book_position (GFD.position s) i n ap av bp bv s eq_refl).
Qed.

Lemma fak_reachable_ledger `{Exchange} es : FAK.ledger_ok (FAK.run FAK.init es).
Proof.
  apply (FAKFacts.fak_run_keeps (FAK.ledger False 0)).
  - intros e _. apply FAKFacts.fak_handle_ledger.
  - split; [apply FAKFacts.fak_init_ledger_ok|done].
Qed.

Lemma gfd_reachable_ledger `{Exchange} es : GFD.ledger_ok (GFD.run GFD.init es).
Proof.
  apply (GFDFacts.gfd_run_keeps (GFD.ledger False 0)).
  - intros e _. apply GFDFacts.gfd_handle_ledger.
  - split; [apply GFDFacts.gfd_init_ledger_ok|done].
Qed.

(** ** Position limit *)

(** C1.  In both traders the position stays within the position limit:
    after any sequence of messages from the initial state, in which the
    exchange reports fills of non-negative volume, the position is between
    minus the limit and the limit.  States left behind by a handler that
    raised are included. *)
Theorem position_within_limit `{Exchange} :
  (forall es : list FAK.Event,
     forallb FAK.well_formed es = true ->
     - FAK.POSITION_LIMIT <= FAK.position (FAK.run FAK.init es) <= FAK.POSITION_LIMIT) /\
  (forall es : list GFD.Event,
     forallb GFD.well_formed es = true ->
     - GFD.POSITION_LIMIT <= GFD.position (GFD.run GFD.init es) <= GFD.POSITION_LIMIT).
Proof.
  split; intros es Hes.
  - apply (FAKFacts.fak_run_keeps FAK.within_limit); [|by compute].
    intros e He. apply fak_handle_within_limit.
    rewrite forallb_forall in Hes. apply Hes. by apply list_elem_of_In.
  - apply (GFDFacts.gfd_run_keeps GFD.within_limit); [|by compute].
    intros e He. apply gfd_handle_within_limit.
    rewrite forallb_forall in Hes. apply Hes. by apply list_elem_of_In.
Qed.

Lemma position_within_limit_witness :
  (- 100 <= FAK.position (FAK.run (X := sample) FAK.init fak_session) <= 100) /\
  (- 100 <= GFD.position (GFD.run (X := sample) GFD.init gfd_session) <= 100).
Proof.
  split.
  - apply (proj1 (@position_within_limit sample) fak_session). reflexivity.
  - apply (proj2 (@position_within_limit sample) gfd_session). reflexivity.
Defined.

(** C3.  In the fill-and-kill trader a fill of an open bid that would take
    the position above the limit makes the trader cancel that order and
    leaves the position where it was, and no hedge order goes out; the
    same holds for a fill of an open ask that would take the position
    below minus the limit.  The ask handling is reached when the order is
    not also among the bids, and no reachable state has an order on both
    sides. *)
Theorem breach_cancels_and_unwinds `{Exchange} :
  (forall s i price volume now,
     i ∈ FAK.bids s ->
     FAK.position s + volume > FAK.POSITION_LIMIT ->
     let o := FAK.on_order_filled_message i price volume now s in
     result o = Py.Val tt /\ sent o = [send_cancel_order i] /\
     FAK.position (after o) = FAK.position s) /\
  (forall s i price volume now,
     FAK.bids s ## FAK.asks s ->
     i ∈ FAK.asks s ->
     FAK.position s - volume < - FAK.POSITION_LIMIT ->
     let o := FAK.on_order_filled_message i price volume now s in
     result o = Py.Val tt /\ sent o = [send_cancel_order i] /\
     FAK.position (after o) = FAK.position s) /\
  (forall es, FAK.bids (FAK.run FAK.init es) ## FAK.asks (FAK.run FAK.init es)).
Proof.
  split; [|split].
  - intros s i price volume now Hi Hv o. subst o.
    rewrite FAKFacts.fak_filled_bid by done.
    destruct (Z.gtb_spec (FAK.position s + volume) FAK.POSITION_LIMIT); [|lia].
    simpl. repeat split. lia.
  - intros s i price volume now Hd Hi Hv o. subst o.
    rewrite FAKFacts.fak_filled_ask by set_solver.
    destruct (Z.ltb_spec (FAK.position s - volume) (- FAK.POSITION_LIMIT)); [|lia].
    simpl. repeat split. lia.
  - intros es. apply fak_reachable_ledger.
Qed.

Lemma breach_cancels_and_unwinds_witness :
  (let o := FAK.on_order_filled_message (X := sample) 7 10000 10 (Py.nearest 3 0)
              (fak_long 95) in
   result o = Py.Val tt /\ sent o = [send_cancel_order 7] /\
   FAK.position (after o) = 95) /\
  (let o := FAK.on_order_filled_message (X := sample) 7 10000 10 (Py.nearest 3 0)
              (fak_short (-95)) in
   result o = Py.Val tt /\ sent o = [send_cancel_order 7] /\
   FAK.position (after o) = -95).
Proof.
  split.
  - apply (proj1 (@breach_cancels_and_unwinds sample)
             (fak_long 95) 7 10000 10 (Py.nearest 3 0)).
    + vm_compute. set_solver.
    + vm_compute. reflexivity.
  - apply (proj1 (proj2 (@breach_cancels_and_unwinds sample))
             (fak_short (-95)) 7 10000 10 (Py.nearest 3 0)).
    + vm_compute. set_solver.
    + vm_compute. set_solver.
    + vm_compute. reflexivity.
Defined.

(** C8.  In both traders a fill that takes the position exactly to the
    limit is an ordinary fill: the position change is kept and a hedge
    order for the filled volume goes out, as for every fill that stays
    within the limit.  Only a fill that takes the position strictly beyond
    the limit is unwound with a cancel (fill-and-kill) or clamped
    (good-for-day), and then no hedge goes out. *)
Theorem fill_to_the_limit_is_hedged `{Exchange} :
  (forall s i price volume now,
     i ∈ FAK.bids s ->
     let o := FAK.on_order_filled_message i price volume now s in
     (FAK.position s + volume <= FAK.POSITION_LIMIT ->
      FAK.position (after o) = FAK.position s + volume /\
      sent o = [send_hedge_order (FAK.order_ids s) ASK FAK.MIN_BID_NEAREST_TICK volume]) /\
     (FAK.position s + volume > FAK.POSITION_LIMIT ->
      FAK.position (after o) = FAK.position s /\ sent o = [send_cancel_order i])) /\
  (forall s i price volume now,
     FAK.bids s ## FAK.asks s -> i ∈ FAK.asks s ->
     let o := FAK.on_order_filled_message i price volume now s in
     (- FAK.POSITION_LIMIT <= FAK.position s - volume ->
      FAK.position (after o) = FAK.position s - volume /\
      sent o = [send_hedge_order (FAK.order_ids s) BID FAK.MAX_ASK_NEAREST_TICK volume]) /\
     (FAK.position s - volume < - FAK.POSITION_LIMIT ->
      FAK.position (after o) = FAK.position s /\ sent o = [send_cancel_order i])) /\
  (forall s i price volume,
     i ∈ dom (GFD.bids s) ->
     let o := GFD.on_order_filled_message i price volume s in
     (GFD.position s + volume <= GFD.POSITION_LIMIT ->
      GFD.position (after o) = GFD.position s + volume /\
      sent o = [send_hedge_order (GFD.order_ids s) ASK GFD.MIN_BID_NEAREST_TICK volume]) /\
     (GFD.position s + volume > GFD.POSITION_LIMIT ->
      GFD.position (after o) = GFD.POSITION_LIMIT /\ sent o = [])) /\
  (forall s i price volume,
     dom (GFD.bids s) ## dom (GFD.asks s) -> i ∈ dom (GFD.asks s) ->
     let o := GFD.on_order_filled_message i price volume s in
     (- GFD.POSITION_LIMIT <= GFD.position s - volume ->
      GFD.position (after o) = GFD.position s - volume /\
      sent o = [send_hedge_order (GFD.order_ids s) BID GFD.MAX_ASK_NEAREST_TICK volume]) /\
     (GFD.position s - volume < - GFD.POSITION_LIMIT ->
      GFD.position (after o) = - GFD.POSITION_LIMIT /\ sent o = [])).
Proof.
  split; [|split; [|split]].
  - intros s i price volume now Hi o. subst o.
    rewrite FAKFacts.fak_filled_bid by done.
    destruct (Z.gtb_spec (FAK.position s + volume) FAK.POSITION_LIMIT);
      simpl; (split; [intros ?|intros ?]; try lia; split; [lia|reflexivity]).
  - intros s i price volume now Hd Hi o. subst o.
    rewrite FAKFacts.fak_filled_ask by set_solver.
    destruct (Z.ltb_spec (FAK.position s - volume) (- FAK.POSITION_LIMIT));
      simpl; (split; [intros ?|intros ?]; try lia; split; [lia|reflexivity]).
  - intros s i price volume Hi o. subst o.
    rewrite GFDFacts.gfd_filled_bid by done.
    destruct (Z.gtb_spec (GFD.position s + volume) GFD.POSITION_LIMIT);
      simpl; (split; [intros ?|intros ?]; try lia; split; [lia|reflexivity]).
  - intros s i price volume Hd Hi o. subst o.
    rewrite GFDFacts.gfd_filled_ask by set_solver.
    destruct (Z.ltb_spec (GFD.position s - volume) (- GFD.POSITION_LIMIT));
      simpl; (split; [intros ?|intros ?]; try lia; split; [lia|reflexivity]).
Qed.

Lemma fill_to_the_limit_is_hedged_witness :
  (let o := FAK.on_order_filled_message (X := sample) 7 10000 10 (Py.nearest 3 0)
              (fak_long 90) in
   FAK.position (after o) = 90 + 10 /\
   sent o = [send_hedge_order 8 ASK 100 10]) /\
  (let o := FAK.on_order_filled_message (X := sample) 7 10200 10 (Py.nearest 3 0)
              (fak_short (-90)) in
   FAK.position (after o) = -90 - 10 /\
   sent o = [send_hedge_order 8 BID 2147483600 10]) /\
  (let o := GFD.on_order_filled_message (X := sample) 7 10000 10 (gfd_long 90) in
   GFD.position (after o) = 90 + 10 /\
   sent o = [send_hedge_order 8 ASK 100 10]) /\
  (let o := GFD.on_order_filled_message (X := sample) 7 10200 10 (gfd_short (-90)) in
   GFD.position (after o) = -90 - 10 /\
   sent o = [send_hedge_order 8 BID 2147483600 10]).
Proof.
  pose proof (@fill_to_the_limit_is_hedged sample) as (Hfb & Hfa & Hgb & Hga).
  split; [|split; [|split]].
  - apply (Hfb (fak_long 90) 7 10000 10 (Py.nearest 3 0)).
    + vm_compute. set_solver.
    + vm_compute. discriminate.
  - apply (Hfa (fak_short (-90)) 7 10200 10 (Py.nearest 3 0)).
    + vm_compute. set_solver.
    + vm_compute. set_solver.
    + vm_compute. discriminate.
  - apply (Hgb (gfd_long 90) 7 10000 10).
    + apply elem_of_dom. by eexists.
    + vm_compute. discriminate.
  - apply (Hga (gfd_short (-90)) 7 10200 10).
    + vm_compute. set_solver.
    + apply elem_of_dom. by eexists.
    + vm_compute. discriminate.
Defined.


(** ** Order retirement *)

(** C7.  In both traders, once a status message with no remaining volume
    has arrived for an order id the trader had issued by then, every later
    status message with no remaining volume for that id, whatever happened
    in between, changes no attribute, sends no command and raises no
    error. *)
Theorem repeated_terminal_status_is_ignored `{Exchange} :
  (forall (es1 es2 : list FAK.Event) i fill1 fees1 fill2 fees2,
     i < FAK.order_ids (FAK.run FAK.init es1) ->
     let s := FAK.run FAK.init (es1 ++ FAK.order_status_message i fill1 0 fees1 :: es2) in
     FAK.handle (FAK.order_status_message i fill2 0 fees2) s = (Py.Val tt, s, [])) /\
  (forall (es1 es2 : list GFD.Event) i fill1 fees1 fill2 fees2,
     i < GFD.order_ids (GFD.run GFD.init es1) ->
     let s := GFD.run GFD.init (es1 ++ GFD.order_status_message i fill1 0 fees1 :: es2) in
     GFD.handle (GFD.order_status_message i fill2 0 fees2) s = (Py.Val tt, s, [])).
Proof.
  split; intros es1 es2 i fill1 fees1 fill2 fees2 Hi s; subst s; simpl.
  - apply FAKFacts.fak_status_retired.
    unfold FAK.run. rewrite fold_left_app. simpl.
    fold (FAK.run FAK.init es1).
    match goal with |- FAK.retired i (fold_left ?f es2 ?s) =>
      change (FAK.retired i (FAK.run s es2));
      assert (FAK.ledger True i (FAK.run s es2)) as [_ Hr]; [|by apply Hr]
    end.
    apply FAKFacts.fak_run_keeps; [|split].
    + intros e _. apply FAKFacts.fak_handle_ledger.
    + apply (FAKFacts.fak_status_ledger False 0).
      split; [apply fak_reachable_ledger|done].
    + intros _. apply FAKFacts.fak_status_retires; [apply fak_reachable_ledger|done].
  - apply GFDFacts.gfd_status_retired.
    unfold GFD.run. rewrite fold_left_app. simpl.
    fold (GFD.run GFD.init es1).
    match goal with |- GFD.retired i (fold_left ?f es2 ?s) =>
      change (GFD.retired i (GFD.run s es2));
      assert (GFD.ledger True i (GFD.run s es2)) as [_ Hr]; [|by apply Hr]
    end.
    apply GFDFacts.gfd_run_keeps; [|split].
    + intros e _. apply GFDFacts.gfd_handle_ledger.
    + apply (GFDFacts.gfd_status_ledger False 0).
      split; [apply gfd_reachable_ledger|done].
    + intros _. apply GFDFacts.gfd_status_retires; [apply gfd_reachable_ledger|done].
Qed.

Lemma repeated_terminal_status_is_ignored_witness :
  (let s := FAK.run (X := sample) FAK.init
              (firstn 2 fak_session ++ FAK.order_status_message 1 10 0 0
                 :: skipn 3 fak_session) in
   FAK.handle (X := sample) (FAK.order_status_message 1 0 0 0) s = (Py.Val tt, s, [])) /\
  (let s := GFD.run (X := sample) GFD.init
              (firstn 2 gfd_session ++ GFD.order_status_message 1 10 0 0
                 :: skipn 3 gfd_session) in
   GFD.handle (X := sample) (GFD.order_status_message 1 0 0 0) s = (Py.Val tt, s, [])).
Proof.
  split.
  - apply (proj1 (@repeated_terminal_status_is_ignored sample)
             (firstn 2 fak_session) (skipn 3 fak_session) 1 10 0 0 0).
    vm_compute. reflexivity.
  - apply (proj2 (@repeated_terminal_status_is_ignored sample)
             (firstn 2 gfd_session) (skipn 3 gfd_session) 1 10 0 0 0).
    vm_compute. reflexivity.
Defined.

(** ** Messages without effect *)

(** C9.  In both traders a hedge fill changes nothing: the position, the
    quotes, the trend and the sets of open orders stay as they are and no
    command is sent.  In particular a hedge fill does not reduce the
    position. *)
Theorem hedge_fill_changes_nothing `{Exchange} :
  (forall s i price volume,
     FAK.handle (FAK.hedge_filled_message i price volume) s = (Py.Val tt, s, [])) /\
  (forall s i price volume,
     GFD.handle (GFD.hedge_filled_message i price volume) s = (Py.Val tt, s, [])).
Proof. split; reflexivity. Qed.

(** C10.  In both traders an order book update for an instrument other
    than the future changes no attribute and sends no command. *)
Theorem other_instrument_changes_nothing `{Exchange} :
  (forall s instrument n ap av bp bv,
     instrument <> FUTURE ->
     FAK.handle (FAK.order_book_update_message instrument n ap av bp bv) s
       = (Py.Val tt, s, [])) /\
  (forall s instrument n ap av bp bv,
     instrument <> FUTURE ->
     GFD.handle (GFD.order_book_update_message instrument n ap av bp bv) s
       = (Py.Val tt, s, [])).
Proof.
  split; intros s instrument n ap av bp bv Hi; simpl.
  - unfold FAK.on_order_book_update_message.
    by destruct (Z.eqb_spec instrument FUTURE).
  - unfold GFD.on_order_book_update_message.
    by destruct (Z.eqb_spec instrument FUTURE).
Qed.

Lemma other_instrument_changes_nothing_witness :
  FAK.handle (X := sample)
      (FAK.order_book_update_message 1 5 tight_asks [5; 5; 5] tight_bids [7; 7; 7])
      (fak_long 95)
    = (Py.Val tt, fak_long 95, []) /\
  GFD.handle (X := sample)
      (GFD.order_book_update_message 1 5 tight_asks [5; 5; 5] tight_bids [7; 7; 7])
      (gfd_long 90)
    = (Py.Val tt, gfd_long 90, []).
Proof.
  split.
  - apply (proj1 (@other_instrument_changes_nothing sample)). vm_compute. discriminate.
  - apply (proj2 (@other_instrument_changes_nothing sample)). vm_compute. discriminate.
Defined.

(** ** Quote prices *)

(** C2.  The price range is not kept.  With the constants of the sample
    exchange the lowest legal price is 100 and the highest 2147483600,
    and from the initial state: the fill-and-kill trader answers a book
    without asks with an ask at price 0, and a book with the widest
    spread with a bid at price 0; the good-for-day trader answers a book
    with the widest spread with a bid at price 0.  (Without asks the
    spread is -10000, the fair price 5000.0 and the ask 0.0, which the
    lower clamp [MIN_BID_NEAREST_TICK + spread = -9900] lets through.
    With a spread above [MAX_ASK_NEAREST_TICK - MIN_BID_NEAREST_TICK] the
    upper clamp of the bid, [MAX_ASK_NEAREST_TICK - spread], is below the
    lowest legal price.) *)
Theorem quotes_leave_the_price_range :
  FAK.MIN_BID_NEAREST_TICK (X := sample) = 100 /\
  FAK.MAX_ASK_NEAREST_TICK (X := sample) = 2147483600 /\
  GFD.MIN_BID_NEAREST_TICK (X := sample) = 100 /\
  sent (FAK.handle (X := sample) no_asks FAK.init) =
    [send_insert_order 1 BUY 10000 10 FILL_AND_KILL;
     send_insert_order 2 SELL 0 10 FILL_AND_KILL] /\
  sent (FAK.handle (X := sample) widest_fak FAK.init) =
    [send_insert_order 1 BUY 0 10 FILL_AND_KILL;
     send_insert_order 2 SELL 2147483600 10 FILL_AND_KILL] /\
  sent (GFD.handle (X := sample) widest_gfd GFD.init) =
    [send_insert_order 1 BUY 0 14 GFD;
     send_insert_order 2 SELL 2147483600 14 GFD].
Proof. repeat split; vm_compute; reflexivity. Qed.

(** C5.  With a stored trading volume and the trend still at 0 the fair
    price is not left alone: after one book with 100 lots on each side the
    stored volume is 100.0 and the trend 0, and for the next book (bid
    10000, ask 10200, spread 200) the fair price 10100 is lowered by
    (100.0 / 100) * 200 / 2 = 100 to 10000, so that the quotes go out at
    9900 and 10100 instead of 10000 and 10200. *)
Theorem flat_trend_lowers_the_fair_price :
  FAK.trading_volume after_first_book = Py.Float (Py.nearest 100 0) /\
  FAK.price_trend after_first_book = 0 /\
  FAK.fair_price (X := sample) after_first_book thin_asks thin_bids
    = Py.Val (200, Py.Float (Py.nearest 10100 0)) /\
  FAK.trend_adjusted after_first_book 200 (Py.Float (Py.nearest 10100 0))
    = Py.Val (Py.Float (Py.nearest 10000 0)) /\
  sent (FAK.handle (X := sample) (steady_book 2) after_first_book) =
    [send_cancel_order 1; send_cancel_order 2;
     send_insert_order 3 BUY 9900 10 FILL_AND_KILL;
     send_insert_order 4 SELL 10100 10 FILL_AND_KILL].
Proof. repeat split; vm_compute; reflexivity. Qed.


(** C4, as stated, fails: for the book with best bid 10000 and best ask
    10002, from the initial state, the computed bid is not below 10000
    and the computed ask is not above 10002.  (The mid price is 10001 and
    the spread 2, so the fair price is 10001.0, the bid 10000.0 and the
    ask 10002.0; [// 100 * 100] leaves the bid at 10000.0 and takes the
    ask down to 10000.0.) *)
Lemma tight_book_quotes_not_outside :
  ~ (exists bid ask,
       FAK.quote_prices (X := sample) FAK.init tight_asks tight_bids = Py.Val (bid, ask) /\
       Py.lt bid (Py.Int 10000) = true /\ Py.gt ask (Py.Int 10002) = true).
Proof.
  intros (bid & ask & Hq & Hbid & _).
  vm_compute in Hq. injection Hq as <- <-.
  vm_compute in Hbid. discriminate.
Qed.

(** C4, amended.  For a book with best bid 10000 and best ask 10002, a
    flat position and no stored trading volume, the pricing gives a bid of
    10000 and an ask of 10000, both rounded down to the tick of 100: the
    bid is at the best bid, not below it, and the ask is below the best
    ask.  Both are multiples of the tick size and within the price bounds,
    for every exchange whose bounds contain 10000 and 10002. *)
Theorem tight_book_quotes `{Exchange} s ask_prices bid_prices :
  FAK.MIN_BID_NEAREST_TICK <= 10000 ->
  10002 <= FAK.MAX_ASK_NEAREST_TICK ->
  FAK.position s = 0 ->
  Py.eq (FAK.trading_volume s) (Py.Int 0) = true ->
  bid_prices !! 0%nat = Some 10000 ->
  ask_prices !! 0%nat = Some 10002 ->
  exists bid ask,
    FAK.quote_prices s ask_prices bid_prices = Py.Val (bid, ask) /\
    Py.int bid = Py.Val 10000 /\ Py.int ask = Py.Val 10000 /\
    (FAK.TICK_SIZE_IN_CENTS | 10000) /\
    FAK.MIN_BID_NEAREST_TICK <= 10000 <= FAK.MAX_ASK_NEAREST_TICK.
Proof.
  intros Hlo Hhi Hp Htv Hb Ha.
  assert (FAK.TICK_SIZE_IN_CENTS | 10000) as Htick by (by exists 100).
  assert (FAK.MIN_BID_NEAREST_TICK <= 10000 <= FAK.MAX_ASK_NEAREST_TICK) as Hin by lia.
  revert Hin.
  unfold FAK.quote_prices, FAK.fair_price, FAK.trend_adjusted, FAK.quotes_around,
    Py.index.
  unfold Py.ne. rewrite Hb, Ha, Hp, Htv. cbn [negb].
  generalize dependent FAK.MIN_BID_NEAREST_TICK. intros lo Hlo.
  generalize dependent FAK.MAX_ASK_NEAREST_TICK. intros hi Hhi Hin.
  PyFacts.bind.
  PyFacts.calc (Py.truediv (Py.Int (0 / FAK.LOT_SIZE)) (Py.Int 100)). PyFacts.bind.
  PyFacts.calc (Py.mul (Py.Float (S754_zero false)) (Py.Int (10002 - 10000))).
  PyFacts.bind.
  PyFacts.calc (Py.truediv (Py.Float (S754_zero false)) (Py.Int 2)). PyFacts.bind.
  PyFacts.calc (Py.add (Py.Int ((10000 + 10002) `div` 2)) (Py.Float (S754_zero false))).
  PyFacts.bind.
  rewrite PyFacts.max_int_float_lt by (simpl; lia).
  rewrite PyFacts.min_int_float_gt by (simpl; lia).
  PyFacts.bind.
  PyFacts.calc (10002 - 10000).
  PyFacts.calc (Py.truediv (Py.Int 2) (Py.Int 2)). PyFacts.bind.
  PyFacts.calc (Py.sub (Py.Float (S754_finite false 5498107894693888 (-39)))
                  (Py.Float (S754_finite false 4503599627370496 (-52)))).
  PyFacts.bind.
  PyFacts.calc (Py.add (Py.Float (S754_finite false 5498107894693888 (-39)))
                  (Py.Float (S754_finite false 4503599627370496 (-52)))).
  PyFacts.bind.
  destruct (PyFacts.clamp_int_valued 5497558138880000 39 10000 lo (hi - 2))
    as [-> | ->]; [reflexivity|lia| |];
    (destruct (PyFacts.clamp_int_valued 5498657650507776 39 10002 (lo + 2) hi)
       as [-> | ->]; [reflexivity|lia| |]);
    (do 2 eexists; split; [vm_compute; reflexivity|repeat split; done || lia]).
Qed.

Lemma tight_book_quotes_witness :
  exists bid ask,
    FAK.quote_prices (X := sample) FAK.init tight_asks tight_bids = Py.Val (bid, ask) /\
    Py.int bid = Py.Val 10000 /\ Py.int ask = Py.Val 10000 /\
    (FAK.TICK_SIZE_IN_CENTS | 10000) /\
    FAK.MIN_BID_NEAREST_TICK (X := sample) <= 10000
      <= FAK.MAX_ASK_NEAREST_TICK (X := sample).
Proof.
  apply (@tight_book_quotes sample FAK.init tight_asks tight_bids).
  - vm_compute. discriminate.
  - vm_compute. discriminate.
  - reflexivity.
  - reflexivity.
  - reflexivity.
  - reflexivity.
Defined.

(** ** Quote sizes *)

Lemma quoted_size_bid s depth :
  GFD.bid_order_size s depth =
  GFD.quoted_size 14
    (GFD.POSITION_LIMIT - GFD.position s - GFD.outstanding_volume (GFD.bids s)) depth.
Proof. unfold GFD.bid_order_size, GFD.quoted_size. lia. Qed.

Lemma quoted_size_ask s depth :
  GFD.ask_order_size s depth =
  GFD.quoted_size 14
    (GFD.POSITION_LIMIT + GFD.position s - GFD.outstanding_volume (GFD.asks s)) depth.
Proof. unfold GFD.ask_order_size, GFD.quoted_size. lia. Qed.

(** No test of the size stands between its computation and the insert.
    In the good-for-day trader, when an order book update for the future
    finds no active bid and the position below the limit, a bid is sent
    whose size is the least of the cap of 14, the limit minus the position
    minus the outstanding bid volume, and the volume at the best bid, and
    at least 0; it is sent whatever that size is.  The same holds for the
    ask.  (Stated for the updates whose prices are computed and converted
    without an error.) *)
Lemma gfd_quote_is_sent_at_any_size `{Exchange}
    s n ap av bp bv bid_volume ask_volume bid ask bid_cents ask_cents :
  bv !! 0%nat = Some bid_volume ->
  av !! 0%nat = Some ask_volume ->
  GFD.quote_prices s ap bp = Py.Val (bid, ask) ->
  Py.int bid = Py.Val bid_cents ->
  Py.int ask = Py.Val ask_cents ->
  let o := GFD.on_order_book_update_message FUTURE n ap av bp bv s in
  (GFD.bid_id s = 0 -> GFD.position s < GFD.POSITION_LIMIT ->
   In (send_insert_order (GFD.bid_id (after o)) BUY bid_cents
         (GFD.quoted_size 14
            (GFD.POSITION_LIMIT - GFD.position s - GFD.outstanding_volume (GFD.bids s))
            bid_volume)
         GFD) (sent o)) /\
  (GFD.ask_id s = 0 -> GFD.position s > - GFD.POSITION_LIMIT ->
   In (send_insert_order (GFD.ask_id (after o)) SELL ask_cents
         (GFD.quoted_size 14
            (GFD.POSITION_LIMIT + GFD.position s - GFD.outstanding_volume (GFD.asks s))
            ask_volume)
         GFD) (sent o)).
Proof.
  intros Hbv Hav Hq Hb Ha o. subst o.
  rewrite <- quoted_size_bid, <- quoted_size_ask.
  unfold GFD.on_order_book_update_message, Py.index.
  rewrite Z.eqb_refl, Hbv, Hav.
  unfold GFD.cancel_stale, GFD.place_bid, GFD.place_ask, GFD.next_order_id.
  exec. unfold id. rewrite Hq. exec. cbv beta iota.
  split.
  - intros Hid Hp.
    assert ((GFD.position s <? GFD.POSITION_LIMIT) = true) as Hc by by apply Z.ltb_lt.
    branches_with
      ltac:(GFDFacts.fields; rewrite ?Hid, ?Hb, ?Ha; cbn [Z.eqb negb andb]; rewrite ?Hc);
      simpl; auto.
  - intros Hid Hp.
    assert ((GFD.position s >? - GFD.POSITION_LIMIT) = true) as Hc
      by (apply Z.gtb_lt; lia).
    branches_with
      ltac:(GFDFacts.fields; rewrite ?Hid, ?Hb, ?Ha; cbn [Z.eqb negb andb]; rewrite ?Hc;
            unfold GFD.ask_order_size; GFDFacts.fields);
      simpl; auto.
Qed.

(** C6.  Quotes of size zero are sent.  The good-for-day trader computes
    the size as claimed, [min(14, max(0, min(room, depth)))], but no test
    of the size follows: where the claim has an insert only for a size
    above 0, the code inserts an order of volume 0.  From the initial
    state (no active bid, position 0 below the limit of 100) a book with
    no bids has depth 0, and the bid goes out with volume 0.  After eight
    books that move the quotes by a tick each, with no status message in
    between, the position is still 0 and each side has 100 lots
    outstanding, so that the room is 0 on both sides: the next book
    cancels both quotes and sends a bid and an ask of volume 0. *)
Theorem zero_size_quotes_are_sent :
  GFD.POSITION_LIMIT = 100 /\
  GFD.bid_id GFD.init = 0 /\ GFD.position GFD.init = 0 /\
  GFD.bid_order_size GFD.init 0 = 0 /\
  GFD.handle (X := sample) no_bids GFD.init
    = (Py.Val tt,
       after (GFD.handle (X := sample) no_bids GFD.init),
       [send_insert_order 1 BUY 100 0 GFD;
        send_insert_order 2 SELL 10500 14 GFD]) /\
  GFD.position after_eight_books = 0 /\
  GFD.outstanding_volume (GFD.bids after_eight_books) = 100 /\
  GFD.outstanding_volume (GFD.asks after_eight_books) = 100 /\
  GFD.bid_order_size after_eight_books 40 = 0 /\
  GFD.ask_order_size after_eight_books 50 = 0 /\
  GFD.handle (X := sample) (low_book 9) after_eight_books
    = (Py.Val tt,
       after (GFD.handle (X := sample) (low_book 9) after_eight_books),
       [send_cancel_order 15; send_cancel_order 16;
        send_insert_order 17 BUY 9800 0 GFD;
        send_insert_order 18 SELL 10400 0 GFD]).
Proof.
  repeat match goal with |- _ /\ _ => split end; vm_compute; reflexivity.
Qed.

(** * Further properties of the code *)

Import Transcript.

(** ** Running handlers *)

(** All the paths of a handler, also through the destructuring of a pair
    of prices. *)
Ltac fork :=
  first
    [ branch
    | match goal with
      | |- context [let '(_, _) := ?x in _] => is_var x; destruct x
      end ].

Ltac paths_with fields :=
  repeat (repeat progress (exec; fields); fork);
  repeat progress (exec; fields).

(** ** Order ids *)

Lemma ascending_le lo l hi : ascending lo l hi -> lo <= hi.
Proof.
  revert lo. induction l as [|x l IH]; simpl; intros lo; [done|].
  intros [Hx Hl]. apply IH in Hl. lia.
Qed.

Lemma ascending_app lo l1 mid l2 hi :
  ascending lo l1 mid -> ascending mid l2 hi -> ascending lo (l1 ++ l2) hi.
Proof.
  revert lo. induction l1 as [|x l1 IH]; simpl; intros lo.
  - intros Hlo Hl2. destruct l2 as [|y l2]; simpl in *; [lia|].
    split; [lia|apply Hl2].
  - intros [Hx Hl1] Hl2. split; [done|]. by apply IH.
Qed.

Lemma ascending_bounds lo l hi :
  ascending lo l hi -> Forall (fun x => lo <= x < hi) l.
Proof.
  revert lo. induction l as [|x l IH]; simpl; intros lo; [constructor|].
  intros [Hx Hl]. constructor.
  - apply ascending_le in Hl. lia.
  - eapply Forall_impl; [apply (IH _ Hl)|]. simpl. intros. lia.
Qed.

Lemma ascending_sorted lo l hi : ascending lo l hi -> StronglySorted Z.lt l.
Proof.
  revert lo. induction l as [|x l IH]; simpl; intros lo; [constructor|].
  intros [Hx Hl]. constructor; [by eapply IH|].
  eapply Forall_impl; [apply (ascending_bounds _ _ _ Hl)|]. simpl. intros. lia.
Qed.

Lemma new_order_ids_app l1 l2 :
  new_order_ids (l1 ++ l2) = new_order_ids l1 ++ new_order_ids l2.
Proof. apply omap_app. Qed.

Section Issues.
Context {S : Type} (counter : S -> Z).

Lemma issues_bind {A B} (m : M S A) (f : A -> M S B) :
  issues counter m -> (forall a, issues counter (f a)) -> issues counter (m ≫= f).
Proof.
  intros Hm Hf s. specialize (Hm s).
  unfold mbind, M_bind. cbv zeta.
  destruct (result (m s)) as [a|e]; cbn [after sent fst snd]; [|done].
  rewrite new_order_ids_app. eapply ascending_app; [done|apply Hf].
Qed.

Lemma issues_quiet {A} (m : M S A) :
  (forall s, sent (m s) = [] /\ counter s <= counter (after (m s))) -> issues counter m.
Proof. intros H s. destruct (H s) as [-> ?]. done. Qed.

End Issues.

Ltac issues_steps :=
  repeat match goal with
    | |- issues _ (_ ≫= _) => apply issues_bind; [|intros ?]
    | |- issues _ (if _ then _ else _) => case_match
    | |- issues _ (attr _) => by apply issues_quiet
    | |- issues _ (eval _) => by apply issues_quiet
    | |- issues _ (mret _) => by apply issues_quiet
    | |- issues _ (let '(_, _) := ?x in _) => is_var x; destruct x
    end.

Lemma fak_fill_issues `{Exchange} i p v now :
  issues FAK.order_ids (FAK.on_order_filled_message i p v now).
Proof.
  intros s. unfold FAK.on_order_filled_message, FAK.next_order_id.
  branches_with ltac:(FAKFacts.fields); simpl; lia.
Qed.

Lemma fak_status_issues `{Exchange} i f r fees :
  issues FAK.order_ids (FAK.on_order_status_message i f r fees).
Proof.
  intros s. unfold FAK.on_order_status_message.
  branches_with ltac:(FAKFacts.fields); simpl; lia.
Qed.

Lemma fak_book_issues `{Exchange} i n ap av bp bv :
  issues FAK.order_ids (FAK.on_order_book_update_message i n ap av bp bv).
Proof.
  unfold FAK.on_order_book_update_message. issues_steps.
  - intros s. unfold FAK.update_trend. branches_with ltac:(FAKFacts.fields); simpl; lia.
  - intros s. unfold FAK.cancel_stale. branches_with ltac:(FAKFacts.fields); simpl; lia.
  - intros s. unfold FAK.place_orders, FAK.next_order_id.
    branches_with ltac:(FAKFacts.fields); simpl; lia.
Qed.

Lemma fak_handle_issues `{Exchange} e : issues FAK.order_ids (FAK.handle e).
Proof.
  destruct e; simpl.
  - unfold FAK.on_error_message. issues_steps. apply fak_status_issues.
  - by apply issues_quiet.
  - apply fak_fill_issues.
  - apply fak_status_issues.
  - apply fak_book_issues.
Qed.

Lemma gfd_fill_issues `{Exchange} i p v :
  issues GFD.order_ids (GFD.on_order_filled_message i p v).
Proof.
  intros s. unfold GFD.on_order_filled_message, GFD.next_order_id.
  branches_with ltac:(GFDFacts.fields); simpl; lia.
Qed.

Lemma gfd_status_issues `{Exchange} i f r fees :
  issues GFD.order_ids (GFD.on_order_status_message i f r fees).
Proof.
  intros s. unfold GFD.on_order_status_message.
  branches_with ltac:(GFDFacts.fields); simpl; lia.
Qed.

Lemma gfd_book_issues `{Exchange} i n ap av bp bv :
  issues GFD.order_ids (GFD.on_order_book_update_message i n ap av bp bv).
Proof.
  unfold GFD.on_order_book_update_message. issues_steps.
  - intros s. unfold GFD.cancel_stale. branches_with ltac:(GFDFacts.fields); simpl; lia.
  - intros s. unfold GFD.place_bid, GFD.next_order_id. branches_with ltac:(GFDFacts.fields); simpl; lia.
  - intros s. unfold GFD.place_ask, GFD.next_order_id. branches_with ltac:(GFDFacts.fields); simpl; lia.
Qed.

Lemma gfd_handle_issues `{Exchange} e : issues GFD.order_ids (GFD.handle e).
Proof.
  destruct e; simpl.
  - unfold GFD.on_error_message. issues_steps. apply gfd_status_issues.
  - by apply issues_quiet.
  - apply gfd_fill_issues.
  - apply gfd_status_issues.
  - by apply issues_quiet.
  - apply gfd_book_issues.
Qed.

Lemma fak_transcript_ascending `{Exchange} es s :
  ascending (FAK.order_ids s) (new_order_ids (fak_transcript s es))
    (FAK.order_ids (FAK.run s es)).
Proof.
  revert s. induction es as [|e es IH]; intros s; simpl; [lia|].
  rewrite new_order_ids_app.
  eapply ascending_app; [apply fak_handle_issues|apply IH].
Qed.

Lemma gfd_transcript_ascending `{Exchange} es s :
  ascending (GFD.order_ids s) (new_order_ids (gfd_transcript s es))
    (GFD.order_ids (GFD.run s es)).
Proof.
  revert s. induction es as [|e es IH]; intros s; simpl; [lia|].
  rewrite new_order_ids_app.
  eapply ascending_app; [apply gfd_handle_issues|apply IH].
Qed.

(** X1.  No order id is issued twice.  Over any run of messages from the
    initial state the ids of the orders sent (inserts and hedges), in the
    order they are sent, increase strictly, start at 1 or above and stay
    below the counter; this holds for both traders, also when handlers
    raise on the way. *)
Theorem order_ids_increase `{Exchange} :
  (forall es : list FAK.Event,
     let ids := new_order_ids (fak_transcript FAK.init es) in
     StronglySorted Z.lt ids /\
     Forall (fun i => 1 <= i < FAK.order_ids (FAK.run FAK.init es)) ids) /\
  (forall es : list GFD.Event,
     let ids := new_order_ids (gfd_transcript GFD.init es) in
     StronglySorted Z.lt ids /\
     Forall (fun i => 1 <= i < GFD.order_ids (GFD.run GFD.init es)) ids).
Proof.
  split; intros es ids; subst ids.
  - pose proof (fak_transcript_ascending es FAK.init) as Ha.
    split; [by eapply ascending_sorted|by apply ascending_bounds in Ha].
  - pose proof (gfd_transcript_ascending es GFD.init) as Ha.
    split; [by eapply ascending_sorted|by apply ascending_bounds in Ha].
Qed.

(** ** The ledger *)

Lemma fak_handle_positive `{Exchange} e : keeps fak_positive (FAK.handle e).
Proof.
  assert (forall i f r fees,
            keeps fak_positive (FAK.on_order_status_message i f r fees)) as Hstatus.
  { intros i f r fees s Hs. unfold fak_positive, FAK.on_order_status_message in *.
    paths_with ltac:(FAKFacts.fields); destruct Hs as (? & ? & ? & ? & ?);
      repeat split; try lia; set_unfold; naive_solver lia. }
  destruct e; simpl.
  - unfold FAK.on_error_message. keeps_steps. apply Hstatus.
  - apply keeps_ret.
  - intros s Hs. unfold fak_positive, FAK.on_order_filled_message, FAK.next_order_id in *.
    paths_with ltac:(FAKFacts.fields); destruct Hs as (? & ? & ? & ? & ?);
      repeat split; try lia; set_unfold; naive_solver lia.
  - apply Hstatus.
  - unfold FAK.on_order_book_update_message, FAK.update_trend. keeps_steps.
    + intros s Hs. unfold fak_positive, FAK.cancel_stale in *.
      paths_with ltac:(FAKFacts.fields); destruct Hs as (? & ? & ? & ? & ?);
        repeat split; try lia; set_unfold; naive_solver lia.
    + intros s Hs. unfold fak_positive, FAK.place_orders, FAK.next_order_id in *.
      paths_with ltac:(FAKFacts.fields); destruct Hs as (? & ? & ? & ? & ?);
        repeat split; try lia; set_unfold; naive_solver lia.
Qed.

Lemma gfd_handle_positive `{Exchange} e : keeps gfd_positive (GFD.handle e).
Proof.
  assert (forall i f r fees,
            keeps gfd_positive (GFD.on_order_status_message i f r fees)) as Hstatus.
  { intros i f r fees s Hs. unfold gfd_positive, GFD.on_order_status_message in *.
    paths_with ltac:(GFDFacts.fields); destruct Hs as (? & ? & ? & ? & ?);
      repeat split; try lia; set_unfold; naive_solver lia. }
  destruct e; simpl.
  - unfold GFD.on_error_message. keeps_steps. apply Hstatus.
  - apply keeps_ret.
  - intros s Hs. unfold gfd_positive, GFD.on_order_filled_message, GFD.next_order_id in *.
    paths_with ltac:(GFDFacts.fields); destruct Hs as (? & ? & ? & ? & ?);
      repeat split; try lia; set_unfold; naive_solver lia.
  - apply Hstatus.
  - apply keeps_ret.
  - unfold GFD.on_order_book_update_message. keeps_steps.
    + intros s Hs. unfold gfd_positive, GFD.cancel_stale in *.
      paths_with ltac:(GFDFacts.fields); destruct Hs as (? & ? & ? & ? & ?);
        repeat split; try lia; set_unfold; naive_solver lia.
    + intros s Hs. unfold gfd_positive, GFD.place_bid, GFD.next_order_id in *.
      paths_with ltac:(GFDFacts.fields); destruct Hs as (? & ? & ? & ? & ?);
        repeat split; try lia; set_unfold; naive_solver lia.
    + intros s Hs. unfold gfd_positive, GFD.place_ask, GFD.next_order_id in *.
      paths_with ltac:(GFDFacts.fields); destruct Hs as (? & ? & ? & ? & ?);
        repeat split; try lia; set_unfold; naive_solver lia.
Qed.

(** X2.  The ledger stays consistent.  In every state either trader can
    reach: the bid slot and the ask slot hold different orders unless both
    are empty (0); no order id is tracked on both sides; every tracked id
    and every id in a slot was issued by the counter (it is below the next
    id); and tracked ids are positive, so that 0 in a slot never names an
    order. *)
Theorem ledger_stays_consistent `{Exchange} :
  (forall es : list FAK.Event,
     let s := FAK.run FAK.init es in
     (FAK.bid_id s = FAK.ask_id s -> FAK.bid_id s = 0) /\
     FAK.bids s ## FAK.asks s /\
     (forall i, i ∈ FAK.bids s ∪ FAK.asks s -> 0 < i < FAK.order_ids s) /\
     0 <= FAK.bid_id s < FAK.order_ids s /\
     0 <= FAK.ask_id s < FAK.order_ids s) /\
  (forall es : list GFD.Event,
     let s := GFD.run GFD.init es in
     (GFD.bid_id s = GFD.ask_id s -> GFD.bid_id s = 0) /\
     dom (GFD.bids s) ## dom (GFD.asks s) /\
     (forall i, i ∈ dom (GFD.bids s) ∪ dom (GFD.asks s) -> 0 < i < GFD.order_ids s) /\
     0 <= GFD.bid_id s < GFD.order_ids s /\
     0 <= GFD.ask_id s < GFD.order_ids s).
Proof.
  split; intros es s; subst s.
  - pose proof (fak_reachable_ledger es) as (_ & Hb & Ha & Hba & Hbs & Has & Hd).
    assert (fak_positive (FAK.run FAK.init es)) as (_ & Hb0 & Ha0 & Hbp & Hap).
    { apply FAKFacts.fak_run_keeps.
      - intros e _. apply fak_handle_positive.
      - repeat split; simpl; try lia; set_solver. }
    split; [done|]. split; [done|]. split; [|lia].
    intros i [Hi|Hi]%elem_of_union.
    + specialize (Hbp i Hi). specialize (Hbs i Hi). lia.
    + specialize (Hap i Hi). specialize (Has i Hi). lia.
  - pose proof (gfd_reachable_ledger es) as (_ & Hb & Ha & Hba & Hbs & Has & Hd).
    assert (gfd_positive (GFD.run GFD.init es)) as (_ & Hb0 & Ha0 & Hbp & Hap).
    { apply GFDFacts.gfd_run_keeps.
      - intros e _. apply gfd_handle_positive.
      - repeat split; simpl; try lia; set_solver. }
    split; [done|]. split; [done|]. split; [|lia].
    intros i [Hi|Hi]%elem_of_union.
    + specialize (Hbp i Hi). specialize (Hbs i Hi). lia.
    + specialize (Hap i Hi). specialize (Has i Hi). lia.
Qed.

(** ** Error messages *)

(** X3.  What an error message does, in both traders.  A message that
    does not decode makes the handler raise before it touches anything.
    Otherwise an error for order id 0 or for an order that is on neither
    side changes nothing and sends nothing, and an error for a tracked
    order does exactly what a status message with nothing filled and
    nothing remaining does. *)
Theorem error_message_effect `{Exchange} :
  (forall s i m,
     (decodable m = false ->
      FAK.handle (FAK.error_message i m) s = (Py.Exc Py.UnicodeDecodeError, s, [])) /\
     (decodable m = true -> i = 0 \/ ((i ∉ FAK.bids s) /\ (i ∉ FAK.asks s)) ->
      FAK.handle (FAK.error_message i m) s = (Py.Val tt, s, [])) /\
     (decodable m = true -> i <> 0 -> i ∈ FAK.bids s \/ i ∈ FAK.asks s ->
      FAK.handle (FAK.error_message i m) s
        = FAK.handle (FAK.order_status_message i 0 0 0) s)) /\
  (forall s i m,
     (decodable m = false ->
      GFD.handle (GFD.error_message i m) s = (Py.Exc Py.UnicodeDecodeError, s, [])) /\
     (decodable m = true ->
      i = 0 \/ ((i ∉ dom (GFD.bids s)) /\ (i ∉ dom (GFD.asks s))) ->
      GFD.handle (GFD.error_message i m) s = (Py.Val tt, s, [])) /\
     (decodable m = true -> i <> 0 ->
      i ∈ dom (GFD.bids s) \/ i ∈ dom (GFD.asks s) ->
      GFD.handle (GFD.error_message i m) s
        = GFD.handle (GFD.order_status_message i 0 0 0) s)).
Proof.
  split; intros s i m; simpl.
  - unfold FAK.on_error_message. split; [|split].
    + intros ->. by exec.
    + intros -> Hi. exec.
      destruct Hi as [->|[Hb Ha]]; [done|].
      rewrite (bool_decide_false _ Hb), (bool_decide_false _ Ha).
      by rewrite andb_false_r.
    + intros -> Hi0 Hi. exec.
      destruct (Z.eqb_spec i 0); [done|]. cbn [negb andb].
      destruct Hi as [Hi|Hi]; rewrite (bool_decide_true _ Hi); [done|].
      by rewrite orb_true_r.
  - unfold GFD.on_error_message. split; [|split].
    + intros ->. by exec.
    + intros -> Hi. exec.
      destruct Hi as [->|[Hb Ha]]; [done|].
      rewrite (GFDFacts.has_key_false _ _ Hb), (GFDFacts.has_key_false _ _ Ha).
      by rewrite andb_false_r.
    + intros -> Hi0 Hi. exec.
      destruct (Z.eqb_spec i 0); [done|]. cbn [negb andb].
      destruct Hi as [Hi|Hi]; rewrite (GFDFacts.has_key_true _ _ Hi); [done|].
      by rewrite orb_true_r.
Qed.

Lemma error_message_effect_witness :
  (FAK.handle (X := ascii_only) (FAK.error_message 7 [Byte.xff]) (fak_long 95)
     = (Py.Exc Py.UnicodeDecodeError, fak_long 95, [])) /\
  (FAK.handle (X := ascii_only) (FAK.error_message 9999 [Byte.x6f; Byte.x6b]) (fak_long 95)
     = (Py.Val tt, fak_long 95, [])) /\
  (FAK.handle (X := ascii_only) (FAK.error_message 7 [Byte.x6f; Byte.x6b]) (fak_long 95)
     = FAK.handle (X := ascii_only) (FAK.order_status_message 7 0 0 0) (fak_long 95)) /\
  (GFD.handle (X := ascii_only) (GFD.error_message 7 [Byte.xff]) (gfd_long 90)
     = (Py.Exc Py.UnicodeDecodeError, gfd_long 90, [])) /\
  (GFD.handle (X := ascii_only) (GFD.error_message 9999 [Byte.x6f; Byte.x6b]) (gfd_long 90)
     = (Py.Val tt, gfd_long 90, [])) /\
  (GFD.handle (X := ascii_only) (GFD.error_message 7 [Byte.x6f; Byte.x6b]) (gfd_long 90)
     = GFD.handle (X := ascii_only) (GFD.order_status_message 7 0 0 0) (gfd_long 90)).
Proof.
  pose proof (@error_message_effect ascii_only) as [Hf Hg].
  destruct (Hf (fak_long 95) 7 [Byte.xff]) as (Hf1 & _ & _).
  destruct (Hf (fak_long 95) 9999 [Byte.x6f; Byte.x6b]) as (_ & Hf2 & _).
  destruct (Hf (fak_long 95) 7 [Byte.x6f; Byte.x6b]) as (_ & _ & Hf3).
  destruct (Hg (gfd_long 90) 7 [Byte.xff]) as (Hg1 & _ & _).
  destruct (Hg (gfd_long 90) 9999 [Byte.x6f; Byte.x6b]) as (_ & Hg2 & _).
  destruct (Hg (gfd_long 90) 7 [Byte.x6f; Byte.x6b]) as (_ & _ & Hg3).
  split; [|split; [|split; [|split; [|split]]]].
  - apply Hf1. reflexivity.
  - apply Hf2; [reflexivity|]. right. vm_compute. set_solver.
  - apply Hf3; [reflexivity|discriminate|]. left. vm_compute. set_solver.
  - apply Hg1. reflexivity.
  - apply Hg2; [reflexivity|]. right. split; rewrite not_elem_of_dom; reflexivity.
  - apply Hg3; [reflexivity|discriminate|]. left. apply elem_of_dom. by eexists.
Defined.

(** ** Status messages *)

(** X4.  What a status message does, in both traders.  With volume
    remaining it changes nothing.  With none remaining it sends nothing,
    takes that order out of both sides and out of the slot that holds it
    (the bid slot first), and leaves every other order, the position, the
    counter and the quoted prices as they were. *)
Theorem status_message_effect `{Exchange} :
  (forall s i fill remaining fees,
     let o := FAK.handle (FAK.order_status_message i fill remaining fees) s in
     (remaining <> 0 -> o = (Py.Val tt, s, [])) /\
     (remaining = 0 ->
      result o = Py.Val tt /\ sent o = [] /\
      FAK.bids (after o) = FAK.bids s ∖ {[i]} /\
      FAK.asks (after o) = FAK.asks s ∖ {[i]} /\
      FAK.bid_id (after o) = (if decide (i = FAK.bid_id s) then 0 else FAK.bid_id s) /\
      FAK.ask_id (after o) =
        (if decide (i <> FAK.bid_id s /\ i = FAK.ask_id s) then 0 else FAK.ask_id s) /\
      FAK.position (after o) = FAK.position s /\
      FAK.order_ids (after o) = FAK.order_ids s /\
      FAK.bid_price (after o) = FAK.bid_price s /\
      FAK.ask_price (after o) = FAK.ask_price s)) /\
  (forall s i fill remaining fees,
     let o := GFD.handle (GFD.order_status_message i fill remaining fees) s in
     (remaining <> 0 -> o = (Py.Val tt, s, [])) /\
     (remaining = 0 ->
      result o = Py.Val tt /\ sent o = [] /\
      GFD.bids (after o) = delete i (GFD.bids s) /\
      GFD.asks (after o) = delete i (GFD.asks s) /\
      GFD.bid_id (after o) = (if decide (i = GFD.bid_id s) then 0 else GFD.bid_id s) /\
      GFD.ask_id (after o) =
        (if decide (i <> GFD.bid_id s /\ i = GFD.ask_id s) then 0 else GFD.ask_id s) /\
      GFD.position (after o) = GFD.position s /\
      GFD.order_ids (after o) = GFD.order_ids s /\
      GFD.bid_price (after o) = GFD.bid_price s /\
      GFD.ask_price (after o) = GFD.ask_price s)).
Proof.
  split; intros s i fill remaining fees o; subst o; simpl; (split; [|intros ->]).
  - apply FAKFacts.fak_status_open.
  - rewrite FAKFacts.fak_status_terminal. unfold FAK.unslotted.
    destruct (Z.eqb_spec i (FAK.bid_id s)); [|destruct (Z.eqb_spec i (FAK.ask_id s))];
      repeat case_decide; FAKFacts.fields; repeat split; try done; try lia.
  - apply GFDFacts.gfd_status_open.
  - rewrite GFDFacts.gfd_status_terminal. unfold GFD.unslotted.
    destruct (Z.eqb_spec i (GFD.bid_id s)); [|destruct (Z.eqb_spec i (GFD.ask_id s))];
      repeat case_decide; GFDFacts.fields; repeat split; try done; try lia.
Qed.

Lemma status_message_effect_witness :
  FAK.handle (X := sample) (FAK.order_status_message 7 5 3 0) (fak_long 95)
    = (Py.Val tt, fak_long 95, []) /\
  (let o := FAK.handle (X := sample) (FAK.order_status_message 7 10 0 0) (fak_long 95) in
   sent o = [] /\ FAK.bids (after o) = {[7]} ∖ {[7]} /\ FAK.bid_id (after o) = 0) /\
  GFD.handle (X := sample) (GFD.order_status_message 7 5 3 0) (gfd_long 90)
    = (Py.Val tt, gfd_long 90, []) /\
  (let o := GFD.handle (X := sample) (GFD.order_status_message 7 10 0 0) (gfd_long 90) in
   sent o = [] /\ GFD.bids (after o) !! 7 = None /\ GFD.bid_id (after o) = 0).
Proof.
  pose proof (@status_message_effect sample) as [Hf Hg].
  destruct (Hf (fak_long 95) 7 5 3 0) as [Hf1 _].
  destruct (Hf (fak_long 95) 7 10 0 0) as [_ Hf2].
  destruct (Hg (gfd_long 90) 7 5 3 0) as [Hg1 _].
  destruct (Hg (gfd_long 90) 7 10 0 0) as [_ Hg2].
  split; [apply Hf1; discriminate|].
  split; [destruct (Hf2 eq_refl) as (_ & ? & ? & _ & ? & _); cbv zeta; by repeat split|].
  split; [apply Hg1; discriminate|].
  destruct (Hg2 eq_refl) as (_ & ? & Hb & _ & ? & _).
  cbv zeta. split; [done|]. split; [|done]. rewrite Hb. apply lookup_delete_eq.
Defined.

(** ** Fills *)

(** X5.  What a fill never touches, in both traders.  A fill leaves both
    sides, both slots, the quoted prices and the trend as they were: a
    filled order stays tracked until its status arrives.  It never sends an
    insert and sends at most one command.  For an order on neither side it
    sends nothing and leaves position and counter alone.  In the
    fill-and-kill trader every fill, also of an unknown order, stamps the
    order with the clock reading and leaves the other stamps alone. *)
Theorem fill_message_frame `{Exchange} :
  (forall s i price volume now,
     let o := FAK.handle (FAK.order_filled_message i price volume now) s in
     result o = Py.Val tt /\
     FAK.bids (after o) = FAK.bids s /\ FAK.asks (after o) = FAK.asks s /\
     FAK.bid_id (after o) = FAK.bid_id s /\ FAK.ask_id (after o) = FAK.ask_id s /\
     FAK.bid_price (after o) = FAK.bid_price s /\
     FAK.ask_price (after o) = FAK.ask_price s /\
     FAK.trading_volume (after o) = FAK.trading_volume s /\
     FAK.price_trend (after o) = FAK.price_trend s /\
     FAK.order_timestamps (after o) !! i = Some now /\
     (forall j, j <> i ->
        FAK.order_timestamps (after o) !! j = FAK.order_timestamps s !! j) /\
     (length (sent o) <= 1)%nat /\ existsb is_insert (sent o) = false /\
     ((i ∉ FAK.bids s) -> (i ∉ FAK.asks s) ->
      sent o = [] /\ FAK.position (after o) = FAK.position s /\
      FAK.order_ids (after o) = FAK.order_ids s)) /\
  (forall s i price volume,
     let o := GFD.handle (GFD.order_filled_message i price volume) s in
     result o = Py.Val tt /\
     GFD.bids (after o) = GFD.bids s /\ GFD.asks (after o) = GFD.asks s /\
     GFD.bid_id (after o) = GFD.bid_id s /\ GFD.ask_id (after o) = GFD.ask_id s /\
     GFD.bid_price (after o) = GFD.bid_price s /\
     GFD.ask_price (after o) = GFD.ask_price s /\
     (length (sent o) <= 1)%nat /\ existsb is_insert (sent o) = false /\
     ((i ∉ dom (GFD.bids s)) -> (i ∉ dom (GFD.asks s)) ->
      o = (Py.Val tt, s, []))).
Proof.
  split.
  - intros s i price volume now o. subst o. unfold FAK.handle.
    destruct (decide (i ∈ FAK.bids s)) as [Hb|Hb];
      [|destruct (decide (i ∈ FAK.asks s)) as [Ha|Ha]].
    + rewrite FAKFacts.fak_filled_bid by done.
      destruct (_ >? _); unfold FAK.stamped; FAKFacts.fields;
        repeat split; try done; try apply lookup_insert_eq;
        try (by intros; apply lookup_insert_ne); try (simpl; lia); by (intros; repeat split).
    + rewrite FAKFacts.fak_filled_ask by done.
      destruct (_ <? _); unfold FAK.stamped; FAKFacts.fields;
        repeat split; try done; try apply lookup_insert_eq;
        try (by intros; apply lookup_insert_ne); try (simpl; lia); by (intros; repeat split).
    + rewrite FAKFacts.fak_filled_unknown by done.
      unfold FAK.stamped; FAKFacts.fields;
        repeat split; try done; try apply lookup_insert_eq;
        try (by intros; apply lookup_insert_ne); try (simpl; lia); by (intros; repeat split).
  - intros s i price volume o. subst o. unfold GFD.handle.
    destruct (decide (i ∈ dom (GFD.bids s))) as [Hb|Hb];
      [|destruct (decide (i ∈ dom (GFD.asks s))) as [Ha|Ha]].
    + rewrite GFDFacts.gfd_filled_bid by done.
      destruct (_ >? _); GFDFacts.fields; repeat split; try done; try (simpl; lia); by (intros; repeat split).
    + rewrite GFDFacts.gfd_filled_ask by done.
      destruct (_ <? _); GFDFacts.fields; repeat split; try done; try (simpl; lia); by (intros; repeat split).
    + rewrite GFDFacts.gfd_filled_unknown by done.
      GFDFacts.fields; repeat split; try done; try (simpl; lia); by (intros; repeat split).
Qed.

Lemma fill_message_frame_witness :
  (let o := FAK.handle (X := sample)
              (FAK.order_filled_message 9999 10000 10 (Py.nearest 3 0)) (fak_long 95) in
   sent o = [] /\ FAK.position (after o) = 95 /\ FAK.order_ids (after o) = 8) /\
  GFD.handle (X := sample) (GFD.order_filled_message 9999 10000 10) (gfd_long 90)
    = (Py.Val tt, gfd_long 90, []).
Proof.
  pose proof (@fill_message_frame sample) as [Hf Hg].
  split.
  - destruct (Hf (fak_long 95) 9999 10000 10 (Py.nearest 3 0))
      as (_ & _ & _ & _ & _ & _ & _ & _ & _ & _ & _ & _ & _ & Hu).
    apply Hu; vm_compute; set_solver.
  - destruct (Hg (gfd_long 90) 9999 10000 10)
      as (_ & _ & _ & _ & _ & _ & _ & _ & _ & Hu).
    apply Hu; rewrite not_elem_of_dom; reflexivity.
Defined.

(** ** Order book updates *)

Lemma sent_bind {S A B} (m : M S A) (f : A -> M S B) s :
  sent ((m ≫= f) s) =
  sent (m s) ++ match result (m s) with
                | Py.Val a => sent (f a (after (m s)))
                | Py.Exc _ => []
                end.
Proof.
  unfold mbind, M_bind. cbv zeta.
  destruct (result (m s)); cbn [sent snd]; [done|by rewrite app_nil_r].
Qed.

Lemma bind_quiet {S A B} (m : M S A) (f : A -> M S B) s a :
  result (m s) = Py.Val a -> sent (m s) = [] -> (m ≫= f) s = f a (after (m s)).
Proof.
  intros Hr Hs. unfold mbind, M_bind. cbv zeta. rewrite Hr, Hs. simpl.
  by destruct (f a (after (m s))) as [[??]?].
Qed.

Lemma bind_raised {S A B} (m : M S A) (f : A -> M S B) s e :
  result (m s) = Py.Exc e -> (m ≫= f) s = (Py.Exc e, after (m s), sent (m s)).
Proof. intros Hr. unfold mbind, M_bind. cbv zeta. by rewrite Hr. Qed.

Lemma fak_update_trend_quiet `{Exchange} av bv s :
  sent (FAK.update_trend av bv s) = [] /\
  FAK.position (after (FAK.update_trend av bv s)) = FAK.position s /\
  FAK.bid_id (after (FAK.update_trend av bv s)) = FAK.bid_id s /\
  FAK.ask_id (after (FAK.update_trend av bv s)) = FAK.ask_id s.
Proof. unfold FAK.update_trend. paths_with ltac:(FAKFacts.fields); done. Qed.

(** An update of the fill-and-kill trader either sends nothing or is the
    cancelling and placing of quotes from a state with the same position
    and slots. *)
Lemma fak_book_cases `{Exchange} i n ap av bp bv s :
  let o := FAK.on_order_book_update_message i n ap av bp bv s in
  sent o = [] \/
  exists b a s1,
    FAK.position s1 = FAK.position s /\ FAK.bid_id s1 = FAK.bid_id s /\
    FAK.ask_id s1 = FAK.ask_id s /\
    o = (FAK.cancel_stale b a ≫= fun _ => FAK.place_orders b a) s1.
Proof.
  intros o. subst o. unfold FAK.on_order_book_update_message.
  destruct (i =? FUTURE); [|by left].
  exec. unfold id. destruct (FAK.quote_prices s ap bp) as [[b a]|e]; exec; [|by left].
  destruct (fak_update_trend_quiet av bv s) as (Hq & Hp & Hb & Ha).
  destruct (result (FAK.update_trend av bv s)) as [[]|e] eqn:Hr.
  - right. exists b, a, (after (FAK.update_trend av bv s)).
    repeat split; try done. by rewrite (bind_quiet _ _ _ tt Hr Hq).
  - left. rewrite (bind_raised _ _ _ _ Hr). done.
Qed.

Lemma gfd_book_cases `{Exchange} i n ap av bp bv s :
  let o := GFD.on_order_book_update_message i n ap av bp bv s in
  sent o = [] \/
  exists b a bid_volume ask_volume,
    bv !! 0%nat = Some bid_volume /\ av !! 0%nat = Some ask_volume /\
    o = (GFD.cancel_stale b a ≫= fun _ =>
         GFD.place_bid b bid_volume ≫= fun _ => GFD.place_ask a ask_volume) s.
Proof.
  intros o. subst o. unfold GFD.on_order_book_update_message, Py.index.
  destruct (i =? FUTURE); [|by left].
  destruct (bv !! 0%nat) as [bid_volume|]; exec; [|by left].
  destruct (av !! 0%nat) as [ask_volume|]; exec; [|by left].
  unfold id. destruct (GFD.quote_prices s ap bp) as [[b a]|e]; exec; [|by left].
  right. by exists b, a, bid_volume, ask_volume.
Qed.

(** X6.  What an order book update sends, in both traders: first cancels,
    at most one for the order in the bid slot and then one for the order
    in the ask slot, then inserts, at most one buy and then one sell, with
    the lifespan of the trader.  It never sends a hedge order and never
    changes the position. *)
Theorem book_update_shape `{Exchange} :
  (forall s i n ap av bp bv,
     let o := FAK.handle (FAK.order_book_update_message i n ap av bp bv) s in
     FAK.position (after o) = FAK.position s /\
     exists cancels inserts,
       sent o = cancels ++ inserts /\
       cancels `sublist_of`
         [send_cancel_order (FAK.bid_id s); send_cancel_order (FAK.ask_id s)] /\
       quotes_shape FILL_AND_KILL inserts) /\
  (forall s i n ap av bp bv,
     let o := GFD.handle (GFD.order_book_update_message i n ap av bp bv) s in
     GFD.position (after o) = GFD.position s /\
     exists cancels inserts,
       sent o = cancels ++ inserts /\
       cancels `sublist_of`
         [send_cancel_order (GFD.bid_id s); send_cancel_order (GFD.ask_id s)] /\
       quotes_shape GFD inserts).
Proof.
  split; intros s i n ap av bp bv o; subst o; unfold FAK.handle, GFD.handle.
  - split; [by apply (FAKFacts.fak_book_position (FAK.position s))|].
    destruct (fak_book_cases i n ap av bp bv s) as [->|(b & a & s1 & _ & <- & <- & ->)].
    { exists [], []. repeat split; [apply sublist_nil_l|].
      exists 0, 0, 0, 0, 0, 0. apply sublist_nil_l. }
    unfold FAK.cancel_stale, FAK.place_orders, FAK.next_order_id.
    paths_with ltac:(FAKFacts.fields);
      match goal with
      | |- exists _ _, ?l = _ /\ _ =>
          let cs := eval cbn [List.filter is_cancel] in (List.filter is_cancel l) in
          let ins := eval cbn [List.filter is_insert] in (List.filter is_insert l) in
          exists cs, ins
      end.
    all: (split; [reflexivity|]); split;
      [eauto 6 using sublist_nil_l, sublist_skip, sublist_cons
      |unfold quotes_shape; repeat eexists;
       eauto 6 using sublist_nil_l, sublist_skip, sublist_cons].
  - split; [by apply (GFDFacts.gfd_book_position (GFD.position s))|].
    destruct (gfd_book_cases i n ap av bp bv s)
      as [->|(b & a & bid_volume & ask_volume & _ & _ & ->)].
    { exists [], []. repeat split; [apply sublist_nil_l|].
      exists 0, 0, 0, 0, 0, 0. apply sublist_nil_l. }
    unfold GFD.cancel_stale, GFD.place_bid, GFD.place_ask, GFD.next_order_id.
    paths_with ltac:(GFDFacts.fields);
      match goal with
      | |- exists _ _, ?l = _ /\ _ =>
          let cs := eval cbn [List.filter is_cancel] in (List.filter is_cancel l) in
          let ins := eval cbn [List.filter is_insert] in (List.filter is_insert l) in
          exists cs, ins
      end.
    all: (split; [reflexivity|]); split;
      [eauto 6 using sublist_nil_l, sublist_skip, sublist_cons
      |unfold quotes_shape; repeat eexists;
       eauto 6 using sublist_nil_l, sublist_skip, sublist_cons].
  Unshelve. all: exact 0.
Qed.

(** The tests of a path, as propositions. *)
Ltac tests :=
  repeat match goal with
    | H : _ && _ = true |- _ => apply andb_true_iff in H as [? ?]
    | H : (_ <? _) = true |- _ => apply Z.ltb_lt in H
    | H : (_ >? _) = true |- _ => apply Z.gtb_lt in H
    | H : (_ =? _) = true |- _ => apply Z.eqb_eq in H
    end.

(** X7.  The size of every order an order book update inserts.  In the
    fill-and-kill trader it is [min(limit - position, 10)] for a buy and
    [min(limit + position, 10)] for a sell: at least 1, at most a lot, and
    never more than the position leaves under the limit.  In the
    good-for-day trader it is between 0 and 14, and when it is not 0 it is
    within the volume at the top of the book and within what the position
    and the outstanding volume of that side leave under the limit. *)
Theorem inserted_sizes `{Exchange} :
  (forall s i n ap av bp bv,
     Forall (fak_size_ok s)
       (sent (FAK.handle (FAK.order_book_update_message i n ap av bp bv) s))) /\
  (forall s i n ap av bp bv bid_volume ask_volume,
     bv !! 0%nat = Some bid_volume -> av !! 0%nat = Some ask_volume ->
     Forall (gfd_size_ok s bid_volume ask_volume)
       (sent (GFD.handle (GFD.order_book_update_message i n ap av bp bv) s))).
Proof.
  split.
  - intros s i n ap av bp bv. unfold FAK.handle.
    destruct (fak_book_cases i n ap av bp bv s) as [->|(b & a & s1 & Hp & _ & _ & ->)];
      [constructor|].
    unfold FAK.cancel_stale, FAK.place_orders, FAK.next_order_id.
    paths_with ltac:(FAKFacts.fields); tests;
      repeat constructor; simpl; unfold FAK.POSITION_LIMIT, FAK.LOT_SIZE in *; lia.
  - intros s i n ap av bp bv bid_volume ask_volume Hbv Hav. unfold GFD.handle.
    destruct (gfd_book_cases i n ap av bp bv s)
      as [->|(b & a & bv0 & av0 & Hbv0 & Hav0 & ->)]; [constructor|].
    assert (bv0 = bid_volume) as -> by congruence.
    assert (av0 = ask_volume) as -> by congruence.
    unfold GFD.cancel_stale, GFD.place_bid, GFD.place_ask, GFD.next_order_id,
      GFD.bid_order_size, GFD.ask_order_size.
    paths_with ltac:(GFDFacts.fields); tests;
      repeat constructor; simpl; unfold GFD.quoted_size, GFD.POSITION_LIMIT in *; lia.
Qed.

Lemma inserted_sizes_witness :
  Forall (gfd_size_ok GFD.init 0 50) (sent (GFD.handle (X := sample) thin_book GFD.init)).
Proof.
  apply (proj2 (@inserted_sizes sample) GFD.init 0 1 thin_asks [50; 60; 70] thin_bids
           [0; 30; 20] 0 50); reflexivity.
Defined.

(** X8.  An order book update for the future with a level missing raises
    and does nothing.  The fill-and-kill trader reads the first price of
    each side and then the first volume of each side: with a side of
    prices empty it raises [IndexError], with a side of volumes empty it
    raises as well, and in both cases no attribute changes and nothing is
    sent.  The good-for-day trader also reads the third price of each
    side: with fewer than three prices on a side or no volume on a side it
    raises [IndexError], changes nothing and sends nothing. *)
Theorem short_book_raises `{Exchange} :
  (forall s n ap av bp bv,
     let o := FAK.handle (FAK.order_book_update_message FUTURE n ap av bp bv) s in
     (bp = [] \/ ap = [] -> o = (Py.Exc Py.IndexError, s, [])) /\
     (bv = [] \/ av = [] ->
      (exists e, result o = Py.Exc e) /\ after o = s /\ sent o = [])) /\
  (forall s n ap av bp bv,
     (length bp < 3)%nat \/ (length ap < 3)%nat \/ bv = [] \/ av = [] ->
     GFD.handle (GFD.order_book_update_message FUTURE n ap av bp bv) s
       = (Py.Exc Py.IndexError, s, [])).
Proof.
  split.
  - intros s n ap av bp bv o. subst o.
    unfold FAK.handle, FAK.on_order_book_update_message. rewrite Z.eqb_refl.
    exec. unfold id. split.
    + intros Hp. unfold FAK.quote_prices, FAK.fair_price.
      destruct Hp as [-> | ->]; [done|].
      by destruct bp.
    + intros Hv. destruct (FAK.quote_prices s ap bp) as [[b a]|e]; exec;
        [|by eauto].
      unfold FAK.update_trend. exec.
      destruct Hv as [-> | ->].
      * destruct (Py.eq _ _); exec; destruct (Py.index av 0%nat); exec; simpl; eauto.
      * destruct (Py.eq _ _); exec; simpl; eauto.
  - intros s n ap av bp bv Hshort.
    unfold GFD.handle, GFD.on_order_book_update_message. rewrite Z.eqb_refl.
    unfold GFD.quote_prices, Py.index.
    destruct (bv !! 0%nat) as [bv0|] eqn:Hbv; exec; [|done].
    destruct (av !! 0%nat) as [av0|] eqn:Hav; exec; [|done].
    unfold id.
    destruct (bp !! 0%nat) as [bp0|] eqn:Hbp0; [|done].
    destruct (ap !! 0%nat) as [ap0|] eqn:Hap0; [|done].
    destruct (ap !! 2%nat) as [ap2|] eqn:Hap2; [|done].
    destruct (bp !! 2%nat) as [bp2|] eqn:Hbp2; [|done].
    exfalso. destruct Hshort as [Hl|[Hl|[-> | ->]]]; try done.
    + apply lookup_lt_Some in Hbp2. lia.
    + apply lookup_lt_Some in Hap2. lia.
Qed.

Lemma short_book_raises_witness :
  FAK.handle (X := sample) (FAK.order_book_update_message 0 1 [10200] [5] [] [7]) (fak_long 95)
    = (Py.Exc Py.IndexError, fak_long 95, []) /\
  (let o := FAK.handle (X := sample)
              (FAK.order_book_update_message 0 1 [10200] [] [10000] [7]) (fak_long 95) in
   (exists e, result o = Py.Exc e) /\ after o = fak_long 95 /\ sent o = []) /\
  GFD.handle (X := sample)
      (GFD.order_book_update_message 0 1 [10200; 10300] [5; 5] [10000; 9900; 9800] [7; 7; 7])
      (gfd_long 90)
    = (Py.Exc Py.IndexError, gfd_long 90, []).
Proof.
  pose proof (@short_book_raises sample) as [Hf Hg].
  split; [|split].
  - apply (Hf (fak_long 95) 1 [10200] [5] [] [7]). by left.
  - apply (Hf (fak_long 95) 1 [10200] [] [10000] [7]). by right.
  - apply (Hg (gfd_long 90) 1 [10200; 10300] [5; 5] [10000; 9900; 9800] [7; 7; 7]).
    right. left. simpl. lia.
Defined.

(** ** Hedge orders *)

Lemma nearest_tick_below (x : Z) : (100 | x / 100 * 100) /\ x - 100 < x / 100 * 100 <= x.
Proof.
  split; [apply Z.divide_factor_r|].
  pose proof (Z.div_mod x 100 ltac:(lia)).
  pose proof (Z.mod_pos_bound x 100 ltac:(lia)). lia.
Qed.

Lemma fak_status_quiet `{Exchange} i f r fees s :
  sent (FAK.on_order_status_message i f r fees s) = [].
Proof.
  destruct (Z.eq_dec r 0) as [->|Hr].
  - by rewrite FAKFacts.fak_status_terminal.
  - by rewrite FAKFacts.fak_status_open.
Qed.

Lemma gfd_status_quiet `{Exchange} i f r fees s :
  sent (GFD.on_order_status_message i f r fees s) = [].
Proof.
  destruct (Z.eq_dec r 0) as [->|Hr].
  - by rewrite GFDFacts.gfd_status_terminal.
  - by rewrite GFDFacts.gfd_status_open.
Qed.

Lemma fak_error_quiet `{Exchange} i m s : sent (FAK.on_error_message i m s) = [].
Proof.
  unfold FAK.on_error_message.
  destruct (decodable m); exec; [|done].
  destruct (_ && _); [apply fak_status_quiet|done].
Qed.

Lemma gfd_error_quiet `{Exchange} i m s : sent (GFD.on_error_message i m s) = [].
Proof.
  unfold GFD.on_error_message.
  destruct (decodable m); exec; [|done].
  destruct (_ && _); [apply gfd_status_quiet|done].
Qed.

Lemma fak_book_no_hedge `{Exchange} i n ap av bp bv s :
  existsb is_hedge (sent (FAK.on_order_book_update_message i n ap av bp bv s)) = false.
Proof.
  destruct (fak_book_cases i n ap av bp bv s) as [->|(b & a & s1 & _ & _ & _ & ->)];
    [done|].
  unfold FAK.cancel_stale, FAK.place_orders, FAK.next_order_id.
  paths_with ltac:(FAKFacts.fields); reflexivity.
Qed.

Lemma gfd_book_no_hedge `{Exchange} i n ap av bp bv s :
  existsb is_hedge (sent (GFD.on_order_book_update_message i n ap av bp bv s)) = false.
Proof.
  destruct (gfd_book_cases i n ap av bp bv s) as [->|(b & a & bv0 & av0 & _ & _ & ->)];
    [done|].
  unfold GFD.cancel_stale, GFD.place_bid, GFD.place_ask, GFD.next_order_id.
  paths_with ltac:(GFDFacts.fields); reflexivity.
Qed.

Lemma no_hedge_among {c : Command} {l : list Command} :
  existsb is_hedge l = false -> c ∈ l -> is_hedge c = true -> False.
Proof.
  intros Hl Hc Hh.
  assert (existsb is_hedge l = true); [|congruence].
  apply existsb_exists. exists c. split; [by apply list_elem_of_In|done].
Qed.

(** X9.  Hedge orders.  The two hedge prices are multiples of the tick:
    the lower one is the first multiple above [MINIMUM_BID] and the upper
    one the last multiple not above [MAXIMUM_ASK].  In both traders a
    hedge order is sent only in answer to a fill of a tracked order; it
    takes the next id of the counter and has the volume of the fill; it
    sells at the lower hedge price or buys at the upper one. *)
Theorem hedge_orders `{Exchange} :
  ((FAK.TICK_SIZE_IN_CENTS | FAK.MIN_BID_NEAREST_TICK) /\
   MINIMUM_BID < FAK.MIN_BID_NEAREST_TICK <= MINIMUM_BID + FAK.TICK_SIZE_IN_CENTS /\
   (FAK.TICK_SIZE_IN_CENTS | FAK.MAX_ASK_NEAREST_TICK) /\
   MAXIMUM_ASK - FAK.TICK_SIZE_IN_CENTS < FAK.MAX_ASK_NEAREST_TICK <= MAXIMUM_ASK /\
   GFD.MIN_BID_NEAREST_TICK = FAK.MIN_BID_NEAREST_TICK /\
   GFD.MAX_ASK_NEAREST_TICK = FAK.MAX_ASK_NEAREST_TICK) /\
  (forall s e c,
     c ∈ sent (FAK.handle e s) -> is_hedge c = true ->
     exists i price volume now,
       e = FAK.order_filled_message i price volume now /\
       ((i ∈ FAK.bids s /\
         c = send_hedge_order (FAK.order_ids s) ASK FAK.MIN_BID_NEAREST_TICK volume) \/
        (i ∈ FAK.asks s /\
         c = send_hedge_order (FAK.order_ids s) BID FAK.MAX_ASK_NEAREST_TICK volume))) /\
  (forall s e c,
     c ∈ sent (GFD.handle e s) -> is_hedge c = true ->
     exists i price volume,
       e = GFD.order_filled_message i price volume /\
       ((i ∈ dom (GFD.bids s) /\
         c = send_hedge_order (GFD.order_ids s) ASK GFD.MIN_BID_NEAREST_TICK volume) \/
        (i ∈ dom (GFD.asks s) /\
         c = send_hedge_order (GFD.order_ids s) BID GFD.MAX_ASK_NEAREST_TICK volume))).
Proof.
  split; [|split].
  - unfold FAK.MIN_BID_NEAREST_TICK, FAK.MAX_ASK_NEAREST_TICK, FAK.TICK_SIZE_IN_CENTS.
    pose proof (nearest_tick_below (MINIMUM_BID + 100)) as [? ?].
    pose proof (nearest_tick_below MAXIMUM_ASK) as [? ?].
    repeat split; try done; lia.
  - intros s e c Hc Hh. destruct e as [i m|i p v|i p v now|i f r fees|i n ap av bp bv];
      unfold FAK.handle in Hc.
    + rewrite fak_error_quiet in Hc. by apply elem_of_nil in Hc.
    + by apply elem_of_nil in Hc.
    + exists i, p, v, now. split; [done|].
      destruct (decide (i ∈ FAK.bids s)) as [Hb|Hb];
        [|destruct (decide (i ∈ FAK.asks s)) as [Ha|Ha]].
      * rewrite FAKFacts.fak_filled_bid in Hc by done.
        destruct (_ >? _); apply list_elem_of_singleton in Hc as ->; [done|by left].
      * rewrite FAKFacts.fak_filled_ask in Hc by done.
        destruct (_ <? _); apply list_elem_of_singleton in Hc as ->; [done|by right].
      * rewrite FAKFacts.fak_filled_unknown in Hc by done. by apply elem_of_nil in Hc.
    + rewrite fak_status_quiet in Hc. by apply elem_of_nil in Hc.
    + destruct (no_hedge_among (fak_book_no_hedge i n ap av bp bv s) Hc Hh).
  - intros s e c Hc Hh.
    destruct e as [i m|i p v|i p v|i f r fees|i n ap av bp bv|i n ap av bp bv];
      unfold GFD.handle in Hc.
    + rewrite gfd_error_quiet in Hc. by apply elem_of_nil in Hc.
    + by apply elem_of_nil in Hc.
    + exists i, p, v. split; [done|].
      destruct (decide (i ∈ dom (GFD.bids s))) as [Hb|Hb];
        [|destruct (decide (i ∈ dom (GFD.asks s))) as [Ha|Ha]].
      * rewrite GFDFacts.gfd_filled_bid in Hc by done.
        destruct (_ >? _); [by apply elem_of_nil in Hc|].
        apply list_elem_of_singleton in Hc as ->. by left.
      * rewrite GFDFacts.gfd_filled_ask in Hc by done.
        destruct (_ <? _); [by apply elem_of_nil in Hc|].
        apply list_elem_of_singleton in Hc as ->. by right.
      * rewrite GFDFacts.gfd_filled_unknown in Hc by done. by apply elem_of_nil in Hc.
    + rewrite gfd_status_quiet in Hc. by apply elem_of_nil in Hc.
    + by apply elem_of_nil in Hc.
    + destruct (no_hedge_among (gfd_book_no_hedge i n ap av bp bv s) Hc Hh).
Qed.

Lemma hedge_orders_witness :
  exists i price volume now,
    FAK.order_filled_message 7 10000 10 (Py.nearest 3 0)
      = FAK.order_filled_message i price volume now /\
    ((i ∈ FAK.bids (fak_long 90) /\
      send_hedge_order 8 ASK 100 10
        = send_hedge_order (FAK.order_ids (fak_long 90)) ASK
            (FAK.MIN_BID_NEAREST_TICK (X := sample)) volume) \/
     (i ∈ FAK.asks (fak_long 90) /\
      send_hedge_order 8 ASK 100 10
        = send_hedge_order (FAK.order_ids (fak_long 90)) BID
            (FAK.MAX_ASK_NEAREST_TICK (X := sample)) volume)).
Proof.
  apply (proj1 (proj2 (@hedge_orders sample)) (fak_long 90)
           (FAK.order_filled_message 7 10000 10 (Py.nearest 3 0))
           (send_hedge_order 8 ASK 100 10)).
  - vm_compute. apply list_elem_of_singleton. reflexivity.
  - reflexivity.
Defined.

(** ** The trend *)

Lemma truediv_float a b v : Py.truediv a b = Py.Val v -> exists x, v = Py.Float x.
Proof.
  unfold Py.truediv. destruct a as [x|x], b as [y|y]; simpl.
  - destruct (Py.int_true_divide x y); simpl; [|done]. intros [= <-]. eauto.
  - destruct (Py.float_of_int x); simpl; [|done].
    destruct (SFeqb _ _); [done|]. intros [= <-]. eauto.
  - destruct (Py.float_of_int y); simpl; [|done].
    destruct (SFeqb _ _); [done|]. intros [= <-]. eauto.
  - destruct (SFeqb _ _); [done|]. intros [= <-]. eauto.
Qed.

Lemma fak_handle_trend `{Exchange} e : keeps trend_ok (FAK.handle e).
Proof.
  assert (forall i f r fees,
            keeps trend_ok (FAK.on_order_status_message i f r fees)) as Hstatus.
  { intros i f r fees s Hs. unfold trend_ok, FAK.on_order_status_message in *.
    paths_with ltac:(FAKFacts.fields); exact Hs. }
  destruct e; simpl.
  - unfold FAK.on_error_message. keeps_steps. apply Hstatus.
  - apply keeps_ret.
  - intros s Hs. unfold trend_ok, FAK.on_order_filled_message, FAK.next_order_id in *.
    paths_with ltac:(FAKFacts.fields); exact Hs.
  - apply Hstatus.
  - unfold FAK.on_order_book_update_message. keeps_steps.
    + intros s Hs. unfold trend_ok, FAK.update_trend in *.
      paths_with ltac:(FAKFacts.fields); try exact Hs;
        match goal with
        | E : Py.truediv _ _ = Py.Val _ |- _ => apply truediv_float in E as [? ->]
        end; destruct Hs; split; eauto.
    + intros s Hs. unfold trend_ok, FAK.cancel_stale in *.
      paths_with ltac:(FAKFacts.fields); exact Hs.
    + intros s Hs. unfold trend_ok, FAK.place_orders, FAK.next_order_id in *.
      paths_with ltac:(FAKFacts.fields); exact Hs.
Qed.

(** X10.  The trend the fill-and-kill trader keeps.  In every state the
    trader can reach, the price trend is -1, 0 or 1, and the stored
    trading volume is the initial integer 0 or a float (never another
    integer).  Runs in which handlers raised are included. *)
Theorem trend_is_a_sign `{Exchange} (es : list FAK.Event) :
  let s := FAK.run FAK.init es in
  (FAK.price_trend s = -1 \/ FAK.price_trend s = 0 \/ FAK.price_trend s = 1) /\
  (FAK.trading_volume s = Py.Int 0 \/ exists x, FAK.trading_volume s = Py.Float x).
Proof.
  apply (FAKFacts.fak_run_keeps trend_ok).
  - intros e _. apply fak_handle_trend.
  - split; simpl; auto.
Qed.

(** ** Tracked orders *)

Lemma fak_tracked_sent_more `{Exchange} s l l' :
  fak_tracked_sent s l -> fak_tracked_sent s (l ++ l').
Proof.
  intros [Hb Ha]. split; intros i Hi.
  - destruct (Hb i Hi) as (p & v & ?). exists p, v. apply elem_of_app. by left.
  - destruct (Ha i Hi) as (p & v & ?). exists p, v. apply elem_of_app. by left.
Qed.

Lemma fak_tracked_sent_fewer `{Exchange} s s' l :
  FAK.bids s' ⊆ FAK.bids s -> FAK.asks s' ⊆ FAK.asks s ->
  fak_tracked_sent s l -> fak_tracked_sent s' l.
Proof. intros Hb Ha [Hsb Hsa]. split; intros i Hi; [apply Hsb|apply Hsa]; set_solver. Qed.

Lemma gfd_tracked_sent_more `{Exchange} s l l' :
  gfd_tracked_sent s l -> gfd_tracked_sent s (l ++ l').
Proof.
  intros [Hb Ha]. split; intros i o Hi.
  - destruct (Hb i o Hi) as (p & ? & ?). exists p. split; [done|].
    apply elem_of_app. by left.
  - destruct (Ha i o Hi) as (p & ? & ?). exists p. split; [done|].
    apply elem_of_app. by left.
Qed.

Lemma gfd_tracked_sent_fewer `{Exchange} s s' l :
  GFD.bids s' ⊆ GFD.bids s -> GFD.asks s' ⊆ GFD.asks s ->
  gfd_tracked_sent s l -> gfd_tracked_sent s' l.
Proof.
  intros Hb Ha [Hsb Hsa]. split; intros i o Hi.
  - apply Hsb. by eapply lookup_weaken.
  - apply Hsa. by eapply lookup_weaken.
Qed.

Lemma fak_status_tracked `{Exchange} i f r fees s l :
  fak_tracked_sent s l ->
  fak_tracked_sent (after (FAK.on_order_status_message i f r fees s)) l.
Proof.
  apply fak_tracked_sent_fewer; unfold FAK.on_order_status_message;
    paths_with ltac:(FAKFacts.fields); set_solver.
Qed.

Lemma gfd_status_tracked `{Exchange} i f r fees s l :
  gfd_tracked_sent s l ->
  gfd_tracked_sent (after (GFD.on_order_status_message i f r fees s)) l.
Proof.
  apply gfd_tracked_sent_fewer; unfold GFD.on_order_status_message;
    paths_with ltac:(GFDFacts.fields); try done; apply delete_subseteq.
Qed.

(** Every tracked id is an old one or the one just added, whose insert
    is among the commands just sent. *)
Ltac tracked Hb Ha :=
  split; intros j Hj; FAKFacts.fields;
  repeat match goal with
    | Hj : _ ∈ _ ∪ _ |- _ => apply elem_of_union in Hj as [Hj|Hj]
    end;
  first
    [ destruct (Hb _ Hj) as (p' & v' & ?); exists p', v'; apply elem_of_app; by left
    | destruct (Ha _ Hj) as (p' & v' & ?); exists p', v'; apply elem_of_app; by left
    | apply elem_of_singleton in Hj; subst j; eexists _, _; apply elem_of_app; right;
      repeat first [by left | right] ].

Lemma fak_handle_tracked `{Exchange} e s l :
  fak_tracked_sent s l ->
  fak_tracked_sent (after (FAK.handle e s)) (l ++ sent (FAK.handle e s)).
Proof.
  intros Hs. destruct e as [i m|i p v|i p v now|i f r fees|i n ap av bp bv];
    unfold FAK.handle.
  - apply fak_tracked_sent_more. unfold FAK.on_error_message.
    destruct (decodable m); exec; [|done].
    destruct (_ && _); [by apply fak_status_tracked|done].
  - by apply fak_tracked_sent_more.
  - apply fak_tracked_sent_more. revert Hs. apply fak_tracked_sent_fewer;
      unfold FAK.on_order_filled_message, FAK.next_order_id;
      paths_with ltac:(FAKFacts.fields); done.
  - apply fak_tracked_sent_more. by apply fak_status_tracked.
  - unfold FAK.on_order_book_update_message.
    destruct (i =? FUTURE); [|by apply fak_tracked_sent_more].
    exec. unfold id. destruct (FAK.quote_prices s ap bp) as [[b a]|e]; exec;
      [|by apply fak_tracked_sent_more].
    destruct (fak_update_trend_quiet av bv s) as (Hq & _).
    assert (fak_tracked_sent (after (FAK.update_trend av bv s)) l) as Hs1.
    { revert Hs. apply fak_tracked_sent_fewer; unfold FAK.update_trend;
        paths_with ltac:(FAKFacts.fields); done. }
    destruct (result (FAK.update_trend av bv s)) as [[]|e] eqn:Hr.
    + rewrite (bind_quiet _ _ _ tt Hr Hq).
      revert Hs1. generalize (after (FAK.update_trend av bv s)). clear.
      intros s [Hb Ha].
      unfold FAK.cancel_stale, FAK.place_orders, FAK.next_order_id.
      paths_with ltac:(FAKFacts.fields); tracked Hb Ha.
    + rewrite (bind_raised _ _ _ _ Hr), Hq. by apply fak_tracked_sent_more.
Qed.

Lemma gfd_handle_tracked `{Exchange} e s l :
  gfd_tracked_sent s l ->
  gfd_tracked_sent (after (GFD.handle e s)) (l ++ sent (GFD.handle e s)).
Proof.
  intros Hs. destruct e as [i m|i p v|i p v|i f r fees|i n ap av bp bv|i n ap av bp bv];
    unfold GFD.handle.
  - apply gfd_tracked_sent_more. unfold GFD.on_error_message.
    destruct (decodable m); exec; [|done].
    destruct (_ && _); [by apply gfd_status_tracked|done].
  - by apply gfd_tracked_sent_more.
  - apply gfd_tracked_sent_more. revert Hs. apply gfd_tracked_sent_fewer;
      unfold GFD.on_order_filled_message, GFD.next_order_id;
      paths_with ltac:(GFDFacts.fields); done.
  - apply gfd_tracked_sent_more. by apply gfd_status_tracked.
  - by apply gfd_tracked_sent_more.
  - revert Hs. generalize s. clear. intros s [Hb Ha].
    unfold GFD.on_order_book_update_message, GFD.cancel_stale, GFD.place_bid,
      GFD.place_ask, GFD.next_order_id, id.
    paths_with ltac:(GFDFacts.fields);
      (split; intros j o Hj; GFDFacts.fields;
       repeat match goal with
         | Hj : <[_ := _]> _ !! _ = Some _ |- _ =>
             apply lookup_insert_Some in Hj as [[<- <-]|[_ Hj]]
         end;
       first
         [ destruct (Hb _ _ Hj) as (p' & ? & ?); exists p'; split; [done|];
           apply elem_of_app; by left
         | destruct (Ha _ _ Hj) as (p' & ? & ?); exists p'; split; [done|];
           apply elem_of_app; by left
         | eexists; split; [eassumption|]; apply elem_of_app; right;
           repeat first [by left | right] ]).
Qed.

Lemma fak_run_tracked `{Exchange} es s l :
  fak_tracked_sent s l -> fak_tracked_sent (FAK.run s es) (l ++ fak_transcript s es).
Proof.
  revert s l. induction es as [|e es IH]; intros s l Hs; simpl.
  - by apply fak_tracked_sent_more.
  - rewrite app_assoc. apply IH. by apply fak_handle_tracked.
Qed.

Lemma gfd_run_tracked `{Exchange} es s l :
  gfd_tracked_sent s l -> gfd_tracked_sent (GFD.run s es) (l ++ gfd_transcript s es).
Proof.
  revert s l. induction es as [|e es IH]; intros s l Hs; simpl.
  - by apply gfd_tracked_sent_more.
  - rewrite app_assoc. apply IH. by apply gfd_handle_tracked.
Qed.

(** X11.  The ledger tracks only orders that were sent.  After any run
    of messages from the initial state, every id among the bids of the
    fill-and-kill trader is the id of a buy order it sent during the run,
    and every id among its asks that of a sell order it sent.  In the
    good-for-day trader, every order recorded among the bids (asks) was
    sent as a buy (sell) order with that id, with the recorded size and
    at the integer value of the recorded price. *)
Theorem tracked_orders_were_sent `{Exchange} :
  (forall (es : list FAK.Event) i,
     (i ∈ FAK.bids (FAK.run FAK.init es) ->
      exists p v,
        send_insert_order i BUY p v FILL_AND_KILL ∈ fak_transcript FAK.init es) /\
     (i ∈ FAK.asks (FAK.run FAK.init es) ->
      exists p v,
        send_insert_order i SELL p v FILL_AND_KILL ∈ fak_transcript FAK.init es)) /\
  (forall (es : list GFD.Event) i o,
     (GFD.bids (GFD.run GFD.init es) !! i = Some o ->
      exists p, Py.int (GFD.price o) = Py.Val p /\
        send_insert_order i BUY p (GFD.size o) GFD ∈ gfd_transcript GFD.init es) /\
     (GFD.asks (GFD.run GFD.init es) !! i = Some o ->
      exists p, Py.int (GFD.price o) = Py.Val p /\
        send_insert_order i SELL p (GFD.size o) GFD ∈ gfd_transcript GFD.init es)).
Proof.
  split.
  - intros es i.
    destruct (fak_run_tracked es FAK.init []) as [Hb Ha]; [by split; intros ? ?|].
    split; intros Hi; [apply Hb|apply Ha]; done.
  - intros es i o.
    destruct (gfd_run_tracked es GFD.init []) as [Hb Ha]; [by split; intros ? ? ?|].
    split; intros Hi; [apply Hb|apply Ha]; done.
Qed.

Lemma tracked_orders_were_sent_witness :
  exists p v,
    send_insert_order 1 BUY p v FILL_AND_KILL
      ∈ fak_transcript (H := sample) FAK.init
          [FAK.order_book_update_message 0 1 tight_asks [10; 10; 10] tight_bids [10; 10; 10]].
Proof.
  apply (proj1 (proj1 (@tracked_orders_were_sent sample)
           [FAK.order_book_update_message 0 1 tight_asks [10; 10; 10] tight_bids [10; 10; 10]]
           1)).
  vm_compute. set_solver.
Defined.

(** ** The same book again *)

(** A number that [int()] accepts is equal to itself: it is not a NaN. *)
Lemma int_eq_refl (x : Py.num) (z : Z) : Py.int x = Py.Val z -> Py.eq x x = true.
Proof.
  unfold Py.eq, Py.compare. destruct x as [n|f]; simpl.
  - by rewrite Z.compare_refl.
  - destruct f as [s| | |s m e]; simpl; try done.
    intros _. unfold SFcompare.
    destruct s; rewrite Z.compare_refl; fold (Pos.compare m m);
      by rewrite Pos.compare_refl.
Qed.

Lemma gfd_not_in_pair_refl (x : Py.num) (z : Z) :
  Py.int x = Py.Val z -> GFD.not_in_pair x x = false.
Proof. intros Hx. unfold GFD.not_in_pair. by rewrite (int_eq_refl x z Hx). Qed.

Lemma gfd_quote_prices_position `{Exchange} s s' ap bp :
  GFD.position s' = GFD.position s -> GFD.quote_prices s' ap bp = GFD.quote_prices s ap bp.
Proof. unfold GFD.quote_prices. by intros ->. Qed.

Lemma gfd_quotes_settle `{Exchange} b a bid_volume ask_volume s :
  0 < GFD.order_ids s ->
  let o := (GFD.cancel_stale b a ≫= fun _ =>
            GFD.place_bid b bid_volume ≫= fun _ => GFD.place_ask a ask_volume) s in
  result o = Py.Val tt ->
  GFD.position (after o) = GFD.position s /\ gfd_settled b a (after o).
Proof.
  intros Hn o. subst o.
  assert ((GFD.order_ids s =? 0) = false) as Hn0 by lia.
  assert ((GFD.order_ids s + 1 =? 0) = false) as Hn1 by lia.
  unfold gfd_settled, GFD.cancel_stale, GFD.place_bid, GFD.place_ask, GFD.next_order_id.
  paths_with ltac:(GFDFacts.fields); intros Hr; try discriminate Hr;
    (split; [reflexivity|]);
    repeat match goal with
      | E : Py.int ?x = Py.Val _ |- _ =>
          rewrite (gfd_not_in_pair_refl x _ E); clear E
      end;
    rewrite ?Hn0, ?Hn1, ?andb_false_r; cbn [negb andb];
    repeat split; done.
Qed.

Lemma gfd_settled_quiet `{Exchange} b a bid_volume ask_volume s :
  gfd_settled b a s ->
  (GFD.cancel_stale b a ≫= fun _ =>
   GFD.place_bid b bid_volume ≫= fun _ => GFD.place_ask a ask_volume) s
  = (Py.Val tt, s, []).
Proof.
  intros (Hb & Ha & Hpb & Hpa).
  unfold GFD.cancel_stale, GFD.place_bid, GFD.place_ask.
  exec. rewrite Hb. exec. rewrite Ha. exec. rewrite Hpb. exec. rewrite Hpa. by exec.
Qed.

(** X12.  The good-for-day trader ignores a book it has just handled.
    When an update returns normally (from a state whose counter is
    positive, as in every state the trader reaches), the same book of the
    future again, under any sequence number, sends nothing and changes
    nothing: every quote called for is in place at its price, and a side
    without a quote is one the position does not allow. *)
Theorem repeated_book_is_ignored `{Exchange} s i n n' ap av bp bv :
  0 < GFD.order_ids s ->
  let o := GFD.handle (GFD.order_book_update_message i n ap av bp bv) s in
  result o = Py.Val tt ->
  GFD.handle (GFD.order_book_update_message i n' ap av bp bv) (after o)
    = (Py.Val tt, after o, []).
Proof.
  intros Hn o Hr. subst o. unfold GFD.handle, GFD.on_order_book_update_message in *.
  destruct (i =? FUTURE); [|done].
  destruct (Py.index bv 0) as [bid_volume|]; [|done].
  destruct (Py.index av 0) as [ask_volume|]; [|done].
  revert Hr. exec. unfold id.
  destruct (GFD.quote_prices s ap bp) as [[b a]|] eqn:Hq; [|done].
  exec. intros Hr.
  destruct (gfd_quotes_settle b a bid_volume ask_volume s Hn Hr) as [Hp Hs].
  rewrite (gfd_quote_prices_position _ _ _ _ Hp), Hq. exec.
  by apply gfd_settled_quiet.
Qed.

Lemma repeated_book_is_ignored_witness :
  GFD.handle (X := sample) (GFD.order_book_update_message 0 2 thin_asks [50; 60; 70]
                              thin_bids [40; 30; 20])
    (after (GFD.handle (X := sample)
              (GFD.order_book_update_message 0 1 thin_asks [50; 60; 70]
                 thin_bids [40; 30; 20]) GFD.init))
  = (Py.Val tt,
     after (GFD.handle (X := sample)
              (GFD.order_book_update_message 0 1 thin_asks [50; 60; 70]
                 thin_bids [40; 30; 20]) GFD.init),
     []).
Proof.
  apply (@repeated_book_is_ignored sample GFD.init 0 1 2 thin_asks [50; 60; 70]
           thin_bids [40; 30; 20]).
  - simpl. lia.
  - vm_compute. reflexivity.
Defined.

(** ** The outstanding volume *)

Lemma outstanding_insert (d : gmap Z GFD.Order) i o :
  d !! i = None ->
  GFD.outstanding_volume (<[i := o]> d) = GFD.outstanding_volume d + GFD.size o.
Proof.
  intros Hi. unfold GFD.outstanding_volume.
  rewrite map_fold_insert_L; [done| |done].
  intros. lia.
Qed.

Lemma outstanding_delete (d : gmap Z GFD.Order) i :
  GFD.outstanding_volume (delete i d)
  = GFD.outstanding_volume d - from_option GFD.size 0 (d !! i).
Proof.
  destruct (d !! i) as [o|] eqn:Hi; simpl.
  - rewrite <- (insert_delete_id d i o Hi) at 2.
    rewrite outstanding_insert by apply lookup_delete_eq. lia.
  - rewrite delete_id by done. lia.
Qed.

Lemma outstanding_nonneg (d : gmap Z GFD.Order) :
  map_Forall (fun _ o => 0 <= GFD.size o <= 14) d -> 0 <= GFD.outstanding_volume d.
Proof.
  induction d as [|i o d Hi IH] using map_ind; intros Hd.
  - done.
  - rewrite outstanding_insert by done.
    apply map_Forall_insert in Hd as [? ?]; [|done].
    specialize (IH ltac:(done)). lia.
Qed.

Lemma gfd_handle_sizes `{Exchange} e : keeps gfd_sizes_ok (GFD.handle e).
Proof.
  assert (forall i f r fees,
            keeps gfd_sizes_ok (GFD.on_order_status_message i f r fees)) as Hstatus.
  { intros i f r fees s [Hb Ha]. unfold gfd_sizes_ok, GFD.on_order_status_message.
    paths_with ltac:(GFDFacts.fields); split; try done; by apply map_Forall_delete. }
  destruct e; simpl.
  - unfold GFD.on_error_message. keeps_steps. apply Hstatus.
  - apply keeps_ret.
  - intros s Hs. unfold gfd_sizes_ok, GFD.on_order_filled_message, GFD.next_order_id in *.
    paths_with ltac:(GFDFacts.fields); exact Hs.
  - apply Hstatus.
  - apply keeps_ret.
  - unfold GFD.on_order_book_update_message. keeps_steps.
    + intros s Hs. unfold gfd_sizes_ok, GFD.cancel_stale in *.
      paths_with ltac:(GFDFacts.fields); exact Hs.
    + intros s [Hb Ha]. unfold gfd_sizes_ok, GFD.place_bid, GFD.next_order_id.
      paths_with ltac:(GFDFacts.fields); split; try done.
      apply map_Forall_insert_2; [|done]. unfold GFD.bid_order_size. simpl. lia.
    + intros s [Hb Ha]. unfold gfd_sizes_ok, GFD.place_ask, GFD.next_order_id.
      paths_with ltac:(GFDFacts.fields); split; try done.
      apply map_Forall_insert_2; [|done]. unfold GFD.ask_order_size. simpl. lia.
Qed.

(** X13.  The outstanding volume of the good-for-day trader, the sum of
    the recorded sizes that limits its quotes.  A fill leaves it as it
    is on both sides: the recorded size of an order does not shrink when
    the order trades.  A status message with nothing remaining takes the
    recorded size of the order off its side, and nothing for an unknown
    order.  A book update, from a state whose ledger is consistent, adds
    to each side exactly the volume of the orders it inserts on that
    side, also when the handler raises on the way.  Over any run from the
    initial state every recorded size is from 0 to 14, so the outstanding
    volume is never negative. *)
Theorem outstanding_volume_accounts `{Exchange} :
  (forall s i p v,
     let s' := after (GFD.handle (GFD.order_filled_message i p v) s) in
     GFD.outstanding_volume (GFD.bids s') = GFD.outstanding_volume (GFD.bids s) /\
     GFD.outstanding_volume (GFD.asks s') = GFD.outstanding_volume (GFD.asks s)) /\
  (forall s i f fees,
     let s' := after (GFD.handle (GFD.order_status_message i f 0 fees) s) in
     GFD.outstanding_volume (GFD.bids s')
       = GFD.outstanding_volume (GFD.bids s) - from_option GFD.size 0 (GFD.bids s !! i) /\
     GFD.outstanding_volume (GFD.asks s')
       = GFD.outstanding_volume (GFD.asks s) - from_option GFD.size 0 (GFD.asks s !! i)) /\
  (forall s i n ap av bp bv,
     GFD.ledger_ok s ->
     let o := GFD.handle (GFD.order_book_update_message i n ap av bp bv) s in
     GFD.outstanding_volume (GFD.bids (after o))
       = GFD.outstanding_volume (GFD.bids s) + volume_of bought (sent o) /\
     GFD.outstanding_volume (GFD.asks (after o))
       = GFD.outstanding_volume (GFD.asks s) + volume_of sold (sent o)) /\
  (forall es : list GFD.Event,
     let s := GFD.run GFD.init es in
     (forall i o, GFD.bids s !! i = Some o \/ GFD.asks s !! i = Some o ->
                  0 <= GFD.size o <= 14) /\
     0 <= GFD.outstanding_volume (GFD.bids s) /\
     0 <= GFD.outstanding_volume (GFD.asks s)).
Proof.
  split; [|split; [|split]].
  - intros s i p v. simpl.
    unfold GFD.on_order_filled_message, GFD.next_order_id.
    paths_with ltac:(GFDFacts.fields); done.
  - intros s i f fees. simpl. rewrite GFDFacts.gfd_status_terminal. simpl.
    by rewrite !outstanding_delete.
  - intros s i n ap av bp bv (_ & _ & _ & _ & Hb & Ha & _). simpl.
    assert (forall k, GFD.order_ids s <= k -> GFD.bids s !! k = None) as Hbn.
    { intros k Hk. apply not_elem_of_dom. intros Hd. specialize (Hb _ Hd). lia. }
    assert (forall k, GFD.order_ids s <= k -> GFD.asks s !! k = None) as Han.
    { intros k Hk. apply not_elem_of_dom. intros Hd. specialize (Ha _ Hd). lia. }
    unfold GFD.on_order_book_update_message, GFD.cancel_stale, GFD.place_bid,
      GFD.place_ask, GFD.next_order_id, id.
    paths_with ltac:(GFDFacts.fields);
      rewrite ?outstanding_insert by (first [apply Hbn|apply Han]; lia);
      cbn [volume_of foldr bought sold GFD.size]; split; lia.
  - intros es s. subst s.
    assert (gfd_sizes_ok (GFD.run GFD.init es)) as [Hb Ha].
    { apply GFDFacts.gfd_run_keeps.
      - intros e _. apply gfd_handle_sizes.
      - split; apply map_Forall_empty. }
    split; [|split; by apply outstanding_nonneg].
    intros i o [Hi|Hi]; [apply (Hb i o Hi)|apply (Ha i o Hi)].
Qed.

Lemma outstanding_volume_accounts_witness :
  GFD.outstanding_volume (GFD.bids (after (GFD.handle (X := sample) thin_book GFD.init)))
    = GFD.outstanding_volume (GFD.bids GFD.init)
      + volume_of bought (sent (GFD.handle (X := sample) thin_book GFD.init)) /\
  GFD.outstanding_volume (GFD.asks (after (GFD.handle (X := sample) thin_book GFD.init)))
    = GFD.outstanding_volume (GFD.asks GFD.init)
      + volume_of sold (sent (GFD.handle (X := sample) thin_book GFD.init)).
Proof.
  apply (proj1 (proj2 (proj2 (@outstanding_volume_accounts sample)))
           GFD.init 0 1 thin_asks [50; 60; 70] thin_bids [0; 30; 20]).
  repeat split; simpl; try lia; set_solver.
Defined.

(** ** The position and its hedge *)

Lemma volume_of_app f l1 l2 : volume_of f (l1 ++ l2) = volume_of f l1 + volume_of f l2.
Proof. induction l1 as [|c l1 IH]; simpl; [done|]. rewrite IH. lia. Qed.

Lemma no_hedge_volume l :
  existsb is_hedge l = false ->
  volume_of hedge_sold l = 0 /\ volume_of hedge_bought l = 0.
Proof.
  induction l as [|c l IH]; simpl; [done|].
  intros [Hc Hl]%orb_false_iff. destruct (IH Hl) as [-> ->].
  by destruct c.
Qed.

Lemma fak_status_position `{Exchange} i f r fees s :
  FAK.position (after (FAK.on_order_status_message i f r fees s)) = FAK.position s.
Proof. unfold FAK.on_order_status_message. paths_with ltac:(FAKFacts.fields); done. Qed.

Lemma gfd_status_position `{Exchange} i f r fees s :
  GFD.position (after (GFD.on_order_status_message i f r fees s)) = GFD.position s.
Proof. unfold GFD.on_order_status_message. paths_with ltac:(GFDFacts.fields); done. Qed.

Lemma fak_error_position `{Exchange} i m s :
  FAK.position (after (FAK.on_error_message i m s)) = FAK.position s.
Proof.
  unfold FAK.on_error_message.
  destruct (decodable m); exec; [|done].
  destruct (_ && _); [apply fak_status_position|done].
Qed.

Lemma gfd_error_position `{Exchange} i m s :
  GFD.position (after (GFD.on_error_message i m s)) = GFD.position s.
Proof.
  unfold GFD.on_error_message.
  destruct (decodable m); exec; [|done].
  destruct (_ && _); [apply gfd_status_position|done].
Qed.

Lemma fak_handle_hedged `{Exchange} e s :
  FAK.position (after (FAK.handle e s))
  = FAK.position s + volume_of hedge_sold (sent (FAK.handle e s))
    - volume_of hedge_bought (sent (FAK.handle e s)).
Proof.
  destruct e as [i m|i p v|i p v now|i f r fees|i n ap av bp bv]; unfold FAK.handle.
  - rewrite fak_error_position, fak_error_quiet. FAKFacts.fields; simpl; lia.
  - unfold FAK.on_hedge_filled_message. exec. FAKFacts.fields; simpl; lia.
  - destruct (decide (i ∈ FAK.bids s)) as [Hb|Hb];
      [|destruct (decide (i ∈ FAK.asks s)) as [Ha|Ha]].
    + rewrite FAKFacts.fak_filled_bid by done. destruct (_ >? _); FAKFacts.fields; simpl; lia.
    + rewrite FAKFacts.fak_filled_ask by done. destruct (_ <? _); FAKFacts.fields; simpl; lia.
    + rewrite FAKFacts.fak_filled_unknown by done. FAKFacts.fields; simpl; lia.
  - rewrite fak_status_position, fak_status_quiet. FAKFacts.fields; simpl; lia.
  - destruct (no_hedge_volume _ (fak_book_no_hedge i n ap av bp bv s)) as [-> ->].
    rewrite (FAKFacts.fak_book_position (FAK.position s) i n ap av bp bv s eq_refl). lia.
Qed.

Lemma fak_run_hedged `{Exchange} es s :
  FAK.position (FAK.run s es)
  = FAK.position s + volume_of hedge_sold (fak_transcript s es)
    - volume_of hedge_bought (fak_transcript s es).
Proof.
  revert s. induction es as [|e es IH]; intros s; simpl; [lia|].
  rewrite IH, fak_handle_hedged, !volume_of_app. lia.
Qed.

(** X14.  The position and its hedge.  In the fill-and-kill trader the
    position is always hedged: after any run of messages from the initial
    state it equals the volume of the hedge orders sent to sell minus the
    volume of those sent to buy.  The good-for-day trader keeps the same
    balance at every message but one: a fill that would take the position
    beyond the limit sets the position to the limit on that side and
    sends nothing, so that the part of the fill within the limit stays
    without a hedge. *)
Theorem position_is_hedged `{Exchange} :
  (forall es : list FAK.Event,
     FAK.position (FAK.run FAK.init es)
     = volume_of hedge_sold (fak_transcript FAK.init es)
       - volume_of hedge_bought (fak_transcript FAK.init es)) /\
  (forall (e : GFD.Event) s,
     let o := GFD.handle e s in
     GFD.position (after o)
       = GFD.position s + volume_of hedge_sold (sent o) - volume_of hedge_bought (sent o) \/
     (sent o = [] /\
      exists i p v, e = GFD.order_filled_message i p v /\
        ((i ∈ dom (GFD.bids s) /\ GFD.POSITION_LIMIT < GFD.position s + v /\
          GFD.position (after o) = GFD.POSITION_LIMIT) \/
         ((i ∉ dom (GFD.bids s)) /\ i ∈ dom (GFD.asks s) /\
          GFD.position s - v < - GFD.POSITION_LIMIT /\
          GFD.position (after o) = - GFD.POSITION_LIMIT)))).
Proof.
  split.
  - intros es. rewrite fak_run_hedged. GFDFacts.fields; simpl; lia.
  - intros e s.
    destruct e as [i m|i p v|i p v|i f r fees|i n ap av bp bv|i n ap av bp bv];
      unfold GFD.handle; cbv zeta.
    + left. rewrite gfd_error_position, gfd_error_quiet. GFDFacts.fields; simpl; lia.
    + left. unfold GFD.on_hedge_filled_message. exec. GFDFacts.fields; simpl; lia.
    + destruct (decide (i ∈ dom (GFD.bids s))) as [Hb|Hb];
        [|destruct (decide (i ∈ dom (GFD.asks s))) as [Ha|Ha]].
      * rewrite GFDFacts.gfd_filled_bid by done.
        destruct (_ >? _) eqn:Hv; [right|left; GFDFacts.fields; simpl; lia].
        GFDFacts.fields. split; [done|]. exists i, p, v. split; [done|]. left.
        repeat split; try done; lia.
      * rewrite GFDFacts.gfd_filled_ask by done.
        destruct (_ <? _) eqn:Hv; [right|left; GFDFacts.fields; simpl; lia].
        GFDFacts.fields. split; [done|]. exists i, p, v. split; [done|]. right.
        repeat split; try done; lia.
      * left. rewrite GFDFacts.gfd_filled_unknown by done. GFDFacts.fields; simpl; lia.
    + left. rewrite gfd_status_position, gfd_status_quiet. GFDFacts.fields; simpl; lia.
    + left. unfold GFD.on_trade_ticks_message. exec. GFDFacts.fields; simpl; lia.
    + left.
      destruct (no_hedge_volume _ (gfd_book_no_hedge i n ap av bp bv s)) as [-> ->].
      rewrite (GFDFacts.gfd_book_position (GFD.position s) i n ap av bp bv s eq_refl). lia.
Qed.

(** ** Exceptions *)

Lemma only_bind {A B} (P : Py.exn -> Prop) (r : Py.res A) (f : A -> Py.res B) :
  only P r -> (forall a, only P (f a)) -> only P (r ≫= f).
Proof.
  intros Hr Hf x. destruct r as [a|e]; simpl; [exact (Hf a x)|].
  intros [= <-]. by apply Hr.
Qed.

Lemma only_val {A} (P : Py.exn -> Prop) (a : A) : only P (Py.Val a).
Proof. by intros x. Qed.

Lemma only_ret {A} (P : Py.exn -> Prop) (a : A) : only P (mret a).
Proof. by intros x. Qed.

Lemma only_if {A} (P : Py.exn -> Prop) (c : bool) (r1 r2 : Py.res A) :
  only P r1 -> only P r2 -> only P (if c then r1 else r2).
Proof. by destruct c. Qed.

Lemma only_index {A} (l : list A) k : only from_book (Py.index l k).
Proof. unfold Py.index. intros x. destruct (l !! k); [done|]. intros [= <-]. by left. Qed.

Lemma only_float_of_int z : only (eq Py.OverflowError) (Py.float_of_int z).
Proof.
  unfold Py.float_of_int. intros x.
  destruct (Py.nearest z 0); try done. by intros [= <-].
Qed.

Lemma only_to_float a : only (eq Py.OverflowError) (Py.to_float a).
Proof. destruct a; [apply only_float_of_int|apply only_val]. Qed.

Lemma only_float_op op a b : only from_book (Py.float_op op a b).
Proof.
  unfold Py.float_op. intros x.
  destruct (Py.to_float a) eqn:Ha; simpl.
  - destruct (Py.to_float b) eqn:Hb; simpl; [done|].
    intros [= <-]. right; left. symmetry. by apply (only_to_float b).
  - intros [= <-]. right; left. symmetry. by apply (only_to_float a).
Qed.

Lemma only_add a b : only from_book (Py.add a b).
Proof. destruct a, b; first [apply only_val|apply only_float_op]. Qed.

Lemma only_sub a b : only from_book (Py.sub a b).
Proof. destruct a, b; first [apply only_val|apply only_float_op]. Qed.

Lemma only_mul a b : only from_book (Py.mul a b).
Proof. destruct a, b; first [apply only_val|apply only_float_op]. Qed.

(** A division by a constant that is not zero raises no
    [ZeroDivisionError]. *)
Lemma only_truediv a c f :
  (c =? 0) = false -> Py.float_of_int c = Py.Val f -> SFeqb f Py.fzero = false ->
  only from_book (Py.truediv a (Py.Int c)).
Proof.
  intros Hc Hf Hz x. destruct a as [z|y]; unfold Py.truediv.
  - unfold Py.int_true_divide. rewrite Hc.
    destruct (z =? 0); [done|]. cbv zeta.
    destruct (binary_normalize _ _ _ _ _); simpl; try done.
    intros [= <-]. by right; left.
  - cbn [Py.to_float]. rewrite Hf. simpl. by rewrite Hz.
Qed.

Lemma only_floordiv a c f :
  (c =? 0) = false -> Py.float_of_int c = Py.Val f -> SFeqb f Py.fzero = false ->
  only from_book (Py.floordiv a (Py.Int c)).
Proof.
  intros Hc Hf Hz x. destruct a as [z|y]; unfold Py.floordiv.
  - by rewrite Hc.
  - cbn [Py.to_float]. rewrite Hf. simpl. by rewrite Hz.
Qed.

Lemma only_truediv_100 a : only from_book (Py.truediv a (Py.Int 100)).
Proof. by eapply only_truediv; [|vm_compute; reflexivity|]. Qed.

Lemma only_truediv_2 a : only from_book (Py.truediv a (Py.Int 2)).
Proof. by eapply only_truediv; [|vm_compute; reflexivity|]. Qed.

Lemma only_floordiv_100 a : only from_book (Py.floordiv a (Py.Int 100)).
Proof. by eapply only_floordiv; [|vm_compute; reflexivity|]. Qed.

Lemma only_int a : only from_book (Py.int a).
Proof.
  intros x. destruct a as [z|f]; [done|]. simpl.
  destruct f as [| | |s m [|e|e]]; simpl; try done; intros [= <-];
    [by right; left|by right; right].
Qed.

Ltac only_steps :=
  repeat match goal with
    | |- only _ (_ ≫= _) => apply only_bind; [|intros ?]
    | |- only _ (if _ then _ else _) => apply only_if
    | |- only _ (mret _) => apply only_ret
    | |- only _ (Py.Val _) => apply only_val
    | |- only _ (Py.index _ _) => apply only_index
    | |- only _ (Py.add _ _) => apply only_add
    | |- only _ (Py.sub _ _) => apply only_sub
    | |- only _ (Py.mul _ _) => apply only_mul
    | |- only _ (Py.int _) => apply only_int
    | |- only _ (Py.truediv _ _) => first [apply only_truediv_100|apply only_truediv_2]
    | |- only _ (Py.floordiv _ _) => apply only_floordiv_100
    | |- only _ (let '(_, _) := ?x in _) => is_var x; destruct x
    end.

Lemma fak_quote_prices_only `{Exchange} s ap bp : only from_book (FAK.quote_prices s ap bp).
Proof.
  unfold FAK.quote_prices, FAK.fair_price, FAK.trend_adjusted, FAK.quotes_around.
  only_steps.
Qed.

Lemma gfd_quote_prices_only `{Exchange} s ap bp : only from_book (GFD.quote_prices s ap bp).
Proof. unfold GFD.quote_prices. cbv zeta. only_steps. Qed.

Section Raising.
Context {S : Type}.

Lemma raises_bind (P : Py.exn -> Prop) {A B} (m : M S A) (f : A -> M S B) :
  raises P m -> (forall a, raises P (f a)) -> raises P (m ≫= f).
Proof.
  intros Hm Hf s x. specialize (Hm s).
  unfold mbind, M_bind. cbv zeta.
  destruct (result (m s)) as [a|e]; simpl; [apply Hf|].
  intros [= <-]. by apply Hm.
Qed.

Lemma raises_eval (P : Py.exn -> Prop) {A} (r : Py.res A) : only P r -> raises P (eval (S := S) r).
Proof. intros Hr s x. by destruct r as [a|e]; [|apply Hr]. Qed.
Lemma raises_attr (P : Py.exn -> Prop) {A} (f : S -> A) : raises P (attr f).
Proof. by intros s x. Qed.
Lemma raises_ret (P : Py.exn -> Prop) {A} (a : A) : raises P (mret (M := M S) a).
Proof. by intros s x. Qed.
Lemma raises_send (P : Py.exn -> Prop) c : raises P (send (S := S) c).
Proof. by intros s x. Qed.
Lemma raises_assign (P : Py.exn -> Prop) (f : S -> S) : raises P (assign f).
Proof. by intros s x. Qed.
Lemma raises_if (P : Py.exn -> Prop) {A} (c : bool) (m1 m2 : M S A) :
  raises P m1 -> raises P m2 -> raises P (if c then m1 else m2).
Proof. by destruct c. Qed.

End Raising.

Ltac raises_steps :=
  repeat match goal with
    | |- raises _ (_ ≫= _) => apply raises_bind; [|intros ?]
    | |- raises _ (if _ then _ else _) => apply raises_if
    | |- raises _ (attr _) => apply raises_attr
    | |- raises _ (eval _) => apply raises_eval
    | |- raises _ (mret _) => apply raises_ret
    | |- raises _ (send _) => apply raises_send
    | |- raises _ (assign _) => apply raises_assign
    | |- raises _ (let '(_, _) := ?x in _) => is_var x; destruct x
    end.

Lemma fak_status_returns `{Exchange} i f r fees :
  raises (fun _ => False) (FAK.on_order_status_message i f r fees).
Proof. unfold FAK.on_order_status_message. raises_steps. Qed.

Lemma gfd_status_returns `{Exchange} i f r fees :
  raises (fun _ => False) (GFD.on_order_status_message i f r fees).
Proof. unfold GFD.on_order_status_message. raises_steps. Qed.

Lemma fak_fill_returns `{Exchange} i p v now :
  raises (fun _ => False) (FAK.on_order_filled_message i p v now).
Proof. unfold FAK.on_order_filled_message, FAK.next_order_id. raises_steps. Qed.

Lemma gfd_fill_returns `{Exchange} i p v :
  raises (fun _ => False) (GFD.on_order_filled_message i p v).
Proof. unfold GFD.on_order_filled_message, GFD.next_order_id. raises_steps. Qed.

Lemma fak_book_raises `{Exchange} i n ap av bp bv :
  raises from_book (FAK.on_order_book_update_message i n ap av bp bv).
Proof.
  unfold FAK.on_order_book_update_message, FAK.update_trend, FAK.cancel_stale,
    FAK.place_orders, FAK.next_order_id.
  raises_steps; try apply fak_quote_prices_only; only_steps.
Qed.

Lemma gfd_book_raises `{Exchange} i n ap av bp bv :
  raises from_book (GFD.on_order_book_update_message i n ap av bp bv).
Proof.
  unfold GFD.on_order_book_update_message, GFD.cancel_stale, GFD.place_bid,
    GFD.place_ask, GFD.next_order_id.
  raises_steps; try apply gfd_quote_prices_only; only_steps.
Qed.

(** X15.  What the handlers can raise.  In both traders the handlers of
    fills, hedge fills, status messages (and trade ticks) always return.
    The handler of error messages raises only [UnicodeDecodeError], and
    only for a message that does not decode.  The handler of book updates
    raises only for a book of the future, and then an [IndexError], an
    [OverflowError] or a [ValueError]: the divisions are by the constants
    100 and 2 and never raise [ZeroDivisionError]. *)
Theorem handlers_raise_only `{Exchange} :
  (forall e s x,
     result (FAK.handle e s) = Py.Exc x ->
     match e with
     | FAK.error_message _ m => x = Py.UnicodeDecodeError /\ decodable m = false
     | FAK.order_book_update_message i _ _ _ _ _ =>
         i = FUTURE /\ (x = Py.IndexError \/ x = Py.OverflowError \/ x = Py.ValueError)
     | _ => False
     end) /\
  (forall e s x,
     result (GFD.handle e s) = Py.Exc x ->
     match e with
     | GFD.error_message _ m => x = Py.UnicodeDecodeError /\ decodable m = false
     | GFD.order_book_update_message i _ _ _ _ _ =>
         i = FUTURE /\ (x = Py.IndexError \/ x = Py.OverflowError \/ x = Py.ValueError)
     | _ => False
     end).
Proof.
  split; intros e s x Hx.
  - destruct e as [i m|i p v|i p v now|i f r fees|i n ap av bp bv]; unfold FAK.handle in Hx.
    + unfold FAK.on_error_message in Hx. revert Hx.
      destruct (decodable m); exec; [|by intros [= <-]].
      destruct (_ && _); [|done]. intros Hx.
      destruct (fak_status_returns i 0 0 0 s x Hx).
    + done.
    + destruct (fak_fill_returns i p v now s x Hx).
    + destruct (fak_status_returns i f r fees s x Hx).
    + split; [|apply (fak_book_raises i n ap av bp bv s x Hx)].
      unfold FAK.on_order_book_update_message in Hx.
      destruct (Z.eqb_spec i FUTURE); done.
  - destruct e as [i m|i p v|i p v|i f r fees|i n ap av bp bv|i n ap av bp bv];
      unfold GFD.handle in Hx.
    + unfold GFD.on_error_message in Hx. revert Hx.
      destruct (decodable m); exec; [|by intros [= <-]].
      destruct (_ && _); [|done]. intros Hx.
      destruct (gfd_status_returns i 0 0 0 s x Hx).
    + done.
    + destruct (gfd_fill_returns i p v s x Hx).
    + destruct (gfd_status_returns i f r fees s x Hx).
    + done.
    + split; [|apply (gfd_book_raises i n ap av bp bv s x Hx)].
      unfold GFD.on_order_book_update_message in Hx.
      destruct (Z.eqb_spec i FUTURE); done.
Qed.

Lemma handlers_raise_only_witness :
  0 = FUTURE (Exchange := sample) /\
  (Py.IndexError = Py.IndexError \/ Py.IndexError = Py.OverflowError \/
   Py.IndexError = Py.ValueError).
Proof.
  apply (proj1 (@handlers_raise_only sample)
           (FAK.order_book_update_message 0 1 [] [] [] []) FAK.init Py.IndexError).
  vm_compute. reflexivity.
Defined.

(** ** The levels of the book *)

(** X16.  What a book update reads.  The fill-and-kill trader looks at
    the first level of the book only: two books with the same best
    prices and the same volumes at the best prices have the same effect,
    whatever their other levels, their lengths, and their sequence
    numbers.  The good-for-day trader looks at the first and the third
    price of each side and at the first volume of each side, and at
    nothing else. *)
Theorem book_levels_read `{Exchange} :
  (forall s i n n' ap ap' av av' bp bp' bv bv',
     ap !! 0%nat = ap' !! 0%nat -> bp !! 0%nat = bp' !! 0%nat ->
     av !! 0%nat = av' !! 0%nat -> bv !! 0%nat = bv' !! 0%nat ->
     FAK.handle (FAK.order_book_update_message i n ap av bp bv) s
     = FAK.handle (FAK.order_book_update_message i n' ap' av' bp' bv') s) /\
  (forall s i n n' ap ap' av av' bp bp' bv bv',
     ap !! 0%nat = ap' !! 0%nat -> bp !! 0%nat = bp' !! 0%nat ->
     ap !! 2%nat = ap' !! 2%nat -> bp !! 2%nat = bp' !! 2%nat ->
     av !! 0%nat = av' !! 0%nat -> bv !! 0%nat = bv' !! 0%nat ->
     GFD.handle (GFD.order_book_update_message i n ap av bp bv) s
     = GFD.handle (GFD.order_book_update_message i n' ap' av' bp' bv') s).
Proof.
  split.
  - intros s i n n' ap ap' av av' bp bp' bv bv' Ha Hb Hav Hbv.
    unfold FAK.handle, FAK.on_order_book_update_message, FAK.quote_prices,
      FAK.fair_price, FAK.update_trend, Py.index.
    by rewrite Ha, Hb, Hav, Hbv.
  - intros s i n n' ap ap' av av' bp bp' bv bv' Ha Hb Ha2 Hb2 Hav Hbv.
    unfold GFD.handle, GFD.on_order_book_update_message, GFD.quote_prices, Py.index.
    by rewrite Ha, Hb, Ha2, Hb2, Hav, Hbv.
Qed.

Lemma book_levels_read_witness :
  FAK.handle (X := sample)
    (FAK.order_book_update_message 0 1 [10002; 10003; 10004] [10; 20; 30]
       [10000; 9900; 9800] [10; 5; 5]) FAK.init
  = FAK.handle (X := sample)
      (FAK.order_book_update_message 0 9 [10002] [10; 0] [10000; 1] [10]) FAK.init.
Proof.
  apply (proj1 (@book_levels_read sample)); reflexivity.
Defined.
